(** * Star Jet: the sales form, the sales-tracking page and the expense form

    A shallow embedding of [sales.js] (sanitizeInput, validateNumericInput,
    calculateRowTotal, updateAllTotals and the submit handler of the sales
    form), of [sales-track.js] (calculateTotal, the sanitizers, the search,
    the two sections of the page, the status toggle, the CSV export and the
    operations on the sales in memory) and of the validators and the submit
    handler of [expenses.js], over a small model of the JavaScript built-ins
    these functions call.

    Numbers are IEEE 754 binary64 values: the kernel's primitive [float],
    whose operations are specified by [SpecFloat].  Strings are sequences of
    code units; a code unit is an [ascii], read as a code unit below 256. *)

From Stdlib Require Import ZArith Bool List String Ascii DecimalString Lia Floats.
Import ListNotations.

Open Scope string_scope.

(* ================================================================== *)
(** * JavaScript built-ins used by the sources *)
(* ================================================================== *)

Module Js.

(** ** Values and [typeof] *)

(** The primitive values a caller may pass; objects, symbols and big
    integers are left out. *)
Inductive JsValue :=
| JsUndefined
| JsNull
| JsBoolean (b : bool)
| JsNumber (n : float)
| JsString (s : string).

(** ** Code units *)

Definition code (c : ascii) : Z := Z.of_nat (nat_of_ascii c).

Definition isChar (a c : ascii) : bool := Ascii.eqb a c.

(** ASCII lower-casing, the only case folding a pattern without the [u]
    flag applies to characters below 128. *)
Definition toLowerAscii (c : ascii) : ascii :=
  let n := code c in
  if ((65 <=? n) && (n <=? 90))%Z then ascii_of_nat (nat_of_ascii c + 32) else c.

Definition isCharCi (a c : ascii) : bool :=
  Ascii.eqb (toLowerAscii a) (toLowerAscii c).

Definition isDigit (c : ascii) : bool :=
  let n := code c in ((48 <=? n) && (n <=? 57))%Z.

(** [\w]: letters, digits and the underscore. *)
Definition isWord (c : ascii) : bool :=
  let n := code c in
  (((65 <=? n) && (n <=? 90)) || ((97 <=? n) && (n <=? 122))
   || ((48 <=? n) && (n <=? 57)) || (n =? 95))%Z.

(** WhiteSpace and LineTerminator code units below 256: TAB, LF, VT, FF, CR,
    SP and NBSP. *)
Definition isWhiteSpace (c : ascii) : bool :=
  let n := code c in
  (((9 <=? n) && (n <=? 13)) || (n =? 32) || (n =? 160))%Z.

(** ** String.prototype.trim *)

Fixpoint trimStart (s : string) : string :=
  match s with
  | String c r => if isWhiteSpace c then trimStart r else s
  | EmptyString => EmptyString
  end.

Fixpoint trimEnd (s : string) : string :=
  match s with
  | String c r =>
      match trimEnd r with
      | EmptyString => if isWhiteSpace c then EmptyString else String c EmptyString
      | r' => String c r'
      end
  | EmptyString => EmptyString
  end.

Definition trim (s : string) : string := trimEnd (trimStart s).

(** ** Regular expressions: the fragment the sources use

    A pattern is a sequence of character classes, each taken once, or
    repeated greedily ([*], [+]) with backtracking. *)

Inductive quant := One | Star | Plus.

Definition atom : Type := (ascii -> bool) * quant.
Definition pattern : Type := list atom.

(** [greedy cls k s]: consume as many characters of class [cls] as possible,
    giving back one at a time until the continuation [k] matches.  The result
    is the number of characters consumed, continuation included. *)
Fixpoint greedy (cls : ascii -> bool) (k : string -> option nat) (s : string)
  : option nat :=
  match s with
  | String c r =>
      if cls c then
        match greedy cls k r with
        | Some n => Some (S n)
        | None => k s
        end
      else k s
  | EmptyString => k s
  end.

(** The length of the match of [p] anchored at the head of [s], if any. *)
Fixpoint matchHere (p : pattern) (s : string) : option nat :=
  match p with
  | [] => Some O
  | (cls, One) :: p' =>
      match s with
      | String c r => if cls c then option_map S (matchHere p' r) else None
      | EmptyString => None
      end
  | (cls, Star) :: p' => greedy cls (matchHere p') s
  | (cls, Plus) :: p' =>
      match s with
      | String c r =>
          if cls c then option_map S (greedy cls (matchHere p') r) else None
      | EmptyString => None
      end
  end.

(** [s.replace(/p/g, '')]: scan from the left, delete each match and resume
    after it.  [skip] counts the characters of the current match that are
    still to be dropped. *)
Fixpoint replaceFrom (p : pattern) (skip : nat) (s : string) : string :=
  match s with
  | EmptyString => EmptyString
  | String c r =>
      match skip with
      | S k => replaceFrom p k r
      | O =>
          match matchHere p s with
          | Some (S k) => replaceFrom p k r
          | _ => String c (replaceFrom p O r)
          end
      end
  end.

Definition replaceAll (p : pattern) (s : string) : string := replaceFrom p O s.

(** A literal, compared case-insensitively (flag [i]). *)
Definition literalCi (s : string) : pattern :=
  map (fun c => (isCharCi c, One)) (list_ascii_of_string s).


(** ** Numbers *)

Definition isNaN (x : float) : bool := PrimFloat.is_nan x.
Definition isFinite (x : float) : bool := PrimFloat.is_finite x.

(** [a < b] and [a > b] on numbers. *)
Definition lt (a b : float) : bool := (a <? b)%float.
Definition gt (a b : float) : bool := (b <? a)%float.

(** A number in a boolean position: [0], [-0] and [NaN] are falsy. *)
Definition truthy (x : float) : bool := negb (isNaN x || PrimFloat.is_zero x).

(** [x || 0] on a number [x]. *)
Definition orZero (x : float) : float := if truthy x then x else 0%float.

Definition MAX_SAFE_INTEGER : float := 9007199254740991%float.

(** The binary64 value nearest to [(-1)^neg * m * 10^e] (ties to even). *)
Definition ofDecimal (neg : bool) (m e : Z) : float :=
  match m with
  | Zpos p =>
      if (0 <=? e)%Z then
        let n := (Zpos p * 10 ^ e)%Z in
        SF2Prim (binary_normalize prec emax (if neg then (- n)%Z else n) 0%Z false)
      else
        SF2Prim (SFdiv prec emax (S754_finite neg p 0%Z)
                   (S754_finite false (Z.to_pos (10 ^ (- e))) 0%Z))
  | _ => if neg then neg_zero else zero
  end.

(** A maximal run of decimal digits: the value accumulated on [acc], the
    number of digits read added to [cnt], and the rest of the string. *)
Fixpoint readDigits (acc cnt : Z) (s : string) : Z * Z * string :=
  match s with
  | String c r =>
      if isDigit c then readDigits (10 * acc + (code c - 48))%Z (cnt + 1)%Z r
      else (acc, cnt, s)
  | EmptyString => (acc, cnt, s)
  end.

(** An optional sign. *)
Definition readSign (s : string) : bool * string :=
  match s with
  | String c r =>
      if isChar "-"%char c then (true, r)
      else if isChar "+"%char c then (false, r)
      else (false, s)
  | EmptyString => (false, s)
  end.

(** ExponentPart, when one is there: [e] or [E], an optional sign and at
    least one digit.  Its value, or 0 when there is none. *)
Definition readExponent (s : string) : Z :=
  match s with
  | String c r =>
      if isChar "e"%char c || isChar "E"%char c then
        let '(neg, r') := readSign r in
        let '(v, cnt, _) := readDigits 0 0 r' in
        if (cnt =? 0)%Z then 0%Z else if neg then (- v)%Z else v
      else 0%Z
  | EmptyString => 0%Z
  end.

(** [parseFloat]: the value of the longest prefix of the input, leading
    white space removed, that is a StrDecimalLiteral; [NaN] if there is
    none. *)
Definition parseFloat (input : string) : float :=
  let '(neg, s1) := readSign (trimStart input) in
  if String.prefix "Infinity" s1 then (if neg then neg_infinity else infinity)
  else
    let '(ip, n1, s2) := readDigits 0 0 s1 in
    let '(m, n2, s3) :=
      match s2 with
      | String c r => if isChar "."%char c then readDigits ip 0 r else (ip, 0%Z, s2)
      | EmptyString => (ip, 0%Z, s2)
      end in
    if ((n1 =? 0) && (n2 =? 0))%Z then nan
    else ofDecimal neg m (readExponent s3 - n2).


(** [parseInt] without a radix: an optional sign, then hexadecimal digits
    after a [0x] or [0X] prefix, decimal digits otherwise. *)
Definition hexVal (c : ascii) : option Z :=
  let n := code c in
  if ((48 <=? n) && (n <=? 57))%Z then Some (n - 48)%Z
  else if ((97 <=? n) && (n <=? 102))%Z then Some (n - 87)%Z
  else if ((65 <=? n) && (n <=? 70))%Z then Some (n - 55)%Z
  else None.

Fixpoint readHexDigits (acc cnt : Z) (s : string) : Z * Z :=
  match s with
  | String c r =>
      match hexVal c with
      | Some d => readHexDigits (16 * acc + d)%Z (cnt + 1)%Z r
      | None => (acc, cnt)
      end
  | EmptyString => (acc, cnt)
  end.

Definition parseInt (input : string) : float :=
  let '(neg, s1) := readSign (trimStart input) in
  let '(v, cnt) :=
    if String.prefix "0x" s1 || String.prefix "0X" s1
    then readHexDigits 0 0 (String.substring 2 (String.length s1 - 2) s1)
    else let '(v, cnt, _) := readDigits 0 0 s1 in (v, cnt) in
  if (cnt =? 0)%Z then nan else ofDecimal neg v 0.

(** ** Number to string *)

Definition digitsOf (n : Z) : string := NilZero.string_of_uint (N.to_uint (Z.to_N n)).

Fixpoint zeros (n : nat) : string :=
  match n with
  | O => EmptyString
  | S k => String "0"%char (zeros k)
  end.

(** The [n] with [10^(n-1) <= num/den < 10^n], for a positive dyadic
    [num/den]. *)
Definition decade (num den : Z) : Z :=
  if (den <=? num)%Z then Z.of_nat (String.length (digitsOf (num / den)))
  else (1 - Z.of_nat (String.length (digitsOf (den / num))))%Z.

(** Number::toString, step 5: the digits [s] and the exponent [n] such that
    [s * 10^(n-k)] reads back as [x], with the fewest digits [k], and then
    the nearest to [x = num/den] (the even one on a tie).  [k] runs upwards
    from its starting value; 17 digits always suffice. *)
Fixpoint shortest (fuel : nat) (k : Z) (x : float) (num den n0 : Z) : Z * Z :=
  let e10 := (n0 - k)%Z in
  let num' := (num * 10 ^ Z.max (- e10) 0)%Z in
  let den' := (den * 10 ^ Z.max e10 0)%Z in
  let lo := (num' / den')%Z in
  let hi := (lo + 1)%Z in
  let okLo := Leibniz.eqb (ofDecimal false lo e10) x in
  let okHi := Leibniz.eqb (ofDecimal false hi e10) x in
  let pickHi := if (hi =? 10 ^ k)%Z then (10 ^ (k - 1), n0 + 1)%Z else (hi, n0) in
  match okLo, okHi with
  | true, true =>
      match (2 * num' ?= (2 * lo + 1) * den')%Z with
      | Lt => (lo, n0)
      | Gt => pickHi
      | Eq => if Z.even lo then (lo, n0) else pickHi
      end
  | true, false => (lo, n0)
  | false, true => pickHi
  | false, false =>
      match fuel with
      | S fuel' => shortest fuel' (k + 1) x num den n0
      | O => (lo, n0)
      end
  end.

(** Number::toString, steps 6 to 12: the layout of the digits. *)
Definition layout (digits : string) (n : Z) : string :=
  let k := Z.of_nat (String.length digits) in
  if ((k <=? n) && (n <=? 21))%Z then digits ++ zeros (Z.to_nat (n - k))
  else if ((0 <? n) && (n <=? 21))%Z then
    String.substring 0 (Z.to_nat n) digits ++ "."
      ++ String.substring (Z.to_nat n) (Z.to_nat (k - n)) digits
  else if ((-6 <? n) && (n <=? 0))%Z then "0." ++ zeros (Z.to_nat (- n)) ++ digits
  else
    let e := (n - 1)%Z in
    let exponent := (if (e <? 0)%Z then "-" else "+") ++ digitsOf (Z.abs e) in
    if (k =? 1)%Z then digits ++ "e" ++ exponent
    else String.substring 0 1 digits ++ "."
           ++ String.substring 1 (Z.to_nat (k - 1)) digits ++ "e" ++ exponent.

Definition numberToString (x : float) : string :=
  match Prim2SF x with
  | S754_nan => "NaN"
  | S754_zero _ => "0"
  | S754_infinity s => if s then "-Infinity" else "Infinity"
  | S754_finite s m e =>
      let num := (Zpos m * 2 ^ Z.max e 0)%Z in
      let den := (2 ^ Z.max (- e) 0)%Z in
      let '(d, n) := shortest 17 1 (PrimFloat.abs x) num den (decade num den) in
      (if s then "-" else "") ++ layout (digitsOf d) n
  end.

(** Number.prototype.toFixed(2) *)
Definition toFixed2 (x : float) : string :=
  match Prim2SF x with
  | S754_finite s m e =>
      if (PrimFloat.abs x <? 1e21)%float then
        let n := if (0 <=? e)%Z then (100 * Zpos m * 2 ^ e)%Z
                 else ((200 * Zpos m + 2 ^ (- e)) / 2 ^ (1 - e))%Z in
        let d := digitsOf n in
        let d := zeros (3 - String.length d) ++ d in
        let k := String.length d in
        (if s then "-" else "") ++ String.substring 0 (k - 2) d ++ "."
          ++ String.substring (k - 2) 2 d
      else numberToString x
  | S754_zero _ => "0.00"
  | _ => numberToString x
  end.

(** [String(v)] *)
Definition ToString (v : JsValue) : string :=
  match v with
  | JsUndefined => "undefined"
  | JsNull => "null"
  | JsBoolean b => if b then "true" else "false"
  | JsNumber n => numberToString n
  | JsString s => s
  end.

(** ** Values that are not primitive

    Any value a caller may pass: a primitive, or another value (an object, a
    symbol, a big integer), given by what [String(value)] does on it: it
    returns a string, or it throws, as it does on [Object.create(null)] and
    on an object whose [toString] throws. *)
Inductive JsAny :=
| Primitive (v : JsValue)
| Other (conversion : option string).

(** [String(value)]; [None] when the conversion throws. *)
Definition StringOf (value : JsAny) : option string :=
  match value with
  | Primitive v => Some (ToString v)
  | Other conversion => conversion
  end.

(** ** Values in a boolean position, [||] and [===] *)

Definition truthyValue (v : JsValue) : bool :=
  match v with
  | JsUndefined | JsNull => false
  | JsBoolean b => b
  | JsNumber n => truthy n
  | JsString s => match s with EmptyString => false | _ => true end
  end.

(** [a || b] *)
Definition orElse (a b : JsValue) : JsValue := if truthyValue a then a else b.

(** [v === 'text'] *)
Definition isString (text : string) (v : JsValue) : bool :=
  match v with
  | JsString s => String.eqb s text
  | _ => false
  end.

(** ** More of String.prototype *)

(** The lower-case form of a code unit below 256: the letters A to Z, and
    the Latin-1 capitals U+00C0 to U+00DE but for the multiplication sign. *)
Definition toLowerUnit (c : ascii) : ascii :=
  let n := code c in
  if (((65 <=? n) && (n <=? 90)) || ((192 <=? n) && (n <=? 222) && negb (n =? 215)))%Z
  then ascii_of_nat (nat_of_ascii c + 32) else c.

Fixpoint toLowerCase (s : string) : string :=
  match s with
  | String c r => String (toLowerUnit c) (toLowerCase r)
  | EmptyString => EmptyString
  end.

(** [s.includes(sub)] *)
Fixpoint includes (s sub : string) : bool :=
  String.prefix sub s
  || match s with
     | String _ r => includes r sub
     | EmptyString => false
     end.

(** [s.substring(0, n)] and [s.slice(0, n)], for [n] no less than 0. *)
Definition substring0 (n : nat) (s : string) : string := String.substring 0 n s.

(** [s.split(sep)] for a separator of one character. *)
Fixpoint split (sep : ascii) (s : string) : list string :=
  match s with
  | EmptyString => [EmptyString]
  | String c r =>
      if isChar sep c then EmptyString :: split sep r
      else
        match split sep r with
        | first :: rest => String c first :: rest
        | [] => [String c EmptyString]
        end
  end.

(** [parts.join(sep)] on strings. *)
Fixpoint join (sep : string) (parts : list string) : string :=
  match parts with
  | [] => EmptyString
  | [x] => x
  | x :: rest => x ++ sep ++ join sep rest
  end.

(** [a <= b] on strings: code unit by code unit. *)
Definition stringLe (a b : string) : bool := String.leb a b.

(** [s.replace(/p/g, by)]: as [replaceFrom], each match giving way to [by]. *)
Fixpoint replaceFromWith (p : pattern) (by_ : string) (skip : nat) (s : string) : string :=
  match s with
  | EmptyString => EmptyString
  | String c r =>
      match skip with
      | S k => replaceFromWith p by_ k r
      | O =>
          match matchHere p s with
          | Some (S k) => by_ ++ replaceFromWith p by_ k r
          | _ => String c (replaceFromWith p by_ O r)
          end
      end
  end.

Definition replaceAllWith (p : pattern) (by_ : string) (s : string) : string :=
  replaceFromWith p by_ O s.

(** The comma, the double quote and the line feed. *)
Definition comma : ascii := ","%char.
Definition dquote : ascii := "034"%char.
Definition newline : ascii := "010"%char.

(** ** Text nodes

    [div.textContent = text; div.innerHTML]: the serialization of a text
    node escapes the ampersand, the no-break space and the two angle
    brackets. *)
Fixpoint escapeText (text : string) : string :=
  match text with
  | EmptyString => EmptyString
  | String c r =>
      (if isChar "&"%char c then "&amp;"
       else if isChar "160"%char c then "&nbsp;"
       else if isChar "<"%char c then "&lt;"
       else if isChar ">"%char c then "&gt;"
       else String c EmptyString) ++ escapeText r
  end.

End Js.

(* ================================================================== *)
(** * sales.js *)
(* ================================================================== *)

Module Sales.
Import Js.

(** [/<[^>]*>/g] *)
Definition reTag : pattern :=
  [(isChar "<"%char, One); (fun c => negb (isChar ">"%char c), Star); (isChar ">"%char, One)].

(** [/[<>]/g] *)
Definition reAngle : pattern :=
  [(fun c => isChar "<"%char c || isChar ">"%char c, One)].

(** [/javascript:/gi] *)
Definition reJavascript : pattern := literalCi "javascript:".

(** [/on\w+=/gi] *)
Definition reHandler : pattern :=
  [(isCharCi "o"%char, One); (isCharCi "n"%char, One); (isWord, Plus); (isChar "="%char, One)].

Definition sanitizeString (input : string) : string :=
  trim (replaceAll reHandler
         (replaceAll reJavascript
           (replaceAll reAngle
             (replaceAll reTag input)))).

Definition sanitizeInput (input : JsValue) : string :=
  match input with
  | JsString s => sanitizeString s
  | _ => ""
  end.


(** ** Bounds *)

Module SECURITY_CONFIG.
Definition MAX_ITEMS_PER_SALE : nat := 50.
Definition MAX_QUANTITY_PER_ITEM : float := 10000.
Definition MAX_PRICE_PER_ITEM : float := 1000000.
Definition MAX_DISCOUNT_PERCENTAGE : float := 100.
Definition MIN_ITEM_DIMENSIONS : float := ofDecimal false 1 (-2).   (* 0.01 *)
Definition MAX_ITEM_DIMENSIONS : float := 10000.
End SECURITY_CONFIG.

(** ** validateNumericInput

    The field name only feeds the console warnings, which are not
    modelled. *)

Record Validation := { isValid : bool; sanitizedValue : float }.

Definition validateNumericInput (value : JsValue) (min max : float) : Validation :=
  let sanitizedValue := sanitizeInput (JsString (ToString value)) in
  let numericValue := parseFloat sanitizedValue in
  if isNaN numericValue then
    {| isValid := false; sanitizedValue := 0 |}
  else if lt numericValue min || gt numericValue max then
    {| isValid := false; sanitizedValue := numericValue |}
  else
    {| isValid := true; sanitizedValue := numericValue |}.

(** ** calculateRowTotal *)

(** [!isFinite(total) || total > Number.MAX_SAFE_INTEGER] *)
Definition overflows (total : float) : bool :=
  negb (isFinite total) || gt total MAX_SAFE_INTEGER.

Definition calculateRowTotal (width length quantity unitPrice : JsValue) : float :=
  let widthValidation := validateNumericInput width 0 SECURITY_CONFIG.MAX_ITEM_DIMENSIONS in
  let lengthValidation := validateNumericInput length 0 SECURITY_CONFIG.MAX_ITEM_DIMENSIONS in
  let quantityValidation := validateNumericInput quantity 0 SECURITY_CONFIG.MAX_QUANTITY_PER_ITEM in
  let priceValidation := validateNumericInput unitPrice 0 SECURITY_CONFIG.MAX_PRICE_PER_ITEM in
  let widthVal := sanitizedValue widthValidation in
  let lengthVal := sanitizedValue lengthValidation in
  let quantityVal := sanitizedValue quantityValidation in
  let unitPriceVal := sanitizedValue priceValidation in
  let hasWidth := isValid widthValidation && gt widthVal 0 in
  let hasLength := isValid lengthValidation && gt lengthVal 0 in
  let hasQuantity := isValid quantityValidation && gt quantityVal 0 in
  let hasUnitPrice := isValid priceValidation && gt unitPriceVal 0 in
  if hasWidth && hasLength && hasQuantity && hasUnitPrice then
    let area := (widthVal * lengthVal)%float in
    let total := (area * quantityVal * unitPriceVal)%float in
    if overflows total then 0%float else total
  else if negb hasWidth && negb hasLength && hasQuantity && hasUnitPrice then
    let total := (quantityVal * unitPriceVal)%float in
    if overflows total then 0%float else total
  else 0%float.

(** ** validateNumericInput and calculateRowTotal on any value

    [String(value)] is the one use validateNumericInput makes of [value], the
    console warnings apart, and the one step of either function that can
    throw; neither function catches the exception, for which [None] stands. *)

Definition validateNumericInputAny (value : JsAny) (min max : float) : option Validation :=
  match StringOf value with
  | None => None
  | Some text =>
      let sanitizedValue := sanitizeInput (JsString text) in
      let numericValue := parseFloat sanitizedValue in
      Some (if isNaN numericValue then
              {| isValid := false; sanitizedValue := 0 |}
            else if lt numericValue min || gt numericValue max then
              {| isValid := false; sanitizedValue := numericValue |}
            else
              {| isValid := true; sanitizedValue := numericValue |})
  end.

Definition calculateRowTotalAny (width length quantity unitPrice : JsAny) : option float :=
  match validateNumericInputAny width 0 SECURITY_CONFIG.MAX_ITEM_DIMENSIONS with
  | None => None
  | Some widthValidation =>
  match validateNumericInputAny length 0 SECURITY_CONFIG.MAX_ITEM_DIMENSIONS with
  | None => None
  | Some lengthValidation =>
  match validateNumericInputAny quantity 0 SECURITY_CONFIG.MAX_QUANTITY_PER_ITEM with
  | None => None
  | Some quantityValidation =>
  match validateNumericInputAny unitPrice 0 SECURITY_CONFIG.MAX_PRICE_PER_ITEM with
  | None => None
  | Some priceValidation =>
      let widthVal := sanitizedValue widthValidation in
      let lengthVal := sanitizedValue lengthValidation in
      let quantityVal := sanitizedValue quantityValidation in
      let unitPriceVal := sanitizedValue priceValidation in
      let hasWidth := isValid widthValidation && gt widthVal 0 in
      let hasLength := isValid lengthValidation && gt lengthVal 0 in
      let hasQuantity := isValid quantityValidation && gt quantityVal 0 in
      let hasUnitPrice := isValid priceValidation && gt unitPriceVal 0 in
      Some (if hasWidth && hasLength && hasQuantity && hasUnitPrice then
              let area := (widthVal * lengthVal)%float in
              let total := (area * quantityVal * unitPriceVal)%float in
              if overflows total then 0%float else total
            else if negb hasWidth && negb hasLength && hasQuantity && hasUnitPrice then
              let total := (quantityVal * unitPriceVal)%float in
              if overflows total then 0%float else total
            else 0%float)
  end end end end.

(** ** The sales form

    A table row holds the values of its input elements, all strings; the
    item element may be absent from a row. *)

Record Row := {
  row_item : option string;
  row_width : string;
  row_length : string;
  row_space : string;
  row_quantity : string;
  row_unitPrice : string;
  row_itemTotal : string
}.

Record Form := {
  rows : list Row;
  discount : string;
  supTotal : string;
  total : string;
  customerName : string;
  customerPhone : string
}.

(** ** updateAllTotals *)

Definition rowTotal (row : Row) : float :=
  calculateRowTotal (JsString (row_width row)) (JsString (row_length row))
    (JsString (row_quantity row)) (JsString (row_unitPrice row)).

(** The running sum of the [forEach] loop. *)
Definition sumTotals (rows : list Row) : float :=
  fold_left (fun supTotal row => (supTotal + rowTotal row)%float) rows 0%float.

(** [parseFloat(discount.value) || 0] *)
Definition discountOf (field : string) : float := orZero (parseFloat field).

Definition applyDiscount (supTotal discount : float) : float :=
  if gt discount 0 then (supTotal * (1 - discount / 100))%float else supTotal.

Definition showRowTotal (row : Row) : Row :=
  let total := rowTotal row in
  {| row_item := row_item row;
     row_width := row_width row;
     row_length := row_length row;
     row_space := row_space row;
     row_quantity := row_quantity row;
     row_unitPrice := row_unitPrice row;
     row_itemTotal := if gt total 0 then toFixed2 total else "" |}.

Definition updateAllTotals (f : Form) : Form :=
  let supTotal := sumTotals (rows f) in
  let finalTotal := applyDiscount supTotal (discountOf (discount f)) in
  {| rows := map showRowTotal (rows f);
     discount := discount f;
     supTotal := toFixed2 supTotal;
     total := toFixed2 finalTotal;
     customerName := customerName f;
     customerPhone := customerPhone f |}.


(** ** The submit handler of the sales form

    The handler reads the clock, [window.lastSubmissionTime] and
    [window.apiClient], draws an identifier and either stops with a message
    or hands a sale to [window.apiClient.createSale]. *)

Record Item := {
  it_item : string;
  it_width : string;
  it_length : string;
  it_space : string;
  it_quantity : string;
  it_unitPrice : string;
  it_itemTotal : string
}.

Inductive Status := Pending | Completed.

Record SaleDb := {
  sale_id : string;
  sale_customername : string;
  sale_customerphone : string;
  sale_date : string;
  sale_items : list Item;
  sale_discount : float;
  sale_suptotal : float;
  sale_total : float;
  sale_status : Status
}.

Record Window := {
  lastSubmissionTime : option float;
  apiClient : bool
}.

Inductive Outcome :=
| RateLimited           (* alert: please wait a moment before submitting again *)
| TooManyItems          (* alert: maximum 50 items allowed per sale *)
| ValidationError       (* toast: the validation warning *)
| ConfigurationError    (* toast: API client not configured *)
| CreateSale (saleDb : SaleDb).   (* window.apiClient.createSale(saleDb) *)

(** What the [forEach] over the rows accumulates. *)
Record Checked := {
  items : list Item;
  hasError : bool;
  validationErrors : list string
}.

Definition nonEmpty (s : string) : bool :=
  match s with EmptyString => false | _ => true end.

Definition checkRow (index : nat) (row : Row) (acc : Checked) : Checked :=
  let item := match row_item row with
              | Some v => sanitizeInput (JsString v)
              | None => ""
              end in
  let width := row_width row in
  let length := row_length row in
  let space := row_space row in
  let quantity := row_quantity row in
  let unitPrice := row_unitPrice row in
  let itemTotal := row_itemTotal row in
  let widthValidation := validateNumericInput (JsString width) 0 SECURITY_CONFIG.MAX_ITEM_DIMENSIONS in
  let lengthValidation := validateNumericInput (JsString length) 0 SECURITY_CONFIG.MAX_ITEM_DIMENSIONS in
  let quantityValidation := validateNumericInput (JsString quantity) 0 SECURITY_CONFIG.MAX_QUANTITY_PER_ITEM in
  let priceValidation := validateNumericInput (JsString unitPrice) 0 SECURITY_CONFIG.MAX_PRICE_PER_ITEM in
  let hasWidth := isValid widthValidation && gt (sanitizedValue widthValidation) 0 in
  let hasLength := isValid lengthValidation && gt (sanitizedValue lengthValidation) 0 in
  let hasQuantity := isValid quantityValidation && gt (sanitizedValue quantityValidation) 0 in
  let hasUnitPrice := isValid priceValidation && gt (sanitizedValue priceValidation) 0 in
  let oneDimension := (hasWidth && negb hasLength) || (negb hasWidth && hasLength) in
  let missing := negb hasQuantity || negb hasUnitPrice in
  {| items :=
       if nonEmpty item || nonEmpty quantity then
         items acc ++ [{| it_item := item; it_width := width; it_length := length;
                          it_space := space; it_quantity := quantity;
                          it_unitPrice := unitPrice; it_itemTotal := itemTotal |}]
       else items acc;
     hasError := oneDimension || missing || hasError acc;
     validationErrors :=
       if oneDimension then
         validationErrors acc
           ++ ["Row " ++ digitsOf (Z.of_nat (index + 1))
               ++ ": Both width and length must be provided together, or neither."]
       else validationErrors acc |}.

Fixpoint forEachRow (index : nat) (rows : list Row) (acc : Checked) : Checked :=
  match rows with
  | [] => acc
  | row :: rest => forEachRow (S index) rest (checkRow index row acc)
  end.

Definition checkRows (rows : list Row) : Checked :=
  forEachRow 0 rows {| items := []; hasError := false; validationErrors := [] |}.

(** [window.lastSubmissionTime && (Date.now() - window.lastSubmissionTime) < 2000] *)
Definition rateLimited (w : Window) (now : float) : bool :=
  match lastSubmissionTime w with
  | Some t => truthy t && lt (now - t)%float 2000
  | None => false
  end.

Definition submit (w : Window) (now : float) (generatedId date : string) (f : Form)
  : Outcome :=
  if rateLimited w now then RateLimited
  else if (SECURITY_CONFIG.MAX_ITEMS_PER_SALE <? List.length (rows f))%nat then TooManyItems
  else
    let checked := checkRows (rows f) in
    if (List.length (items checked) =? 0)%nat then ValidationError
    else if hasError checked then ValidationError
    else if negb (apiClient w) then ConfigurationError
    else
      CreateSale
        {| sale_id := generatedId;
           sale_customername := customerName f;
           sale_customerphone := customerPhone f;
           sale_date := date;
           sale_items := items checked;
           sale_discount := orZero (parseFloat (discount f));
           sale_suptotal := orZero (parseFloat (supTotal f));
           sale_total := orZero (parseFloat (total f));
           sale_status := Pending |}.

End Sales.

(* ================================================================== *)
(** * sales-track.js *)
(* ================================================================== *)

Module SalesTrack.
Import Js.

(** [calculateTotal({ width, length, quantity, unitPrice, discount })] *)
Definition calculateTotal (width length quantity unitPrice discount : JsValue) : string :=
  let width := parseFloat (ToString width) in
  let length := parseFloat (ToString length) in
  let quantity := parseInt (ToString quantity) in
  let unitPrice := parseFloat (ToString unitPrice) in
  let discount := orZero (parseFloat (ToString discount)) in
  if negb (isNaN width) && gt width 0 && negb (isNaN length) && gt length 0
     && negb (isNaN quantity) && gt quantity 0 && negb (isNaN unitPrice) && gt unitPrice 0
  then
    let total := (width * length * quantity * unitPrice)%float in
    let total := if negb (isNaN discount) && gt discount 0
                 then (total * (1 - discount / 100))%float else total in
    toFixed2 total
  else "".

(** ** Bounds *)

Module TRACKING_SECURITY_CONFIG.
Definition MAX_SEARCH_LENGTH : nat := 100.
Definition MAX_EXPORT_RECORDS : nat := 10000.
Definition RATE_LIMIT_DELAY : float := 1000.
End TRACKING_SECURITY_CONFIG.

(** ** The sales the API returned

    An element of the [sales] array is an object or [null]; a property of an
    object holds a primitive value, [undefined] when it is absent.  [items]
    is an array or not; an element of it is an object or not. *)

Record TrackItem := {
  ti_item : JsValue;
  ti_width : JsValue;
  ti_length : JsValue;
  ti_space : JsValue;
  ti_quantity : JsValue;
  ti_unitPrice : JsValue;
  ti_itemTotal : JsValue
}.

Record TrackSale := {
  ts_id : JsValue;
  ts_customerName : JsValue;
  ts_customername : JsValue;
  ts_customerPhone : JsValue;
  ts_status : JsValue;
  ts_date : JsValue;
  ts_discount : JsValue;
  ts_items : option (list (option TrackItem))
}.

(** [array.filter(callback)] with a callback that may throw: [None] is the
    exception. *)
Fixpoint filterM {A : Type} (callback : A -> option bool) (array : list A)
  : option (list A) :=
  match array with
  | [] => Some []
  | x :: rest =>
      match callback x with
      | None => None
      | Some keep =>
          match filterM callback rest with
          | None => None
          | Some kept => Some (if keep then x :: kept else kept)
          end
      end
  end.

(** ** sanitizeHTML *)

Definition sanitizeHTML (str : JsValue) : string :=
  match str with
  | JsString s => escapeText s
  | _ => ""
  end.

(** ** formatDate: [iso ? iso.split('T')[0] : ''] *)

Definition formatDate (iso : JsValue) : option string :=
  match iso with
  | JsString s =>
      Some (match s with
            | EmptyString => EmptyString
            | _ => hd EmptyString (split "T"%char s)
            end)
  | v => if truthyValue v then None   (* TypeError: iso.split is not a function *)
         else Some EmptyString
  end.

(** ** The status toggle *)

Definition statusStates : list string := ["Pending"; "Completed"; "all"].

(** [array.indexOf(x)] *)
Fixpoint indexOf (x : string) (array : list string) : Z :=
  match array with
  | [] => (-1)%Z
  | y :: rest =>
      if String.eqb y x then 0%Z
      else let i := indexOf x rest in
           if (i <? 0)%Z then (-1)%Z else (i + 1)%Z
  end.

(** The state [handleStatusToggle] moves to; [None] is [undefined]. *)
Definition handleStatusToggle (currentStatusState : string) : option string :=
  let currentIndex := indexOf currentStatusState statusStates in
  let nextIndex := Z.rem (currentIndex + 1) (Z.of_nat (List.length statusStates)) in
  if (nextIndex <? 0)%Z then None else nth_error statusStates (Z.to_nat nextIndex).

(** ** The customer search *)

Definition sanitizeSearchInput (input : JsValue) : string :=
  match input with
  | JsString s =>
      trim (substring0 TRACKING_SECURITY_CONFIG.MAX_SEARCH_LENGTH
              (replaceAll Sales.reHandler
                (replaceAll Sales.reJavascript
                  (replaceAll Sales.reAngle
                    (replaceAll Sales.reTag s)))))
  | _ => ""
  end.

(** [searchName] and [lastSearchTime]. *)
Record Search := {
  searchName : string;
  lastSearchTime : float
}.

Definition initialSearch : Search := {| searchName := ""; lastSearchTime := 0 |}.

(** The input handler of the search box: [now] and [later] are the two
    readings of the clock. *)
Definition searchInput (st : Search) (now later : float) (rawSearchValue : string)
  : Search :=
  if lt (now - lastSearchTime st)%float TRACKING_SECURITY_CONFIG.RATE_LIMIT_DELAY then st
  else
    let sanitizedSearch := sanitizeSearchInput (JsString rawSearchValue) in
    {| searchName := toLowerCase sanitizedSearch; lastSearchTime := later |}.

(** The click handler of the clear button. *)
Definition clearSearch (st : Search) : Search :=
  {| searchName := ""; lastSearchTime := lastSearchTime st |}.

(** [(sale.customerName || sale.customername || '').toLowerCase()];
    [None] is the TypeError of a name that is no string. *)
Definition customerNameOf (sale : TrackSale) : option string :=
  match orElse (orElse (ts_customerName sale) (ts_customername sale)) (JsString "") with
  | JsString s => Some (toLowerCase s)
  | _ => None
  end.

Definition filterBySearchName (searchName : string) (salesArr : list (option TrackSale))
  : list (option TrackSale) :=
  match searchName with
  | EmptyString => salesArr
  | _ =>
      match filterM (fun sale =>
                       match sale with
                       | None => Some false
                       | Some s =>
                           option_map (fun customerName => includes customerName searchName)
                                      (customerNameOf s)
                       end) salesArr with
      | Some filtered => filtered
      | None => salesArr     (* the catch clause *)
      end
  end.

(** ** The two sections of the page *)

(** The sales renderPendingSection makes the rows of its table from. *)
Definition renderPendingSection (sales : list (option TrackSale))
  : list (option TrackSale) :=
  filter (fun sale => match sale with
                      | Some s => isString "Pending" (ts_status s)
                      | None => false
                      end) sales.

(** The filters of the page: the toggle state and the two date inputs. *)
Record Filters := {
  currentStatusState : string;
  startDate : string;
  endDate : string
}.

(** [sale.date && test(sale.date.slice(0, 10))] *)
Definition dateTest (test : string -> bool) (sale : option TrackSale) : option bool :=
  match sale with
  | None => None                      (* TypeError: a property of null *)
  | Some s =>
      match ts_date s with
      | JsString d =>
          Some (match d with
                | EmptyString => false
                | _ => test (substring0 10 d)
                end)
      | v => if truthyValue v then None   (* TypeError: slice is not a function *)
             else Some false
      end
  end.

(** [sale.status === statusVal] *)
Definition statusTest (statusVal : string) (sale : option TrackSale) : option bool :=
  match sale with
  | None => None
  | Some s => Some (isString statusVal (ts_status s))
  end.

(** [if (condition) filtered = filtered.filter(callback)] *)
Definition filterWhen {A : Type} (condition : bool) (callback : A -> option bool)
           (filtered : option (list A)) : option (list A) :=
  match filtered with
  | None => None
  | Some l => if condition then filterM callback l else Some l
  end.

Definition nonEmptyString (s : string) : bool :=
  match s with EmptyString => false | _ => true end.

(** The sales renderTrackingSection is left with after its filters, of which
    it makes the rows of the table, in order; [today] is the date of the
    clock, [None] an exception that leaves the function. *)
Definition renderTrackingSection (searchName : string) (filters : Filters)
           (today : string) (sales : list (option TrackSale))
  : option (list (option TrackSale)) :=
  let filtered :=
    filter (fun sale => match sale with
                        | Some s => negb (isString "Pending" (ts_status s))
                        | None => false
                        end) sales in
  let filtered := filterBySearchName searchName filtered in
  let statusVal := currentStatusState filters in
  let startDate := startDate filters in
  let endDate := endDate filters in
  let isSearchActive := nonEmptyString searchName in
  let isFilterActive :=
    (negb (String.eqb statusVal "Pending") && negb (String.eqb statusVal "all"))
    || nonEmptyString startDate || nonEmptyString endDate in
  if negb isSearchActive && negb isFilterActive then Some []
  else
    let filtered :=
      filterWhen (negb (nonEmptyString startDate) && negb (nonEmptyString endDate)
                  && negb (String.eqb statusVal "Pending"))
                 (dateTest (fun day => String.eqb day today)) (Some filtered) in
    let filtered :=
      filterWhen (nonEmptyString startDate)
                 (dateTest (fun day => stringLe startDate day)) filtered in
    let filtered :=
      filterWhen (nonEmptyString endDate)
                 (dateTest (fun day => stringLe day endDate)) filtered in
    filterWhen (negb (String.eqb statusVal "all") && negb (String.eqb statusVal "Pending"))
               (statusTest statusVal) filtered.

(** ** The CSV export *)

(** [/^[=+\-@]/g] *)
Definition dropFormulaChar (s : string) : string :=
  match s with
  | String c r =>
      if isChar "="%char c || isChar "+"%char c || isChar "-"%char c || isChar "@"%char c
      then r else s
  | EmptyString => s
  end.

Definition sanitizeExportData (data : JsValue) : string :=
  match data with
  | JsNull | JsUndefined => ""
  | _ =>
      let stringData := ToString data in
      trim (dropFormulaChar
              (replaceAll Sales.reHandler
                (replaceAll Sales.reJavascript
                  (replaceAll Sales.reAngle stringData))))
  end.

(** The pattern of one double quote, with flag [g]. *)
Definition reQuote : pattern := [(isChar dquote, One)].

Definition escapeCSV (value : JsValue) : string :=
  let stringValue := ToString value in
  if includes stringValue (String comma EmptyString)
     || includes stringValue (String dquote EmptyString)
     || includes stringValue (String newline EmptyString)
  then String dquote
         (replaceAllWith reQuote (String dquote (String dquote EmptyString)) stringValue
          ++ String dquote EmptyString)
  else stringValue.

Definition generateSecureCSV (headers : list JsValue) (rows : list (list JsValue))
  : string :=
  let headerRow := join "," (map escapeCSV headers) in
  let dataRows := map (fun row => join "," (map escapeCSV row)) rows in
  join (String newline EmptyString) (headerRow :: dataRows).

Definition exportHeaders : list string :=
  ["Customer Name"; "Customer Phone"; "Status"; "Date"; "Discount"; "Item"; "Width";
   "Length"; "Space"; "Quantity"; "Unit Price"; "Item Total"].

(** The row pushed for an item of a sale. *)
Definition sanitizedRow (sale : TrackSale) (item : TrackItem) : list string :=
  [sanitizeExportData (orElse (ts_customerName sale) (JsString ""));
   sanitizeExportData (orElse (ts_customerPhone sale) (JsString ""));
   sanitizeExportData (orElse (ts_status sale) (JsString ""));
   sanitizeExportData (orElse (ts_date sale) (JsString ""));
   sanitizeExportData (orElse (ts_discount sale) (JsNumber 0));
   sanitizeExportData (orElse (ti_item item) (JsString ""));
   sanitizeExportData (orElse (ti_width item) (JsString ""));
   sanitizeExportData (orElse (ti_length item) (JsString ""));
   sanitizeExportData (orElse (ti_space item) (JsString ""));
   sanitizeExportData (orElse (ti_quantity item) (JsString ""));
   sanitizeExportData (orElse (ti_unitPrice item) (JsString ""));
   sanitizeExportData (orElse (ti_itemTotal item) (JsString ""))].

(** The rows the click handler of the export button collects. *)
Definition exportRows (sales : list (option TrackSale)) : list (list string) :=
  let completedSales :=
    filter (fun sale => match sale with
                        | Some s => isString "Completed" (ts_status s)
                        | None => false
                        end) sales in
  let completedSales :=
    if (TRACKING_SECURITY_CONFIG.MAX_EXPORT_RECORDS <? List.length completedSales)%nat
    then firstn TRACKING_SECURITY_CONFIG.MAX_EXPORT_RECORDS completedSales
    else completedSales in
  flat_map (fun sale =>
              match sale with
              | Some s =>
                  match ts_items s with
                  | Some saleItems =>
                      flat_map (fun item =>
                                  match item with
                                  | Some i => [sanitizedRow s i]
                                  | None => []
                                  end) saleItems
                  | None => []
                  end
              | None => []
              end) completedSales.

Inductive Export :=
| ExportRateLimited                          (* toast: please wait a moment *)
| Download (csvContent fileName : string).   (* downloadCSV(csvContent, fileName) *)

(** The click handler of the export button: what it does, and
    [window.lastExportTime] after it. *)
Definition exportClick (lastExportTime : option float) (now later : float)
           (today : string) (sales : list (option TrackSale))
  : Export * option float :=
  match lastExportTime with
  | Some t =>
      if truthy t && lt (now - t)%float 5000 then (ExportRateLimited, lastExportTime)
      else
        (Download (generateSecureCSV (map JsString exportHeaders)
                     (map (map JsString) (exportRows sales)))
                  ("completed_sales_export_" ++ today ++ ".csv"),
         Some later)
  | None =>
      (Download (generateSecureCSV (map JsString exportHeaders)
                   (map (map JsString) (exportRows sales)))
                ("completed_sales_export_" ++ today ++ ".csv"),
       Some later)
  end.

(** ** Operations on the sales in memory

    [id] is the string the buttons of a row pass; [apiClient] tells whether
    [window.apiClient] is set, [apiOk] whether the call came back without an
    error.  Each function gives the [sales] array after the call. *)

(** [sales.findIndex(callback)], the callback throwing on [null]: [None] is
    the exception, [Some None] is [-1]. *)
Fixpoint findIndex (callback : TrackSale -> bool) (sales : list (option TrackSale))
  : option (option nat) :=
  match sales with
  | [] => Some None
  | None :: _ => None
  | Some s :: rest =>
      if callback s then Some (Some O)
      else
        match findIndex callback rest with
        | Some (Some i) => Some (Some (S i))
        | other => other
        end
  end.

(** [sales[idx].status = status] *)
Fixpoint setStatus (idx : nat) (status : string) (sales : list (option TrackSale))
  : list (option TrackSale) :=
  match sales, idx with
  | [], _ => []
  | Some s :: rest, O =>
      Some {| ts_id := ts_id s;
              ts_customerName := ts_customerName s;
              ts_customername := ts_customername s;
              ts_customerPhone := ts_customerPhone s;
              ts_status := JsString status;
              ts_date := ts_date s;
              ts_discount := ts_discount s;
              ts_items := ts_items s |} :: rest
  | None :: rest, O => None :: rest
  | x :: rest, S i => x :: setStatus i status rest
  end.

(** [sales[idx].status === status] *)
Definition statusAt (idx : nat) (status : string) (sales : list (option TrackSale)) : bool :=
  match nth_error sales idx with
  | Some (Some s) => isString status (ts_status s)
  | _ => false
  end.

Definition markAsDone (apiClient apiOk : bool) (id : string)
           (sales : list (option TrackSale)) : list (option TrackSale) :=
  match findIndex (fun s => isString id (ts_id s)) sales with
  | Some (Some idx) =>
      if statusAt idx "Pending" sales then
        if negb apiClient then sales
        else if negb apiOk then sales
        else setStatus idx "Completed" sales
      else sales
  | _ => sales
  end.

(** [confirmed] is the answer to [confirm]; [saleReturned] tells whether
    the result holds a sale. *)
Definition rollbackSale (confirmed apiClient apiOk saleReturned : bool) (id : string)
           (sales : list (option TrackSale)) : list (option TrackSale) :=
  match findIndex (fun s => isString id (ts_id s) && isString "Completed" (ts_status s))
                  sales with
  | Some (Some idx) =>
      if confirmed then
        if negb apiClient then sales
        else if negb apiOk then sales
        else if negb saleReturned then sales
        else setStatus idx "Pending" sales
      else sales
  | _ => sales
  end.

(** [sales.splice(index, 1)] *)
Fixpoint splice1 (index : nat) (sales : list (option TrackSale))
  : list (option TrackSale) :=
  match sales, index with
  | [], _ => []
  | _ :: rest, O => rest
  | x :: rest, S i => x :: splice1 i rest
  end.

(** [isAdmin] is the verdict on the role of the user; [confirmed] tells
    whether the confirm button of the modal was clicked. *)
Definition deleteSale (isAdmin confirmed apiClient apiOk : bool) (saleId : string)
           (sales : list (option TrackSale)) : list (option TrackSale) :=
  if negb isAdmin then sales
  else
    match findIndex (fun s => isString saleId (ts_id s)) sales with
    | Some (Some _) =>
        if confirmed then
          if negb apiClient then sales
          else if negb apiOk then sales
          else
            match findIndex (fun s => isString saleId (ts_id s)) sales with
            | Some (Some index) => splice1 index sales
            | _ => sales
            end
        else sales
    | _ => sales
    end.

End SalesTrack.


(* ================================================================== *)
(** * expenses.js *)
(* ================================================================== *)

Module Expenses.
Import Js.

Module EXPENSES_SECURITY_CONFIG.
Definition MAX_DESCRIPTION_LENGTH : nat := 500.
Definition MAX_AMOUNT : float := 1000000.
Definition MIN_AMOUNT : float := ofDecimal false 1 (-2).   (* 0.01 *)
Definition RATE_LIMIT_DELAY : float := 2000.
Definition ALLOWED_CATEGORIES : list string := ["work"; "non-work"].
End EXPENSES_SECURITY_CONFIG.

(** The copy of sanitizeInput this file holds. *)
Definition sanitizeInput (input : JsValue) : string :=
  match input with
  | JsString s =>
      trim (replaceAll Sales.reHandler
             (replaceAll Sales.reJavascript
               (replaceAll Sales.reAngle
                 (replaceAll Sales.reTag s))))
  | _ => ""
  end.

Record AmountValidation := { amountIsValid : bool; amountValue : float }.

Definition validateExpenseAmount (amount : JsValue) : AmountValidation :=
  let sanitizedAmount := sanitizeInput (JsString (ToString amount)) in
  let numericAmount := parseFloat sanitizedAmount in
  if isNaN numericAmount then
    {| amountIsValid := false; amountValue := 0 |}
  else if lt numericAmount EXPENSES_SECURITY_CONFIG.MIN_AMOUNT
          || gt numericAmount EXPENSES_SECURITY_CONFIG.MAX_AMOUNT then
    {| amountIsValid := false; amountValue := numericAmount |}
  else
    {| amountIsValid := true; amountValue := numericAmount |}.

Record TextValidation := { textIsValid : bool; textValue : string }.

Definition validateExpenseDescription (description : JsValue) : TextValidation :=
  let sanitizedDescription := sanitizeInput description in
  match sanitizedDescription with
  | EmptyString => {| textIsValid := false; textValue := "" |}
  | _ =>
      if (EXPENSES_SECURITY_CONFIG.MAX_DESCRIPTION_LENGTH
          <? String.length sanitizedDescription)%nat
      then {| textIsValid := false; textValue := sanitizedDescription |}
      else {| textIsValid := true; textValue := sanitizedDescription |}
  end.

Definition validateExpenseCategory (category : JsValue) : TextValidation :=
  let sanitizedCategory := sanitizeInput category in
  if existsb (String.eqb sanitizedCategory) EXPENSES_SECURITY_CONFIG.ALLOWED_CATEGORIES
  then {| textIsValid := true; textValue := sanitizedCategory |}
  else {| textIsValid := false; textValue := "" |}.

(** ** The submit handler of the expense form

    The date of an entry is the date of the clock; the verdict of
    validateExpenseDate on it rests on [Date] and is taken as given. *)

Record ExpenseForm := {
  description : string;
  amount : string;
  category : string
}.

Record ExpenseEntry := {
  entry_id : string;
  entry_description : string;
  entry_amount : float;
  entry_date : string;
  entry_category : string;
  entry_type : string;
  entry_timestamp : string
}.

(** The messages pushed on [validationErrors], by what they are about. *)
Inductive ExpenseError := BadDescription | BadAmount | BadDate | BadCategory.

Inductive ExpenseOutcome :=
| ExpenseRateLimited                              (* toast: please wait a moment *)
| ExpenseRejected (errors : list ExpenseError)    (* toast: the validation errors *)
| SaveExpense (expenseEntry : ExpenseEntry).      (* saveExpense(expenseEntry) *)

Definition expenseSubmit (lastExpenseSubmissionTime : option float) (now : float)
           (systemDate : string) (dateIsValid : bool) (generatedId timestamp : string)
           (form : ExpenseForm) : ExpenseOutcome :=
  let rateLimited :=
    match lastExpenseSubmissionTime with
    | Some t => truthy t && lt (now - t)%float EXPENSES_SECURITY_CONFIG.RATE_LIMIT_DELAY
    | None => false
    end in
  if rateLimited then ExpenseRateLimited
  else
    let descriptionValidation := validateExpenseDescription (JsString (description form)) in
    let amountValidation := validateExpenseAmount (JsString (amount form)) in
    let categoryValidation := validateExpenseCategory (JsString (category form)) in
    let validationErrors :=
      ((if textIsValid descriptionValidation then [] else [BadDescription])
       ++ (if amountIsValid amountValidation then [] else [BadAmount])
       ++ (if dateIsValid then [] else [BadDate])
       ++ (if textIsValid categoryValidation then [] else [BadCategory]))%list in
    match validationErrors with
    | _ :: _ => ExpenseRejected validationErrors
    | [] =>
        SaveExpense
          {| entry_id := generatedId;
             entry_description := textValue descriptionValidation;
             entry_amount := amountValue amountValidation;
             entry_date := systemDate;
             entry_category := textValue categoryValidation;
             entry_type := "expense";
             entry_timestamp := timestamp |}
    end.

End Expenses.

(* ================================================================== *)
(** * Vocabulary of the statements *)
(* ================================================================== *)

(** ** Binary64 numbers *)

Module Binary64.
Import Js.
Local Open Scope Z_scope.

(** [lo <= x <= hi] *)
Definition inRange (x lo hi : float) : bool := ((lo <=? x) && (x <=? hi))%float.

(** The sign bit is clear, or the value is [NaN]. *)
Definition signClear (x : spec_float) : bool :=
  match x with
  | S754_nan => true
  | S754_zero s | S754_infinity s | S754_finite s _ _ => negb s
  end.

(** The exponent and the number of shifts [shr_fexp] settles on. *)
Definition shiftCount (m e : Z) : Z :=
  Z.max 0 (SpecFloat.fexp prec emax (Zdigits2 m + e) - e).

(** The first half of [binary_round_aux]: shift, then round. *)
Definition rounded (m e : Z) (l : location) : Z * Z :=
  let '(mrs, e') := shr_fexp prec emax m e l in
  (round_nearest_even (shr_m mrs) (loc_of_shr_record mrs), e').

(** The second half: renormalise and pack. *)
Definition packed (s : bool) (m e : Z) : spec_float :=
  let '(mrs, e') := shr_fexp prec emax m e loc_Exact in
  match shr_m mrs with
  | Z0 => S754_zero s
  | Zpos p => if e' <=? emax - prec then S754_finite s p e' else S754_infinity s
  | Zneg _ => S754_nan
  end.

(** [x] with the sign bit [s]. *)
Definition withSign (s : bool) (x : spec_float) : spec_float :=
  match x with
  | S754_zero _ => S754_zero s
  | S754_infinity _ => S754_infinity s
  | S754_finite _ m e => S754_finite s m e
  | S754_nan => S754_nan
  end.

(** Zero or finite, with the sign bit [s]. *)
Definition finiteSigned (s : bool) (x : spec_float) : bool :=
  match x with
  | S754_zero s' | S754_finite s' _ _ => Bool.eqb s s'
  | _ => false
  end.

(** [Number.MAX_SAFE_INTEGER], [100] and [1] as [SpecFloat] sees them. *)
Definition MAX_SAFE : spec_float := S754_finite false 9007199254740991 0.

Definition HUNDRED : spec_float := S754_finite false 7036874417766400 (-46).

Definition ONE : spec_float := S754_finite false 4503599627370496 (-52).

(** What [1 - q] can be: a zero, a negative number, or a positive number
    of at most one. *)
Definition atMostOne (f : spec_float) : bool :=
  match f with
  | S754_zero _ => true
  | S754_finite true _ _ => true
  | S754_finite false _ _ => SFleb f ONE
  | _ => false
  end.

(** A finite number with the sign bit clear. *)
Definition nonnegFinite (x : float) : bool := finiteSigned false (Prim2SF x).

End Binary64.

(** ** Fields, rows and outcomes *)

Module Props.
Import Js Sales SalesTrack Binary64.
Import SECURITY_CONFIG.

(** Some position of [s] holds a non-empty match of [p]. *)
Fixpoint hasMatch (p : pattern) (s : string) : bool :=
  match s with
  | EmptyString => false
  | String c r =>
      match matchHere p s with
      | Some (S _) => true
      | _ => hasMatch p r
      end
  end.

(** Every character of [s] satisfies [P]. *)
Fixpoint allChars (P : ascii -> bool) (s : string) : bool :=
  match s with
  | EmptyString => true
  | String c r => P c && allChars P r
  end.

(** Neither [<] nor [>]. *)
Definition notAngle (c : ascii) : bool :=
  negb (isChar "<"%char c || isChar ">"%char c).

(** The number the validator reads from a value. *)
Definition parsed (v : JsValue) : float :=
  parseFloat (sanitizeInput (JsString (ToString v))).

(** A field is present: it parses as a number, lies in [[0, max]] and is
    strictly positive. *)
Definition validPositive (v : JsValue) (max : float) : bool :=
  negb (isNaN (parsed v)) && inRange (parsed v) 0 max && gt (parsed v) 0.

(** The presence flag as calculateRowTotal and the submit handler compute it. *)
Definition present (v : JsValue) (max : float) : bool :=
  let validation := validateNumericInput v 0 max in
  isValid validation && gt (sanitizedValue validation) 0.

(** [n < min || n > max], the validator's test. *)
Definition outside (n min max : float) : bool := lt n min || gt n max.

(** The four presence flags of a table row. *)
Definition hasWidth (row : Row) : bool :=
  present (JsString (row_width row)) MAX_ITEM_DIMENSIONS.

Definition hasLength (row : Row) : bool :=
  present (JsString (row_length row)) MAX_ITEM_DIMENSIONS.

Definition hasQuantity (row : Row) : bool :=
  present (JsString (row_quantity row)) MAX_QUANTITY_PER_ITEM.

Definition hasUnitPrice (row : Row) : bool :=
  present (JsString (row_unitPrice row)) MAX_PRICE_PER_ITEM.

(** Exactly one of width and length is present. *)
Definition oneDimension (row : Row) : bool :=
  (hasWidth row && negb (hasLength row)) || (negb (hasWidth row) && hasLength row).

(** Quantity or unit price is missing. *)
Definition missing (row : Row) : bool :=
  negb (hasQuantity row) || negb (hasUnitPrice row).

(** The row makes the handler set [hasError]. *)
Definition rowError (row : Row) : bool := oneDimension row || missing row.

(** The row is pushed on [items]. *)
Definition retained (row : Row) : bool :=
  nonEmpty (match row_item row with
            | Some v => sanitizeInput (JsString v)
            | None => ""
            end)
  || nonEmpty (row_quantity row).

(** The object the handler pushes for the row. *)
Definition itemOf (row : Row) : Item :=
  {| it_item := match row_item row with
                | Some v => sanitizeInput (JsString v)
                | None => ""
                end;
     it_width := row_width row;
     it_length := row_length row;
     it_space := row_space row;
     it_quantity := row_quantity row;
     it_unitPrice := row_unitPrice row;
     it_itemTotal := row_itemTotal row |}.

(** The handler stopped before [createSale]. *)
Definition rejected (o : Outcome) : bool :=
  match o with
  | CreateSale _ => false
  | _ => true
  end.

(** A row, a form and a window to try the statements on. *)
Definition exampleRow (width length quantity unitPrice : string) : Row :=
  {| row_item := Some "Banner"%string;
     row_width := width; row_length := length; row_space := ""%string;
     row_quantity := quantity; row_unitPrice := unitPrice;
     row_itemTotal := ""%string |}.

Definition exampleForm (rows : list Row) : Form :=
  {| rows := rows; discount := ""%string; supTotal := ""%string; total := ""%string;
     customerName := "Amina"%string; customerPhone := "0612345678"%string |}.

Definition exampleWindow : Window :=
  {| lastSubmissionTime := None; apiClient := true |}.

(** The product calculateRowTotal forms for a row with both dimensions. *)
Definition areaProduct (row : Row) : float :=
  (parsed (JsString (row_width row)) * parsed (JsString (row_length row))
   * parsed (JsString (row_quantity row)) * parsed (JsString (row_unitPrice row)))%float.

(** Each input is present and the product overflows. *)
Definition overflowRow (row : Row) : bool :=
  hasWidth row && hasLength row && hasQuantity row && hasUnitPrice row
  && overflows (areaProduct row).

(** What the sale-entry flow shows for one row: the row total with the
    discount of the aggregator, with two decimals. *)
Definition saleEntryTotal (width length quantity unitPrice discount : JsValue) : string :=
  toFixed2 (applyDiscount (calculateRowTotal width length quantity unitPrice)
              (discountOf (ToString discount))).

End Props.

(** ** The sales form *)

Module FormProps.
Import Js Sales Props.

(** The input fields of a row: all but the total the page shows. *)
Definition inputsOf (row : Row) : option string * string * string * string * string * string :=
  (row_item row, row_width row, row_length row, row_space row, row_quantity row,
   row_unitPrice row).

(** The sale handed to createSale, if one is. *)
Definition created (o : Outcome) : option SaleDb :=
  match o with
  | CreateSale saleDb => Some saleDb
  | _ => None
  end.

(** An item but for its displayed total. *)
Definition itemInputs (i : Item) : string * string * string * string * string * string :=
  (it_item i, it_width i, it_length i, it_space i, it_quantity i, it_unitPrice i).

End FormProps.

(** ** Texts *)

Module TextProps.
Import Js Sales.

(** [a] is [b] with some of its characters left out. *)
Inductive Subsequence : string -> string -> Prop :=
| sub_empty : Subsequence EmptyString EmptyString
| sub_keep (c : ascii) (a b : string) :
    Subsequence a b -> Subsequence (String c a) (String c b)
| sub_drop (c : ascii) (a b : string) :
    Subsequence a b -> Subsequence a (String c b).

(** What the four deletions of the sanitizers leave of a string. *)
Definition stripped (s : string) : string :=
  replaceAll reHandler (replaceAll reJavascript (replaceAll reAngle (replaceAll reTag s))).

(** Reading the four character references back: [skip] counts the
    characters of the current reference that are still to be dropped. *)
Fixpoint unescapeFrom (skip : nat) (s : string) : string :=
  match s with
  | EmptyString => EmptyString
  | String c r =>
      match skip with
      | S k => unescapeFrom k r
      | O =>
          if String.prefix "&amp;" s then String "&"%char (unescapeFrom 4 r)
          else if String.prefix "&nbsp;" s then String "160"%char (unescapeFrom 5 r)
          else if String.prefix "&lt;" s then String "<"%char (unescapeFrom 3 r)
          else if String.prefix "&gt;" s then String ">"%char (unescapeFrom 3 r)
          else String c (unescapeFrom O r)
      end
  end.

Definition unescapeText (s : string) : string := unescapeFrom O s.

(** None of the characters a text node escapes. *)
Definition unescaped (c : ascii) : bool :=
  negb (isChar "&"%char c || isChar "160"%char c || isChar "<"%char c || isChar ">"%char c).

End TextProps.

(** ** Comma-separated text *)

Module Csv.
Import Js SalesTrack.

(** A reader of comma-separated text after RFC 4180, with the line feed as
    the record separator: a field that opens with a double quote runs to the
    closing one, two double quotes inside it standing for one. *)
Inductive state := FieldStart | Unquoted | Quoted | QuoteSeen.

(** The text read so far, from the right: the field at hand, the fields
    after it in its record, and the records after that one. *)
Definition reading : Type := (string * list string * list (list string))%type.

Definition addChar (c : ascii) (r : reading) : reading :=
  let '(field, fields, more) := r in (String c field, fields, more).

Definition newField (r : reading) : reading :=
  let '(field, fields, more) := r in (EmptyString, field :: fields, more).

Definition newRecord (r : reading) : reading :=
  let '(field, fields, more) := r in (EmptyString, [], (field :: fields) :: more).

Fixpoint read (st : state) (s : string) : reading :=
  match s with
  | EmptyString => (EmptyString, [], [])
  | String c r =>
      match st with
      | Quoted =>
          if isChar dquote c then read QuoteSeen r else addChar c (read Quoted r)
      | QuoteSeen =>
          if isChar dquote c then addChar dquote (read Quoted r)
          else if isChar comma c then newField (read FieldStart r)
          else if isChar newline c then newRecord (read FieldStart r)
          else addChar c (read Unquoted r)
      | FieldStart =>
          if isChar dquote c then read Quoted r
          else if isChar comma c then newField (read FieldStart r)
          else if isChar newline c then newRecord (read FieldStart r)
          else addChar c (read Unquoted r)
      | Unquoted =>
          if isChar comma c then newField (read FieldStart r)
          else if isChar newline c then newRecord (read FieldStart r)
          else addChar c (read Unquoted r)
      end
  end.

(** The records of a reading. *)
Definition records (r : reading) : list (list string) :=
  let '(field, fields, more) := r in (field :: fields) :: more.

Definition readCSV (s : string) : list (list string) := records (read FieldStart s).

(** The field [v] goes in front of the field being read. *)
Definition addString (v : string) (r : reading) : reading :=
  let '(field, fields, more) := r in (v ++ field, fields, more).

(** No comma, double quote or line feed. *)
Definition plain (c : ascii) : bool :=
  negb (isChar comma c || isChar dquote c || isChar newline c).

(** The rest of the text is empty, or opens with a separator. *)
Definition atSeparator (s : string) : bool :=
  match s with
  | EmptyString => true
  | String c _ => isChar comma c || isChar newline c
  end.

(** The text generateSecureCSV writes for one record. *)
Definition line (row : list JsValue) : string := join "," (map escapeCSV row).

End Csv.

(** ** The sales-tracking page *)

Module TrackProps.
Import Js Sales SalesTrack Props.

(** What happens to the search box. *)
Inductive SearchEvent :=
| Typed (now later : float) (rawSearchValue : string)
| Cleared.

Definition searchStep (st : Search) (event : SearchEvent) : Search :=
  match event with
  | Typed now later rawSearchValue => searchInput st now later rawSearchValue
  | Cleared => clearSearch st
  end.

(** The search state after a run of events, from the initial one. *)
Definition searchAfter (events : list SearchEvent) : Search :=
  fold_left searchStep events initialSearch.

(** The sale is an object whose status is the string ['Pending']. *)
Definition isPending (sale : option TrackSale) : bool :=
  match sale with
  | Some s => isString "Pending" (ts_status s)
  | None => false
  end.

(** The first ten characters of the date of a sale, when it is a non-empty
    string. *)
Definition dayOf (sale : option TrackSale) : option string :=
  match sale with
  | Some s =>
      match ts_date s with
      | JsString (String c d) => Some (substring0 10 (String c d))
      | _ => None
      end
  | None => None
  end.

(** The status of the sale is the string [statusVal]. *)
Definition hasStatus (statusVal : string) (sale : option TrackSale) : bool :=
  match sale with
  | Some s => isString statusVal (ts_status s)
  | None => false
  end.

(** The properties every search name has: it is the lower case of a text of
    at most 100 characters without angle bracket (the cut comes before the
    lower-casing), it holds no angle bracket and it is in lower case. *)
Definition searchNameOk (name : string) : Prop :=
  (exists text : string,
      name = toLowerCase text
      /\ String.length text <= 100
      /\ allChars notAngle text = true)
  /\ allChars notAngle name = true
  /\ toLowerCase name = name.

(** The name of the sale is a string, or counts as false. *)
Definition nameIsText (sale : option TrackSale) : bool :=
  match sale with
  | Some s => match customerNameOf s with Some _ => true | None => false end
  | None => true
  end.

(** The lower-cased name of the sale holds [searchName]. *)
Definition nameHolds (searchName : string) (sale : option TrackSale) : bool :=
  match sale with
  | Some s =>
      match customerNameOf s with
      | Some customerName => includes customerName searchName
      | None => false
      end
  | None => false
  end.

(** A sale and a list of sales to try the statements on. *)
Definition exampleItem (item quantity unitPrice itemTotal : string) : TrackItem :=
  {| ti_item := JsString item; ti_width := JsUndefined; ti_length := JsUndefined;
     ti_space := JsUndefined; ti_quantity := JsString quantity;
     ti_unitPrice := JsString unitPrice; ti_itemTotal := JsString itemTotal |}.

Definition exampleSale (name status date : string) : TrackSale :=
  {| ts_id := JsString "s1"; ts_customerName := JsUndefined;
     ts_customername := JsString name; ts_customerPhone := JsUndefined;
     ts_status := JsString status; ts_date := JsString date; ts_discount := JsNumber 0;
     ts_items := Some [Some (exampleItem "Banner, large" "5" "20" "100.00")] |}.

Definition exampleSales : list (option TrackSale) :=
  [Some (exampleSale "Amina" "Completed" "2024-03-05T10:00:00.000Z");
   Some (exampleSale "Bashir" "Pending" "2024-03-06T09:30:00.000Z");
   None;
   Some (exampleSale "Amina Ali" "Completed" "2023-12-31T23:59:59.000Z")].

(** No character ['T']. *)
Definition notT (c : ascii) : bool := negb (isChar "T"%char c).

End TrackProps.

(** ** The sales in memory *)

Module StateProps.
Import Js SalesTrack.

(** The sale with its status set to the string [status]. *)
Definition withStatus (status : string) (s : TrackSale) : TrackSale :=
  {| ts_id := ts_id s;
     ts_customerName := ts_customerName s;
     ts_customername := ts_customername s;
     ts_customerPhone := ts_customerPhone s;
     ts_status := JsString status;
     ts_date := ts_date s;
     ts_discount := ts_discount s;
     ts_items := ts_items s |}.

(** [sales] is [before], then the object [s], then [after], and [s] is the
    first element of [sales] that satisfies [callback]; no element of
    [before] is [null]. *)
Definition firstMatch (callback : TrackSale -> bool) (sales before : list (option TrackSale))
           (s : TrackSale) (after : list (option TrackSale)) : Prop :=
  sales = (before ++ Some s :: after)%list
  /\ callback s = true
  /\ Forall (fun x => exists s', x = Some s' /\ callback s' = false) before.

(** The first sale whose id is [id] is pending. *)
Definition firstIsPending (id : string) (sales : list (option TrackSale)) : bool :=
  match findIndex (fun s => isString id (ts_id s)) sales with
  | Some (Some idx) => statusAt idx "Pending" sales
  | _ => false
  end.

End StateProps.

(** ** The amounts on display *)

Module DisplayProps.
Import Js Sales Binary64.
Local Open Scope Z_scope.

(** [/^\d+\.\d\d$/]: digits, a point and two digits. *)
Fixpoint isMoney (s : string) : bool :=
  match s with
  | String c r =>
      isDigit c
      && (isMoney r
          || match r with
             | String p (String a (String b EmptyString)) =>
                 isChar "."%char p && isDigit a && isDigit b
             | _ => false
             end)
  | EmptyString => false
  end.

(** The binary64 number [k * 2^53], for [k] from 1 to [2^53 - 1]. *)
Definition bound (k : Z) : spec_float :=
  S754_finite false (Z.to_pos (k * 2 ^ (53 - Zdigits2 k))) (Zdigits2 k).

(** Zero, or a positive number of at most [k * 2^53]. *)
Definition leBound (k : Z) (x : spec_float) : bool :=
  match x with
  | S754_zero _ => true
  | S754_finite false _ _ => (1 <=? k) && SFleb x (bound k)
  | _ => false
  end.

End DisplayProps.

(* ================================================================== *)
(** * Binary64 facts *)
(* ================================================================== *)

Module FloatFacts.
Import Js Binary64.

Lemma SFcompare_antisym (x y : spec_float) :
  SFcompare y x = option_map CompOpp (SFcompare x y).
Proof.
  destruct x as [sx|sx| |sx mx ex], y as [sy|sy| |sy my ey]; simpl; try reflexivity;
    try (destruct sx; reflexivity); try (destruct sy; reflexivity);
    try (destruct sx, sy; reflexivity).
  destruct sx, sy; simpl; try reflexivity;
    rewrite (Z.compare_antisym ex ey); destruct (ex ?= ey)%Z; simpl; try reflexivity;
    change (Pos.compare_cont Eq my mx) with (Pos.compare_cont (CompOpp Eq) my mx);
    rewrite <- (Pos.compare_cont_antisym mx my Eq);
    destruct (Pos.compare_cont Eq mx my); reflexivity.
Qed.

Lemma SFcompare_refl (x : spec_float) :
  x <> S754_nan -> SFcompare x x = Some Eq.
Proof.
  destruct x as [s|s| |s m e]; simpl; intros H; try congruence;
    try (destruct s; reflexivity).
  destruct s; rewrite Z.compare_refl, Pos.compare_cont_refl; reflexivity.
Qed.

Lemma isNaN_spec (x : float) :
  isNaN x = match Prim2SF x with S754_nan => true | _ => false end.
Proof.
  unfold isNaN, is_nan. rewrite eqb_spec. unfold SFeqb.
  destruct (Prim2SF x) eqn:E; try reflexivity;
    rewrite SFcompare_refl by discriminate; reflexivity.
Qed.

Lemma isFinite_spec (x : float) :
  isFinite x = match Prim2SF x with
               | S754_zero _ | S754_finite _ _ _ => true
               | _ => false
               end.
Proof.
  unfold isFinite, is_finite. fold (isNaN x). rewrite isNaN_spec.
  unfold is_infinity. rewrite eqb_spec, abs_spec.
  change (Prim2SF infinity) with (S754_infinity false).
  destruct (Prim2SF x) as [s|s| |s m e]; reflexivity.
Qed.

Lemma SFltb_SFleb (x y : spec_float) :
  x <> S754_nan -> y <> S754_nan -> SFltb y x = negb (SFleb x y).
Proof.
  intros Hx Hy. unfold SFltb, SFleb. rewrite (SFcompare_antisym x y).
  destruct (SFcompare x y) as [[]|] eqn:E; try reflexivity.
  destruct x, y; simpl in E; congruence.
Qed.

(** Without a [NaN], [a > b] is the negation of [a <= b]. *)
Lemma gt_leb (a b : float) :
  isNaN a = false -> isNaN b = false -> gt a b = negb (a <=? b)%float.
Proof.
  unfold gt. rewrite !isNaN_spec, ltb_spec, leb_spec. intros Ha Hb.
  apply SFltb_SFleb; intros E; rewrite E in *; discriminate.
Qed.

Lemma lt_leb (a b : float) :
  isNaN a = false -> isNaN b = false -> lt a b = negb (b <=? a)%float.
Proof. intros Ha Hb. exact (gt_leb b a Hb Ha). Qed.

(** The range test of the validator, read as an interval. *)
Lemma outside_inRange (x lo hi : float) :
  isNaN x = false -> isNaN lo = false -> isNaN hi = false ->
  lt x lo || gt x hi = negb (inRange x lo hi).
Proof.
  intros Hx Hlo Hhi. unfold inRange.
  rewrite (lt_leb x lo Hx Hlo), (gt_leb x hi Hx Hhi), negb_andb. reflexivity.
Qed.

(** [x > 0] leaves a positive number. *)
Lemma gt_zero_signClear (x : float) :
  gt x 0 = true -> signClear (Prim2SF x) = true.
Proof.
  unfold gt. rewrite ltb_spec. change (Prim2SF 0) with (S754_zero false).
  unfold SFltb. destruct (Prim2SF x) as [s|s| |s m e]; simpl; try discriminate;
    destruct s; simpl; congruence.
Qed.

Lemma binary_round_aux_signClear (m e : Z) (l : location) :
  signClear (binary_round_aux prec emax false m e l) = true.
Proof.
  unfold binary_round_aux.
  destruct (shr_fexp prec emax m e l) as [mrs' e'].
  destruct (shr_fexp prec emax _ e' loc_Exact) as [mrs'' e''].
  destruct (shr_m mrs''); try reflexivity.
  destruct (e'' <=? emax - prec)%Z; reflexivity.
Qed.

(** A product of sign-clear numbers is sign-clear. *)
Lemma mul_signClear (x y : float) :
  signClear (Prim2SF x) = true -> signClear (Prim2SF y) = true ->
  signClear (Prim2SF (x * y)%float) = true.
Proof.
  rewrite mul_spec. unfold SF64mul.
  destruct (Prim2SF x) as [sx|sx| |sx mx ex], (Prim2SF y) as [sy|sy| |sy my ey];
    simpl; intros Hx Hy; try reflexivity;
    try (apply negb_true_iff in Hx); try (apply negb_true_iff in Hy); subst;
    try reflexivity.
  apply binary_round_aux_signClear.
Qed.

(** A finite sign-clear number is at least zero. *)
Lemma signClear_finite_nonneg (x : float) :
  signClear (Prim2SF x) = true -> isFinite x = true -> (0 <=? x)%float = true.
Proof.
  rewrite isFinite_spec, leb_spec. change (Prim2SF 0) with (S754_zero false).
  unfold SFleb. destruct (Prim2SF x) as [s|s| |s m e]; simpl; try discriminate;
    try reflexivity.
  destruct s; simpl; congruence.
Qed.

Lemma isFinite_not_NaN (x : float) : isFinite x = true -> isNaN x = false.
Proof.
  rewrite isFinite_spec, isNaN_spec. destruct (Prim2SF x); congruence.
Qed.

End FloatFacts.

(* ================================================================== *)
(** * Rounding to binary64

    What the sale aggregator needs of [SpecFloat]'s rounding: it never steps
    over a representable number, it absorbs a term below half a unit in the
    last place, and it overflows only near the top of the range. *)
(* ================================================================== *)

Module Rounding.
Import Binary64.
Local Open Scope Z_scope.

Local Abbreviation fexp := (SpecFloat.fexp prec emax).

Lemma fexp_eq (e : Z) : fexp e = Z.max (e - 53) (-1074).
Proof. reflexivity. Qed.

(** ** Digits *)

Lemma digits2_pos_size (p : positive) : digits2_pos p = Pos.size p.
Proof. induction p; simpl; congruence. Qed.

Lemma Zdigits2_log2 (m : Z) : 0 < m -> Zdigits2 m = Z.log2 m + 1.
Proof.
  destruct m as [|p|p]; try lia. intros _. simpl. rewrite digits2_pos_size.
  destruct p; simpl; lia.
Qed.

Lemma digits_bounds (m : Z) :
  0 < m -> 2 ^ (Zdigits2 m - 1) <= m < 2 ^ Zdigits2 m.
Proof.
  intros H. rewrite (Zdigits2_log2 m H).
  replace (Z.log2 m + 1 - 1) with (Z.log2 m) by lia.
  apply (Z.log2_spec m H).
Qed.

Lemma digits_pos (m : Z) : 0 < m -> 0 < Zdigits2 m.
Proof. intros H. rewrite (Zdigits2_log2 m H). pose proof (Z.log2_nonneg m). lia. Qed.

Lemma digits_le (m d : Z) : 0 < m -> m < 2 ^ d -> Zdigits2 m <= d.
Proof.
  intros Hm H. rewrite (Zdigits2_log2 m Hm).
  destruct (Z.le_gt_cases d 0) as [Hd|Hd].
  - assert (2 ^ d <= 1).
    { destruct (Z.eq_dec d 0) as [->|]; [simpl; lia|].
      rewrite Z.pow_neg_r by lia. lia. }
    lia.
  - pose proof (proj1 (Z.log2_lt_pow2 m d Hm) H). lia.
Qed.

Lemma digits_ge (m d : Z) : 0 <= d -> 2 ^ d <= m -> d + 1 <= Zdigits2 m.
Proof.
  intros Hd H. assert (Hm : 0 < m) by (pose proof (Z.pow_pos_nonneg 2 d); lia).
  rewrite (Zdigits2_log2 m Hm).
  pose proof (proj1 (Z.log2_le_pow2 m d Hm) H). lia.
Qed.

(** ** Shifting right *)

Lemma iter_pos_nat {A : Type} (f : A -> A) (p : positive) (x : A) :
  iter_pos f p x = Nat.iter (Pos.to_nat p) f x.
Proof.
  revert x. induction p as [p IH|p IH|]; intros x; cbn [iter_pos].
  - rewrite !IH, Pos2Nat.inj_xI.
    replace (S (2 * Pos.to_nat p))%nat with (Pos.to_nat p + (Pos.to_nat p + 1))%nat by lia.
    rewrite !Nat.iter_add. simpl. reflexivity.
  - rewrite !IH, Pos2Nat.inj_xO.
    replace (2 * Pos.to_nat p)%nat with (Pos.to_nat p + Pos.to_nat p)%nat by lia.
    rewrite Nat.iter_add. reflexivity.
  - reflexivity.
Qed.

Lemma shr_1_nonneg (m : Z) (r s : bool) :
  0 <= m ->
  shr_1 (Build_shr_record m r s) = Build_shr_record (m / 2) (Z.odd m) (r || s).
Proof.
  intros H. destruct m as [|p|p]; try lia.
  - reflexivity.
  - destruct p; simpl shr_1.
    + rewrite Pos2Z.inj_xI. f_equal. 
      rewrite Z.mul_comm, Z.div_add_l by lia. reflexivity.
    + rewrite Pos2Z.inj_xO. f_equal.
      rewrite Z.mul_comm, Z.div_mul by lia. reflexivity.
    + reflexivity.
Qed.


Lemma mod_pow2_succ (m n : Z) :
  0 <= n ->
  m mod 2 ^ (n + 1) = m mod 2 ^ n + 2 ^ n * (if Z.odd (m / 2 ^ n) then 1 else 0).
Proof.
  intros Hn. rewrite Z.pow_add_r, Z.pow_1_r by lia.
  rewrite Z.rem_mul_r by (try apply Z.pow_nonzero; lia).
  now rewrite Zmod_odd.
Qed.

(** [n + 1] shifts of a non-negative mantissa: the quotient, the last bit
    shifted out, and whether anything was shifted out before it. *)
Lemma iter_shr_1 (m : Z) (r s : bool) (n : nat) :
  0 <= m ->
  Nat.iter (S n) shr_1 (Build_shr_record m r s)
  = Build_shr_record (m / 2 ^ (Z.of_nat n + 1)) (Z.odd (m / 2 ^ Z.of_nat n))
      (r || s || negb (m mod 2 ^ Z.of_nat n =? 0)).
Proof.
  intros Hm. induction n as [|n IH].
  - change (Nat.iter 1 shr_1 ?x) with (shr_1 x). rewrite (shr_1_nonneg m r s Hm).
    change (2 ^ Z.of_nat 0) with 1. rewrite Z.div_1_r, Z.mod_1_r.
    change (2 ^ (Z.of_nat 0 + 1)) with 2. simpl. now rewrite orb_false_r.
  - change (Nat.iter (S (S n)) shr_1 ?x) with (shr_1 (Nat.iter (S n) shr_1 x)).
    rewrite IH, shr_1_nonneg by (apply Z.div_pos; [lia | apply Z.pow_pos_nonneg; lia]).
    rewrite Nat2Z.inj_succ. unfold Z.succ.
    f_equal.
    + rewrite Z.div_div by (try apply Z.pow_pos_nonneg; lia).
      rewrite (Z.pow_add_r 2 (Z.of_nat n + 1) 1) by lia. reflexivity.
    + rewrite (mod_pow2_succ m (Z.of_nat n)) by lia.
      pose proof (Z.mod_pos_bound m (2 ^ Z.of_nat n) ltac:(apply Z.pow_pos_nonneg; lia)) as Hb.
      pose proof (Z.pow_pos_nonneg 2 (Z.of_nat n) ltac:(lia) ltac:(lia)) as Hp.
      destruct (Z.odd (m / 2 ^ Z.of_nat n)), r, s; simpl; try reflexivity.
      * symmetry. apply negb_true_iff, Z.eqb_neq. lia.
      * now rewrite Z.mul_0_r, Z.add_0_r.
Qed.

Lemma iter_shr_1_m (m : Z) (r s : bool) (n : nat) :
  0 <= m ->
  shr_m (Nat.iter n shr_1 (Build_shr_record m r s)) = m / 2 ^ Z.of_nat n.
Proof.
  intros Hm. destruct n as [|n].
  - simpl. now rewrite Z.div_1_r.
  - rewrite iter_shr_1 by assumption. simpl shr_m.
    now rewrite Nat2Z.inj_succ.
Qed.

(** ** Rounding to nearest, ties to even *)

Lemma round_nearest_even_bounds (m : Z) (l : location) :
  m <= round_nearest_even m l <= m + 1.
Proof.
  destruct l as [|[]]; simpl; try lia. destruct (Z.even m); lia.
Qed.

Lemma shr_fexp_spec (m e : Z) (l : location) :
  0 <= m ->
  let '(mrs, e') := shr_fexp prec emax m e l in
  e' = e + shiftCount m e
  /\ shr_m mrs = m / 2 ^ shiftCount m e.
Proof.
  intros Hm. unfold shr_fexp, shr, shiftCount.
  destruct (fexp (Zdigits2 m + e) - e) as [|p|p] eqn:E.
  - simpl. rewrite Z.add_0_r, Z.div_1_r. destruct l as [|[]]; auto.
  - rewrite iter_pos_nat. split; [lia|].
    destruct l as [|[]]; simpl shr_record_of_loc; rewrite iter_shr_1_m by assumption;
      rewrite positive_nat_Z; f_equal; f_equal; lia.
  - simpl. rewrite Z.add_0_r, Z.div_1_r. destruct l as [|[]]; auto.
Qed.


Lemma binary_round_aux_split (s : bool) (m e : Z) (l : location) :
  binary_round_aux prec emax s m e l
  = packed s (fst (rounded m e l)) (snd (rounded m e l)).
Proof.
  unfold binary_round_aux, rounded, packed.
  destruct (shr_fexp prec emax m e l) as [mrs e']. reflexivity.
Qed.

Lemma rounded_bounds (m e : Z) (l : location) :
  0 <= m ->
  snd (rounded m e l) = e + shiftCount m e
  /\ m / 2 ^ shiftCount m e <= fst (rounded m e l) <= m / 2 ^ shiftCount m e + 1.
Proof.
  intros Hm. unfold rounded.
  pose proof (shr_fexp_spec m e l Hm) as H.
  destruct (shr_fexp prec emax m e l) as [mrs e']. destruct H as [-> H].
  simpl. split; [reflexivity|]. rewrite <- H. apply round_nearest_even_bounds.
Qed.

(** An exact input that loses no bit, or whose first lost bit is 0, is
    rounded down. *)
Lemma rounded_down (m e : Z) :
  0 <= m ->
  m mod 2 ^ shiftCount m e = 0
  \/ (1 <= shiftCount m e /\ m mod 2 ^ shiftCount m e < 2 ^ (shiftCount m e - 1)) ->
  fst (rounded m e loc_Exact) = m / 2 ^ shiftCount m e.
Proof.
  intros Hm H. unfold rounded, shr_fexp, shr. fold (shiftCount m e) in *.
  assert (Hs : shiftCount m e = Z.max 0 (fexp (Zdigits2 m + e) - e)) by reflexivity.
  destruct (fexp (Zdigits2 m + e) - e) as [|p|p] eqn:E.
  - simpl. replace (shiftCount m e) with 0 by lia. now rewrite Z.div_1_r.
  - rewrite iter_pos_nat.
    destruct (Pos.to_nat p) as [|k] eqn:Ek; [lia|].
    simpl shr_record_of_loc. rewrite iter_shr_1 by assumption.
    assert (Hn : shiftCount m e = Z.of_nat k + 1) by lia.
    rewrite Hn in *.
    rewrite mod_pow2_succ in H by lia.
    pose proof (Z.mod_pos_bound m (2 ^ Z.of_nat k) ltac:(apply Z.pow_pos_nonneg; lia)) as Hb.
    pose proof (Z.pow_pos_nonneg 2 (Z.of_nat k) ltac:(lia) ltac:(lia)) as Hp.
    replace (Z.of_nat k + 1 - 1) with (Z.of_nat k) in H by lia.
    simpl fst. simpl shr_m.
    destruct (Z.odd (m / 2 ^ Z.of_nat k)); [lia|].
    simpl. destruct (negb _); reflexivity.
  - simpl. replace (shiftCount m e) with 0 by lia. now rewrite Z.div_1_r.
Qed.


Lemma packed_spec (s : bool) (m e : Z) :
  0 <= m ->
  packed s m e
  = match m / 2 ^ shiftCount m e with
    | Z0 => S754_zero s
    | Zpos p =>
        if e + shiftCount m e <=? 971 then S754_finite s p (e + shiftCount m e)
        else S754_infinity s
    | Zneg _ => S754_nan
    end.
Proof.
  intros Hm. unfold packed.
  pose proof (shr_fexp_spec m e loc_Exact Hm) as H.
  destruct (shr_fexp prec emax m e loc_Exact) as [mrs e']. destruct H as [-> ->].
  reflexivity.
Qed.

(** Small mantissas are packed as they are. *)
Lemma packed_small (s : bool) (m e : Z) :
  0 <= m < 2 ^ 53 -> -1074 <= e ->
  packed s m e
  = match m with
    | Z0 => S754_zero s
    | Zpos p => if e <=? 971 then S754_finite s p e else S754_infinity s
    | Zneg _ => S754_nan
    end.
Proof.
  intros Hm He. rewrite packed_spec by lia.
  assert (Hs : shiftCount m e = 0).
  { unfold shiftCount. destruct (Z.eq_dec m 0) as [->|Hn].
    - simpl Zdigits2. rewrite fexp_eq. lia.
    - pose proof (digits_le m 53 ltac:(lia) ltac:(lia)). rewrite fexp_eq. lia. }
  rewrite Hs, Z.add_0_r, Z.div_1_r. reflexivity.
Qed.

(** A mantissa rounded up to [2^53] moves to the next exponent. *)
Lemma packed_carry (s : bool) (e : Z) :
  -1074 <= e ->
  packed s (2 ^ 53) e
  = if e + 1 <=? 971 then S754_finite s (2 ^ 52)%positive (e + 1) else S754_infinity s.
Proof.
  intros He. rewrite packed_spec by (apply Z.pow_nonneg; lia).
  assert (Hs : shiftCount (2 ^ 53) e = 1).
  { unfold shiftCount. change (Zdigits2 (2 ^ 53)) with 54. rewrite fexp_eq. lia. }
  rewrite Hs. reflexivity.
Qed.

(** ** Canonical floats *)

Lemma valid_finite (s : bool) (m : positive) (e : Z) :
  valid_binary (S754_finite s m e) = true ->
  fexp (Zdigits2 (Zpos m) + e) = e /\ e <= 971
  /\ Zdigits2 (Zpos m) <= 53 /\ -1074 <= e /\ Zpos m < 2 ^ 53.
Proof.
  unfold SpecFloat.valid_binary, bounded, canonical_mantissa. intros H.
  apply andb_prop in H. destruct H as [Hc Hb].
  apply Z.eqb_eq in Hc. apply Z.leb_le in Hb.
  change (Z.pos (digits2_pos m)) with (Zdigits2 (Zpos m)) in Hc.
  change (emax - prec) with 971 in Hb.
  pose proof Hc as Hc'. rewrite fexp_eq in Hc'.
  assert (Hd : Zdigits2 (Z.pos m) <= 53) by lia.
  split; [exact Hc|]. repeat (split; [lia|]).
  pose proof (digits_bounds (Zpos m) ltac:(lia)) as [_ Hu].
  eapply Z.lt_le_trans; [exact Hu|]. apply Z.pow_le_mono_r; lia.
Qed.


(** ** Rounding does not step over a representable number *)

Lemma SFleb_finite (m1 m2 : positive) (e1 e2 : Z) :
  e1 < e2 \/ (e1 = e2 /\ Zpos m1 <= Zpos m2) ->
  SFleb (S754_finite false m1 e1) (S754_finite false m2 e2) = true.
Proof.
  unfold SFleb, SFcompare. intros [H | [-> H]].
  - apply Z.compare_lt_iff in H. now rewrite H.
  - rewrite Z.compare_refl. change (Pos.compare_cont Eq m1 m2) with (Pos.compare m1 m2).
    destruct (Pos.compare m1 m2) eqn:E; try reflexivity.
    apply Pos.compare_gt_iff in E. lia.
Qed.

Lemma binary_round_aux_le (m e : Z) (mR : positive) (eR : Z) :
  0 < m -> e <= fexp (Zdigits2 m + e) ->
  valid_binary (S754_finite false mR eR) = true ->
  e <= eR -> m <= Zpos mR * 2 ^ (eR - e) ->
  SFleb (binary_round_aux prec emax false m e loc_Exact) (S754_finite false mR eR) = true.
Proof.
  intros Hm He HR HeR Hle.
  destruct (valid_finite _ _ _ HR) as (HcR & HbR & HdR & HlR & HmR).
  pose proof (digits_bounds m Hm) as [Hdl Hdu].
  pose proof (digits_bounds (Zpos mR) ltac:(lia)) as [_ HdRu].
  pose proof (digits_pos (Zpos mR) ltac:(lia)) as HdRp.
  pose proof (digits_pos m Hm) as Hdp.
  set (dm := Zdigits2 m) in *. set (dR := Zdigits2 (Zpos mR)) in *.
  assert (Hn : shiftCount m e = fexp (dm + e) - e) by (unfold shiftCount; fold dm; lia).
  set (n := shiftCount m e) in *.
  assert (Hn0 : 0 <= n) by lia.
  (* magnitudes *)
  assert (Hmag : dm + e <= dR + eR).
  { assert (H2 : 2 ^ (dm - 1) < 2 ^ (dR + eR - e)).
    { eapply Z.le_lt_trans; [exact Hdl|]. eapply Z.le_lt_trans; [exact Hle|].
      replace (dR + eR - e) with (dR + (eR - e)) by lia.
      rewrite Z.pow_add_r by lia.
      apply Z.mul_lt_mono_pos_r; [apply Z.pow_pos_nonneg; lia | exact HdRu]. }
    apply Z.pow_lt_mono_r_iff in H2; lia. }
  assert (He' : e + n <= eR).
  { rewrite Hn. rewrite fexp_eq in *. lia. }
  assert (Hlow : -1074 <= e + n) by (rewrite Hn, fexp_eq; lia).
  set (K := Zpos mR * 2 ^ (eR - (e + n))).
  assert (HK : Zpos mR * 2 ^ (eR - e) = K * 2 ^ n).
  { unfold K. replace (eR - e) with (eR - (e + n) + n) by lia.
    rewrite Z.pow_add_r by lia. ring. }
  pose proof (Z.pow_pos_nonneg 2 n ltac:(lia) Hn0) as Hpn.
  pose proof (Z.div_mod m (2 ^ n) ltac:(lia)) as Hdm.
  pose proof (Z.mod_pos_bound m (2 ^ n) Hpn) as Hmod.
  destruct (rounded_bounds m e loc_Exact ltac:(lia)) as [Hsnd [Hlo Hhi]].
  fold n in Hsnd, Hlo, Hhi.
  set (q := m / 2 ^ n) in *.
  assert (Hq0 : 0 <= q) by (apply Z.div_pos; lia).
  (* the rounded mantissa stays below the representable one *)
  assert (H1K : fst (rounded m e loc_Exact) <= K).
  { destruct (Z.eq_dec (m mod 2 ^ n) 0) as [Hz|Hz].
    - rewrite (rounded_down m e ltac:(lia) (or_introl Hz)). fold n q. nia.
    - assert (q < K) by nia. lia. }
  assert (H153 : fst (rounded m e loc_Exact) <= 2 ^ 53).
  { assert (q < 2 ^ 53); [|lia].
    apply Z.div_lt_upper_bound; [lia|].
    eapply Z.lt_le_trans; [exact Hdu|]. rewrite <- Z.pow_add_r by lia.
    apply Z.pow_le_mono_r; [lia|]. rewrite fexp_eq in Hn. lia. }
  rewrite binary_round_aux_split, Hsnd.
  set (m1 := fst (rounded m e loc_Exact)) in *.
  assert (Hm10 : 0 <= m1) by lia.
  destruct (Z.eq_dec m1 (2 ^ 53)) as [E|E].
  - rewrite E, packed_carry by lia.
    assert (HKlt : e + n < eR).
    { destruct (Z.eq_dec (e + n) eR) as [Ee|Ee]; [|lia].
      unfold K in H1K. rewrite Ee, Z.sub_diag, Z.mul_1_r in H1K. lia. }
    replace (e + n + 1 <=? 971) with true by (symmetry; apply Z.leb_le; lia).
    apply SFleb_finite.
    destruct (Z.eq_dec (e + n + 1) eR) as [Ee|Ee]; [right|left; lia].
    split; [exact Ee|].
    unfold K in H1K. replace (eR - (e + n)) with 1 in H1K by lia.
    change (2 ^ 1) with 2 in H1K. rewrite E in H1K.
    change (Z.pos (2 ^ 52)) with (2 ^ 52). change (2 ^ 53) with (2 * 2 ^ 52) in H1K. lia.
  - rewrite packed_small by lia.
    destruct m1 as [|p|p] eqn:Ep; try lia; [reflexivity|].
    replace (e + n <=? 971) with true by (symmetry; apply Z.leb_le; lia).
    apply SFleb_finite.
    destruct (Z.eq_dec (e + n) eR) as [Ee|Ee]; [right|left; lia].
    split; [exact Ee|].
    unfold K in H1K. rewrite Ee, Z.sub_diag, Z.mul_1_r in H1K. exact H1K.
Qed.


(** ** [binary_round]: alignment first *)

Lemma shl_align_spec (m : positive) (e e' : Z) :
  let '(mz, ez) := shl_align m e e' in
  ez = Z.min e e' /\ Zpos mz = Zpos m * 2 ^ (e - ez).
Proof.
  unfold shl_align. destruct (e' - e) as [|d|d] eqn:E.
  - split; [lia|]. now rewrite Z.sub_diag, Z.mul_1_r.
  - split; [lia|]. now rewrite Z.sub_diag, Z.mul_1_r.
  - split; [lia|]. replace (e - e') with (Zpos d) by lia.
    change (Pos.iter xO m d) with (shift_pos d m).
    rewrite shift_pos_correct. change (Z.pow_pos 2 d) with (2 ^ Zpos d). ring.
Qed.

Lemma digits_shift (m k : Z) : 0 < m -> 0 <= k -> Zdigits2 (m * 2 ^ k) = Zdigits2 m + k.
Proof.
  intros Hm Hk.
  assert (0 < m * 2 ^ k) by (apply Z.mul_pos_pos; [lia | apply Z.pow_pos_nonneg; lia]).
  rewrite !Zdigits2_log2 by assumption. rewrite Z.log2_mul_pow2 by lia. lia.
Qed.

(** [binary_round] hands [binary_round_aux] the same number, on an exponent
    fine enough for it. *)
Lemma binary_round_aligned (s : bool) (m : positive) (e : Z) :
  exists (mz : positive) (ez : Z),
    binary_round prec emax s m e = binary_round_aux prec emax s (Zpos mz) ez loc_Exact
    /\ ez <= e /\ Zpos mz = Zpos m * 2 ^ (e - ez)
    /\ ez <= fexp (Zdigits2 (Zpos mz) + ez)
    /\ Zdigits2 (Zpos mz) + ez = Zdigits2 (Zpos m) + e.
Proof.
  unfold binary_round.
  pose proof (shl_align_spec m e (fexp (Zpos (digits2_pos m) + e))) as H.
  destruct (shl_align m e _) as [mz ez]. destruct H as [Hez Hmz].
  exists mz, ez. split; [reflexivity|].
  change (Zpos (digits2_pos m)) with (Zdigits2 (Zpos m)) in Hez.
  assert (Hd : Zdigits2 (Zpos mz) + ez = Zdigits2 (Zpos m) + e).
  { rewrite Hmz, digits_shift by lia. lia. }
  rewrite Hd. repeat split; try lia; assumption.
Qed.

Lemma binary_round_le (m mR : positive) (e eR : Z) :
  valid_binary (S754_finite false mR eR) = true ->
  e <= eR -> Zpos m <= Zpos mR * 2 ^ (eR - e) ->
  SFleb (binary_round prec emax false m e) (S754_finite false mR eR) = true.
Proof.
  intros HR He Hle.
  destruct (binary_round_aligned false m e) as (mz & ez & -> & Hez & Hmz & Hf & _).
  apply binary_round_aux_le; try assumption; try lia.
  rewrite Hmz. replace (eR - ez) with (eR - e + (e - ez)) by lia.
  rewrite Z.pow_add_r, Z.mul_assoc by lia.
  apply Z.mul_le_mono_nonneg_r; [apply Z.pow_nonneg; lia | exact Hle].
Qed.

(** ** Sign, NaN and overflow *)

Lemma binary_round_aux_sign (s : bool) (m e : Z) (l : location) :
  binary_round_aux prec emax s m e l = withSign s (binary_round_aux prec emax false m e l).
Proof.
  unfold binary_round_aux.
  destruct (shr_fexp prec emax m e l) as [mrs' e'].
  destruct (shr_fexp prec emax _ e' loc_Exact) as [mrs'' e''].
  destruct (shr_m mrs''); try reflexivity.
  destruct (e'' <=? emax - prec); reflexivity.
Qed.

Lemma binary_round_sign (s : bool) (m : positive) (e : Z) :
  binary_round prec emax s m e = withSign s (binary_round prec emax false m e).
Proof.
  unfold binary_round. destruct (shl_align m e _) as [mz ez].
  apply binary_round_aux_sign.
Qed.

(** A number below [2^1023] on an exponent of at most 970 does not
    overflow, whatever the rounding. *)
Lemma binary_round_aux_finite (s : bool) (m e : Z) (l : location) :
  0 <= m -> Zdigits2 m + e <= 1023 -> e <= 970 ->
  finiteSigned s (binary_round_aux prec emax s m e l) = true.
Proof.
  intros Hm Hd He.
  destruct (rounded_bounds m e l Hm) as [Hsnd [Hlo Hhi]].
  rewrite binary_round_aux_split, Hsnd.
  set (n := shiftCount m e) in *.
  assert (Hn0 : 0 <= n) by (unfold n, shiftCount; lia).
  assert (Hn : fexp (Zdigits2 m + e) - e <= n) by (unfold n, shiftCount; lia).
  assert (Hn' : n = 0 \/ n = fexp (Zdigits2 m + e) - e) by (unfold n, shiftCount; lia).
  pose proof (Z.pow_pos_nonneg 2 n ltac:(lia) Hn0) as Hpn.
  assert (Hq : 0 <= m / 2 ^ n < 2 ^ 53).
  { split; [apply Z.div_pos; lia|].
    destruct (Z.eq_dec m 0) as [->|Hz]; [rewrite Z.div_0_l by lia; lia|].
    pose proof (digits_bounds m ltac:(lia)) as [_ Hu].
    pose proof (digits_pos m ltac:(lia)).
    apply Z.div_lt_upper_bound; [lia|].
    eapply Z.lt_le_trans; [exact Hu|]. rewrite <- Z.pow_add_r by lia.
    apply Z.pow_le_mono_r; [lia|]. rewrite fexp_eq in Hn. lia. }
  assert (Hlow : -1074 <= e + n) by (rewrite fexp_eq in Hn; lia).
  assert (Hup : e + n <= 970) by (rewrite fexp_eq in Hn'; lia).
  set (m1 := fst (rounded m e l)) in *.
  destruct (Z.eq_dec m1 (2 ^ 53)) as [E|E].
  - rewrite E, packed_carry by lia.
    replace (e + n + 1 <=? 971) with true by (symmetry; apply Z.leb_le; lia).
    simpl. apply eqb_reflx.
  - rewrite packed_small by lia.
    destruct m1 as [|p|p] eqn:Ep; try lia; simpl; [apply eqb_reflx|].
    replace (e + n <=? 971) with true by (symmetry; apply Z.leb_le; lia).
    simpl. apply eqb_reflx.
Qed.

Lemma binary_round_finite (s : bool) (m : positive) (e : Z) :
  Zdigits2 (Zpos m) + e <= 1023 -> e <= 970 ->
  finiteSigned s (binary_round prec emax s m e) = true.
Proof.
  intros Hd He.
  destruct (binary_round_aligned s m e) as (mz & ez & -> & Hez & _ & _ & Hmag).
  apply binary_round_aux_finite; lia.
Qed.

(** Rounding a non-negative mantissa never makes a NaN. *)
Lemma binary_round_aux_not_nan (s : bool) (m e : Z) (l : location) :
  0 <= m -> binary_round_aux prec emax s m e l <> S754_nan.
Proof.
  intros Hm. destruct (rounded_bounds m e l Hm) as [_ [Hlo _]].
  rewrite binary_round_aux_split. rewrite packed_spec.
  - set (q := _ / _).
    assert (0 <= q).
    { apply Z.div_pos; [|apply Z.pow_pos_nonneg; unfold shiftCount; lia].
      assert (0 <= m / 2 ^ shiftCount m e); [|lia].
      apply Z.div_pos; [lia | apply Z.pow_pos_nonneg; unfold shiftCount; lia]. }
    destruct q; try lia; [discriminate|].
    destruct (_ <=? _); discriminate.
  - assert (0 <= m / 2 ^ shiftCount m e); [|lia].
    apply Z.div_pos; [lia | apply Z.pow_pos_nonneg; unfold shiftCount; lia].
Qed.


(** ** Addition of non-negative numbers *)

Lemma below_MAX_SAFE (m : positive) (e : Z) :
  SFleb (S754_finite false m e) MAX_SAFE = true -> e <= 0.
Proof.
  unfold SFleb, MAX_SAFE, SFcompare. destruct (e ?= 0) eqn:E; try discriminate; intros _.
  - apply Z.compare_eq in E. lia.
  - rewrite Z.compare_lt_iff in E. lia.
Qed.

(** A large sum absorbs a term less than half its last place. *)
Lemma binary_round_absorbs (mx my : positive) (ex ey : Z) :
  valid_binary (S754_finite false mx ex) = true ->
  Zpos my < 2 ^ 53 -> ey <= ex - 54 ->
  binary_round prec emax false (Pos.add (Pos.mul mx (2 ^ Z.to_pos (ex - ey))) my) ey
  = S754_finite false mx ex.
Proof.
  intros Hx Hmy Hey.
  destruct (valid_finite _ _ _ Hx) as (Hc & Hb & Hd & Hl & Hm).
  set (M := (mx * 2 ^ Z.to_pos (ex - ey) + my)%positive).
  assert (HM : Zpos M = Zpos mx * 2 ^ (ex - ey) + Zpos my).
  { unfold M. rewrite Pos2Z.inj_add, Pos2Z.inj_mul, Pos2Z.inj_pow, Z2Pos.id by lia.
    reflexivity. }
  pose proof (Z.pow_pos_nonneg 2 (ex - ey) ltac:(lia) ltac:(lia)) as Hpk.
  assert (Hmyk : Zpos my < 2 ^ (ex - ey)).
  { eapply Z.lt_le_trans; [exact Hmy|]. apply Z.pow_le_mono_r; lia. }
  pose proof (digits_bounds (Zpos mx) ltac:(lia)) as [Hxl Hxu].
  pose proof (digits_pos (Zpos mx) ltac:(lia)) as Hdx.
  (* the sum has the magnitude of x *)
  assert (HdM : Zdigits2 (Zpos M) = Zdigits2 (Zpos mx) + (ex - ey)).
  { apply Z.le_antisymm.
    - apply digits_le; [lia|]. rewrite HM, Z.pow_add_r by lia. nia.
    - replace (Zdigits2 (Z.pos mx) + (ex - ey))
        with (Zdigits2 (Z.pos mx) - 1 + (ex - ey) + 1) by lia.
      apply digits_ge; [lia|]. rewrite HM, Z.pow_add_r by lia. nia. }
  destruct (binary_round_aligned false M ey) as (mz & ez & -> & Hez & Hmz & Hf & Hmag).
  rewrite HdM in Hmag. replace (Zdigits2 (Z.pos mx) + (ex - ey) + ey)
    with (Zdigits2 (Z.pos mx) + ex) in Hmag by lia.
  rewrite Hmag, Hc in Hf.
  assert (Hn : shiftCount (Zpos mz) ez = ex - ez).
  { unfold shiftCount. rewrite Hmag, Hc. lia. }
  pose proof (Z.pow_pos_nonneg 2 (ey - ez) ltac:(lia) ltac:(lia)) as Hpa.
  assert (Hmz' : Zpos mz = Zpos my * 2 ^ (ey - ez) + Zpos mx * 2 ^ (ex - ez)).
  { rewrite Hmz, HM. replace (ex - ez) with (ex - ey + (ey - ez)) by lia.
    rewrite (Z.pow_add_r 2 (ex - ey)) by lia. ring. }
  assert (Hlow : 0 <= Zpos my * 2 ^ (ey - ez) < 2 ^ (ex - ez - 1)).
  { split; [lia|].
    replace (ex - ez - 1) with (ex - ey - 1 + (ey - ez)) by lia.
    rewrite Z.pow_add_r by lia. apply Z.mul_lt_mono_pos_r; [lia|].
    eapply Z.lt_le_trans; [exact Hmy|]. apply Z.pow_le_mono_r; lia. }
  assert (Hhalf : 2 ^ (ex - ez - 1) < 2 ^ (ex - ez)).
  { apply Z.pow_lt_mono_r; lia. }
  assert (Hmod : Zpos mz mod 2 ^ (ex - ez) = Zpos my * 2 ^ (ey - ez)).
  { rewrite Hmz', Z.mod_add by lia. apply Z.mod_small. lia. }
  assert (Hdiv : Zpos mz / 2 ^ (ex - ez) = Zpos mx).
  { rewrite Hmz', Z.div_add by lia. rewrite Z.div_small by lia. reflexivity. }
  rewrite binary_round_aux_split.
  destruct (rounded_bounds (Zpos mz) ez loc_Exact ltac:(lia)) as [-> _].
  rewrite (rounded_down (Zpos mz) ez ltac:(lia)).
  - rewrite Hn, Hdiv. replace (ez + (ex - ez)) with ex by lia.
    rewrite packed_small by lia.
    replace (ex <=? 971) with true by (symmetry; apply Z.leb_le; lia). reflexivity.
  - right. rewrite Hn, Hmod. lia.
Qed.

(** Adding a safe total to a finite non-negative sum leaves one. *)
Lemma SFadd_safe (x y : spec_float) :
  valid_binary x = true -> valid_binary y = true ->
  finiteSigned false x = true -> finiteSigned false y = true ->
  SFleb y MAX_SAFE = true ->
  finiteSigned false (SFadd prec emax x y) = true.
Proof.
  intros Hx Hy Fx Fy Hmax.
  destruct x as [sx|sx| |sx mx ex], y as [sy|sy| |sy my ey]; try discriminate;
    simpl in Fx, Fy;
    try (destruct sx; [discriminate|]); try (destruct sy; [discriminate|]);
    try reflexivity.
  pose proof (below_MAX_SAFE my ey Hmax) as Hey.
  destruct (valid_finite _ _ _ Hx) as (Hcx & Hbx & Hdx & Hlx & Hmx).
  destruct (valid_finite _ _ _ Hy) as (Hcy & Hby & Hdy & Hly & Hmy).
  unfold SFadd, cond_Zopp.
  pose proof (shl_align_spec mx ex (Z.min ex ey)) as Ax.
  pose proof (shl_align_spec my ey (Z.min ex ey)) as Ay.
  destruct (shl_align mx ex _) as [ax ezx], (shl_align my ey _) as [ay ezy].
  destruct Ax as [Ex Ax], Ay as [Ey Ay]. simpl fst.
  change (Z.pos ax + Z.pos ay) with (Z.pos (ax + ay)). unfold binary_normalize.
  destruct (Z_le_gt_dec 54 ex) as [Hbig|Hsmall].
  - (* the sum stays where it is *)
    assert (Hez : Z.min ex ey = ey) by lia. rewrite Hez in *.
    assert (Eax : ax = (mx * 2 ^ Z.to_pos (ex - ey))%positive).
    { apply Pos2Z.inj. rewrite Ax, Pos2Z.inj_mul, Pos2Z.inj_pow, Z2Pos.id by lia.
      replace ezx with ey by lia. reflexivity. }
    assert (Eay : ay = my).
    { apply Pos2Z.inj. rewrite Ay. replace ezy with ey by lia.
      now rewrite Z.sub_diag, Z.mul_1_r. }
    rewrite Eax, Eay, binary_round_absorbs by (try assumption; lia).
    reflexivity.
  - apply binary_round_finite; [|lia].
    set (ez := Z.min ex ey) in *.
    assert (Hb : Zpos (ax + ay) < 2 ^ (107 - ez)).
    { rewrite Pos2Z.inj_add, Ax, Ay.
      replace ezx with ez by lia. replace ezy with ez by lia.
      pose proof (Z.pow_pos_nonneg 2 (ex - ez) ltac:(lia) ltac:(lia)).
      pose proof (Z.pow_pos_nonneg 2 (ey - ez) ltac:(lia) ltac:(lia)).
      assert (Z.pos mx * 2 ^ (ex - ez) < 2 ^ (106 - ez)).
      { replace (106 - ez) with (53 + (53 - ez)) by lia. rewrite Z.pow_add_r by lia.
        assert (2 ^ (ex - ez) <= 2 ^ (53 - ez)) by (apply Z.pow_le_mono_r; lia).
        nia. }
      assert (Z.pos my * 2 ^ (ey - ez) < 2 ^ (106 - ez)).
      { replace (106 - ez) with (53 + (53 - ez)) by lia. rewrite Z.pow_add_r by lia.
        assert (2 ^ (ey - ez) <= 2 ^ (53 - ez)) by (apply Z.pow_le_mono_r; lia).
        nia. }
      replace (107 - ez) with (106 - ez + 1) by lia.
      rewrite Z.pow_add_r by lia. lia. }
    pose proof (digits_le (Zpos (ax + ay)) _ ltac:(lia) Hb). lia.
Qed.


(** ** Division by a hundred *)

Lemma SFdiv_hundred_finite (x : spec_float) :
  valid_binary x = true -> finiteSigned false x = true ->
  finiteSigned false (SFdiv prec emax x HUNDRED) = true.
Proof.
  intros Hx Fx. destruct x as [sx|sx| |sx mx ex]; try discriminate; simpl in Fx;
    destruct sx; try discriminate; [reflexivity|].
  destruct (valid_finite _ _ _ Hx) as (Hc & Hb & Hd & Hl & Hm).
  unfold SFdiv, HUNDRED, SFdiv_core_binary.
  change (Zdigits2 7036874417766400) with 53.
  set (d1 := Zdigits2 (Zpos mx)) in *.
  set (e' := Z.min (fexp (d1 + ex - (53 + -46))) (ex - -46)).
  set (sh := ex - -46 - e').
  assert (Hsh : 0 <= sh) by (unfold sh, e'; lia).
  assert (Hm' : match sh with Z.pos _ => Z.shiftl (Zpos mx) sh | 0 => Zpos mx | Z.neg _ => 0 end
               = Zpos mx * 2 ^ sh).
  { destruct sh as [|p|p] eqn:E; try lia. apply Z.shiftl_mul_pow2. lia. }
  rewrite Hm'. clear Hm'. set (m' := Zpos mx * 2 ^ sh).
  assert (Hm' : m' = Zpos mx * 2 ^ sh) by reflexivity. clearbody m'.
  pose proof (Z.div_eucl_eq m' 7036874417766400 ltac:(lia)) as Hqr.
  destruct (Z.div_eucl m' 7036874417766400) as [q r] eqn:Eqr.
  assert (Hqdef : q = m' / 7036874417766400) by (unfold Z.div; rewrite Eqr; reflexivity).
  change (xorb false false) with false.
  pose proof (Z.pow_pos_nonneg 2 sh ltac:(lia) Hsh) as Hps.
  pose proof (digits_bounds (Zpos mx) ltac:(lia)) as [_ Hu]. fold d1 in Hu.
  pose proof (digits_pos (Zpos mx) ltac:(lia)) as Hdp. fold d1 in Hdp.
  assert (Hq0 : 0 <= q) by (rewrite Hqdef; apply Z.div_pos; lia).
  assert (Hqm : q * 2 ^ 52 <= m').
  { pose proof (Z.mul_div_le m' 7036874417766400 ltac:(lia)) as H. rewrite <- Hqdef in H.
    change (2 ^ 52) with 4503599627370496. lia. }
  assert (Hm'u : m' < 2 ^ (d1 + sh)).
  { rewrite Hm', Z.pow_add_r by lia. nia. }
  assert (He' : e' <= 970) by (unfold e'; rewrite fexp_eq; lia).
  apply binary_round_aux_finite; [exact Hq0| |exact He'].
  destruct (Z.eq_dec q 0) as [->|Hqz]; [simpl; lia|].
  assert (Hbig : 52 <= d1 + sh).
  { destruct (Z_le_gt_dec 52 (d1 + sh)) as [|Hlt]; [assumption|].
    assert (2 ^ (d1 + sh) <= 2 ^ 52) by (apply Z.pow_le_mono_r; lia). nia. }
  assert (Hq : q < 2 ^ (d1 + sh - 52)).
  { replace (d1 + sh) with (d1 + sh - 52 + 52) in Hm'u by lia.
    rewrite Z.pow_add_r in Hm'u by lia. nia. }
  pose proof (digits_le q _ ltac:(lia) Hq). unfold sh in *. lia.
Qed.

(** ** One minus a non-negative number *)

Lemma SFleb_positive (r : spec_float) (mR : positive) (eR : Z) :
  SFleb (withSign false r) (S754_finite false mR eR) = true ->
  match r with S754_zero _ | S754_finite _ _ _ => True | _ => False end.
Proof.
  destruct r as [s|s| |s m e]; simpl; try discriminate; auto.
Qed.

Lemma SFsub_one (q : spec_float) :
  valid_binary q = true -> finiteSigned false q = true ->
  atMostOne (SFsub prec emax ONE q) = true.
Proof.
  intros Hq Fq. destruct q as [sq|sq| |sq mq eq]; try discriminate; simpl in Fq;
    destruct sq; try discriminate; [reflexivity|].
  unfold SFsub, ONE, cond_Zopp.
  pose proof (shl_align_spec 4503599627370496 (-52) (Z.min (-52) eq)) as A1.
  pose proof (shl_align_spec mq eq (Z.min (-52) eq)) as Aq.
  destruct (shl_align 4503599627370496 _ _) as [a ea], (shl_align mq eq _) as [b eb].
  destruct A1 as [E1 A1], Aq as [Eq Aq]. simpl fst.
  set (ez := Z.min (-52) eq) in *.
  destruct (Z.pos a - Z.pos b) as [|p|p] eqn:ED; unfold binary_normalize.
  - reflexivity.
  - assert (Hle : SFleb (binary_round prec emax false p ez) ONE = true).
    { apply binary_round_le; [reflexivity | lia |].
      replace ea with ez in A1 by lia. lia. }
    rewrite (binary_round_sign false p ez) in *.
    destruct (binary_round prec emax false p ez) as [s|s| |s m e]; simpl in *;
      try discriminate; [reflexivity | exact Hle].
  - assert (Hle : SFleb (binary_round prec emax false p ez) (S754_finite false mq eq) = true).
    { apply binary_round_le; [exact Hq | lia |].
      replace eb with ez in Aq by lia. lia. }
    rewrite (binary_round_sign true p ez).
    rewrite (binary_round_sign false p ez) in Hle.
    destruct (binary_round prec emax false p ez) as [s|s| |s m e]; simpl in *;
      try discriminate; reflexivity.
Qed.

(** ** Multiplying by a factor of at most one *)

Lemma SFleb_finite_inv (m1 m2 : positive) (e1 e2 : Z) :
  SFleb (S754_finite false m1 e1) (S754_finite false m2 e2) = true ->
  e1 < e2 \/ (e1 = e2 /\ Zpos m1 <= Zpos m2).
Proof.
  unfold SFleb, SFcompare. destruct (e1 ?= e2) eqn:E.
  - apply Z.compare_eq in E. subst e2.
    change (Pos.compare_cont Eq m1 m2) with (Pos.compare m1 m2).
    destruct (Pos.compare m1 m2) eqn:Ec; try discriminate; intros _; right; split;
      try reflexivity.
    + apply Pos.compare_eq in Ec. subst. lia.
    + rewrite Pos.compare_lt_iff in Ec. lia.
  - rewrite Z.compare_lt_iff in E. intros _. now left.
  - discriminate.
Qed.


Lemma SFmul_at_most_one (x f : spec_float) :
  valid_binary x = true -> valid_binary f = true ->
  finiteSigned false x = true -> atMostOne f = true ->
  SFleb (SFmul prec emax x f) x = true.
Proof.
  intros Hx Hf Fx Ff.
  destruct x as [sx|sx| |sx mx ex]; try discriminate; simpl in Fx;
    destruct sx; try discriminate;
    destruct f as [sf|sf| |sf mf ef]; try discriminate; try reflexivity.
  destruct sf.
  - (* a negative factor *)
    unfold SFmul. simpl xorb. rewrite binary_round_aux_sign.
    pose proof (binary_round_aux_not_nan false (Zpos (mx * mf)) (ex + ef) loc_Exact
                  ltac:(lia)) as Hn.
    destruct (binary_round_aux prec emax false _ _ _) as [s|s| |s m e]; simpl;
      try reflexivity. now elim Hn.
  - (* a factor between zero and one *)
    change (SFleb (S754_finite false mf ef) (S754_finite false 4503599627370496 (-52)) = true)
      in Ff.
    apply SFleb_finite_inv in Ff.
    destruct (valid_finite _ _ _ Hx) as (Hcx & Hbx & Hdx & Hlx & Hmx).
    destruct (valid_finite _ _ _ Hf) as (Hcf & Hbf & Hdf & Hlf & Hmf).
    assert (Hf1 : ef <= -52 /\ Zpos mf <= 2 ^ (- ef)).
    { destruct Ff as [Hlt | [-> Hle]].
      - split; [lia|].
        assert (2 ^ 53 <= 2 ^ (- ef)) by (apply Z.pow_le_mono_r; lia). lia.
      - split; [lia|]. exact Hle. }
    destruct Hf1 as [Hef Hmf1].
    unfold SFmul. simpl xorb. rewrite Pos2Z.inj_mul.
    pose proof (digits_bounds (Zpos mx) ltac:(lia)) as [Hxl _].
    apply binary_round_aux_le; try assumption; try lia.
    + (* the exponent of the product is fine enough *)
      rewrite fexp_eq in *.
      destruct (Z.eq_dec (Zdigits2 (Zpos mx)) 53) as [E53|N53]; [|lia].
      assert (53 <= Zdigits2 (Zpos mx * Zpos mf)); [|lia].
      apply (digits_ge _ 52); [lia|].
      rewrite E53 in Hxl. change (53 - 1) with 52 in Hxl. nia.
    + replace (ex - (ex + ef)) with (- ef) by lia.
      apply Z.mul_le_mono_nonneg_l; lia.
Qed.

End Rounding.

Module RowTotalFacts.
Import Js Sales Binary64 Props FloatFacts.
Import SECURITY_CONFIG.

Lemma present_validPositive (v : JsValue) (max : float) :
  isNaN max = false -> present v max = validPositive v max.
Proof.
  intros Hmax. unfold present, validPositive, validateNumericInput. fold (parsed v).
  destruct (isNaN (parsed v)) eqn:Hn; simpl; [reflexivity|].
  rewrite (outside_inRange (parsed v) 0 max Hn eq_refl Hmax).
  destruct (inRange (parsed v) 0 max); reflexivity.
Qed.

Lemma present_value (v : JsValue) (max : float) :
  present v max = true ->
  sanitizedValue (validateNumericInput v 0 max) = parsed v /\ gt (parsed v) 0 = true.
Proof.
  unfold present, validateNumericInput. fold (parsed v).
  destruct (isNaN (parsed v)); simpl; [discriminate|].
  destruct (lt (parsed v) 0 || gt (parsed v) max); simpl; [discriminate|].
  intros H; split; [reflexivity | exact H].
Qed.

(** calculateRowTotal, read through the four presence flags. *)
Lemma calculateRowTotal_unfold (width length quantity unitPrice : JsValue) :
  calculateRowTotal width length quantity unitPrice =
  let widthVal := sanitizedValue (validateNumericInput width 0 MAX_ITEM_DIMENSIONS) in
  let lengthVal := sanitizedValue (validateNumericInput length 0 MAX_ITEM_DIMENSIONS) in
  let quantityVal := sanitizedValue (validateNumericInput quantity 0 MAX_QUANTITY_PER_ITEM) in
  let unitPriceVal := sanitizedValue (validateNumericInput unitPrice 0 MAX_PRICE_PER_ITEM) in
  let hasWidth := present width MAX_ITEM_DIMENSIONS in
  let hasLength := present length MAX_ITEM_DIMENSIONS in
  let hasQuantity := present quantity MAX_QUANTITY_PER_ITEM in
  let hasUnitPrice := present unitPrice MAX_PRICE_PER_ITEM in
  if hasWidth && hasLength && hasQuantity && hasUnitPrice then
    let total := (widthVal * lengthVal * quantityVal * unitPriceVal)%float in
    if overflows total then 0%float else total
  else if negb hasWidth && negb hasLength && hasQuantity && hasUnitPrice then
    let total := (quantityVal * unitPriceVal)%float in
    if overflows total then 0%float else total
  else 0%float.
Proof. reflexivity. Qed.

Lemma overflows_false (total : float) :
  overflows total = false <->
  isFinite total = true /\ (total <=? MAX_SAFE_INTEGER)%float = true.
Proof.
  unfold overflows. split.
  - intros H. apply orb_false_iff in H. destruct H as [Hf Hg].
    apply negb_false_iff in Hf. split; [exact Hf|].
    rewrite (gt_leb total MAX_SAFE_INTEGER (isFinite_not_NaN _ Hf) eq_refl) in Hg.
    now apply negb_false_iff in Hg.
  - intros [Hf Hl]. rewrite Hf. simpl.
    rewrite (gt_leb total MAX_SAFE_INTEGER (isFinite_not_NaN _ Hf) eq_refl), Hl.
    reflexivity.
Qed.

(** What the overflow guard lets through is a safe total. *)
Lemma guarded_total_safe (total : float) :
  signClear (Prim2SF total) = true ->
  let n := if overflows total then 0%float else total in
  isFinite n = true /\ (0 <=? n)%float = true /\ (n <=? MAX_SAFE_INTEGER)%float = true.
Proof.
  intros Hs. destruct (overflows total) eqn:Ho; simpl.
  - repeat split; reflexivity.
  - apply overflows_false in Ho. destruct Ho as [Hf Hl].
    repeat split; try assumption. now apply signClear_finite_nonneg.
Qed.

(** The four presence flags, case by case. *)
Ltac flag_cases width length quantity unitPrice :=
  destruct (present width MAX_ITEM_DIMENSIONS) eqn:?Hw;
  destruct (present length MAX_ITEM_DIMENSIONS) eqn:?Hl;
  destruct (present quantity MAX_QUANTITY_PER_ITEM) eqn:?Hq;
  destruct (present unitPrice MAX_PRICE_PER_ITEM) eqn:?Hp.

(** The branch taken with all four fields present. *)
Lemma calculateRowTotal_present (width length quantity unitPrice : JsValue) :
  present width MAX_ITEM_DIMENSIONS = true ->
  present length MAX_ITEM_DIMENSIONS = true ->
  present quantity MAX_QUANTITY_PER_ITEM = true ->
  present unitPrice MAX_PRICE_PER_ITEM = true ->
  calculateRowTotal width length quantity unitPrice
  = let total := (parsed width * parsed length * parsed quantity * parsed unitPrice)%float in
    if overflows total then 0%float else total.
Proof.
  intros Hw Hl Hq Hp. rewrite calculateRowTotal_unfold. cbv zeta.
  rewrite Hw, Hl, Hq, Hp. simpl.
  apply present_value in Hw, Hl, Hq, Hp.
  destruct Hw as [-> _], Hl as [-> _], Hq as [-> _], Hp as [-> _]. reflexivity.
Qed.

(** The branch taken with quantity and price and no dimension. *)
Lemma calculateRowTotal_flat (width length quantity unitPrice : JsValue) :
  present width MAX_ITEM_DIMENSIONS = false ->
  present length MAX_ITEM_DIMENSIONS = false ->
  present quantity MAX_QUANTITY_PER_ITEM = true ->
  present unitPrice MAX_PRICE_PER_ITEM = true ->
  calculateRowTotal width length quantity unitPrice
  = let total := (parsed quantity * parsed unitPrice)%float in
    if overflows total then 0%float else total.
Proof.
  intros Hw Hl Hq Hp. rewrite calculateRowTotal_unfold. cbv zeta.
  rewrite Hw, Hl, Hq, Hp. simpl.
  apply present_value in Hq, Hp.
  destruct Hq as [-> _], Hp as [-> _]. reflexivity.
Qed.

(** Without both dimensions or neither, or without quantity and price,
    nothing is computed. *)
Lemma calculateRowTotal_invalid (width length quantity unitPrice : JsValue) :
  xorb (present width MAX_ITEM_DIMENSIONS) (present length MAX_ITEM_DIMENSIONS) = true
  \/ present quantity MAX_QUANTITY_PER_ITEM = false
  \/ present unitPrice MAX_PRICE_PER_ITEM = false ->
  calculateRowTotal width length quantity unitPrice = 0%float.
Proof.
  rewrite calculateRowTotal_unfold. cbv zeta.
  flag_cases width length quantity unitPrice; simpl;
    intros [H | [H | H]]; try discriminate; reflexivity.
Qed.

(** Whatever the inputs, the result is a product of positive numbers, or
    zero, gone through the overflow guard. *)
Lemma calculateRowTotal_guarded (width length quantity unitPrice : JsValue) :
  exists total : float,
    signClear (Prim2SF total) = true
    /\ calculateRowTotal width length quantity unitPrice
       = if overflows total then 0%float else total.
Proof.
  flag_cases width length quantity unitPrice;
    try (exists 0%float; split; [reflexivity|];
         apply calculateRowTotal_invalid; rewrite Hw, Hl, ?Hq, ?Hp; simpl; tauto).
  - eexists. split; [|now apply calculateRowTotal_present].
    apply present_value in Hw, Hl, Hq, Hp.
    repeat apply mul_signClear; apply gt_zero_signClear; tauto.
  - eexists. split; [|now apply calculateRowTotal_flat].
    apply present_value in Hq, Hp.
    apply mul_signClear; apply gt_zero_signClear; tauto.
Qed.

(** ** C10 *)

(** On primitive values calculateRowTotal returns a finite number [n] with
    [0 <= n <= Number.MAX_SAFE_INTEGER]. *)
Lemma calculateRowTotal_primitive (width length quantity unitPrice : JsValue) :
  let n := calculateRowTotal width length quantity unitPrice in
  isFinite n = true /\ isNaN n = false
  /\ (0 <=? n)%float = true /\ (n <=? MAX_SAFE_INTEGER)%float = true.
Proof.
  destruct (calculateRowTotal_guarded width length quantity unitPrice)
    as (total & Hsign & ->).
  destruct (guarded_total_safe total Hsign) as (Hfinite & Hzero & Hmax).
  cbv zeta. split; [exact Hfinite|]. split; [|split; assumption].
  now apply isFinite_not_NaN.
Qed.

(** Once the four conversions to a string have returned, the rest of
    calculateRowTotal is its course on the four strings. *)
Lemma calculateRowTotalAny_converted (width length quantity unitPrice : JsAny)
      (w l q p : string) :
  StringOf width = Some w -> StringOf length = Some l ->
  StringOf quantity = Some q -> StringOf unitPrice = Some p ->
  calculateRowTotalAny width length quantity unitPrice
  = Some (calculateRowTotal (JsString w) (JsString l) (JsString q) (JsString p)).
Proof.
  intros Ew El Eq Ep.
  unfold calculateRowTotalAny, validateNumericInputAny. rewrite Ew, El, Eq, Ep.
  reflexivity.
Qed.

Lemma calculateRowTotalAny_thrown (width length quantity unitPrice : JsAny) :
  StringOf width = None \/ StringOf length = None
  \/ StringOf quantity = None \/ StringOf unitPrice = None ->
  calculateRowTotalAny width length quantity unitPrice = None.
Proof.
  unfold calculateRowTotalAny, validateNumericInputAny.
  destruct (StringOf width); [|reflexivity].
  destruct (StringOf length); [|reflexivity].
  destruct (StringOf quantity); [|reflexivity].
  destruct (StringOf unitPrice); [|reflexivity].
  intros [H|[H|[H|H]]]; discriminate.
Qed.

(** C10, as stated, fails: calculateRowTotal throws on an input whose
    conversion to a string throws, as [Object.create(null)] for the width
    beside three well-formed fields. *)
Lemma calculateRowTotal_throws :
  ~ (forall width length quantity unitPrice : JsAny,
       exists n, calculateRowTotalAny width length quantity unitPrice = Some n
                 /\ isFinite n = true /\ isNaN n = false
                 /\ (0 <=? n)%float = true /\ (n <=? MAX_SAFE_INTEGER)%float = true).
Proof.
  intros H.
  destruct (H (Other None) (Primitive (JsString "5")) (Primitive (JsNumber 2))
              (Primitive (JsString "3"))) as (n & E & _).
  discriminate E.
Qed.

(** C10, amended. For every four inputs on which [String(value)] does not
    throw (every undefined, null, boolean, number and string, and every
    other value whose conversion to a string returns) calculateRowTotal
    returns, without throwing, a finite number [n] with
    [0 <= n <= Number.MAX_SAFE_INTEGER]: no branch returns a negative, NaN
    or infinite total.  When the conversion throws for one of the four,
    calculateRowTotal throws. *)
Theorem calculateRowTotal_safe (width length quantity unitPrice : JsAny) :
  (forall v : JsValue, StringOf (Primitive v) <> None)
  /\ (StringOf width <> None -> StringOf length <> None ->
      StringOf quantity <> None -> StringOf unitPrice <> None ->
      exists n, calculateRowTotalAny width length quantity unitPrice = Some n
                /\ isFinite n = true /\ isNaN n = false
                /\ (0 <=? n)%float = true /\ (n <=? MAX_SAFE_INTEGER)%float = true)
  /\ (StringOf width = None \/ StringOf length = None
      \/ StringOf quantity = None \/ StringOf unitPrice = None ->
      calculateRowTotalAny width length quantity unitPrice = None).
Proof.
  split; [intros v; discriminate|].
  split; [|apply calculateRowTotalAny_thrown].
  intros Hw Hl Hq Hp.
  destruct (StringOf width) as [w|] eqn:Ew; [|now elim Hw].
  destruct (StringOf length) as [l|] eqn:El; [|now elim Hl].
  destruct (StringOf quantity) as [q|] eqn:Eq; [|now elim Hq].
  destruct (StringOf unitPrice) as [p|] eqn:Ep; [|now elim Hp].
  exists (calculateRowTotal (JsString w) (JsString l) (JsString q) (JsString p)).
  split; [now apply calculateRowTotalAny_converted|].
  apply (calculateRowTotal_primitive (JsString w) (JsString l) (JsString q) (JsString p)).
Qed.

Lemma calculateRowTotal_safe_witness :
  calculateRowTotalAny (Primitive (JsString "10")) (Other (Some "5"%string))
    (Primitive (JsNumber 2)) (Primitive (JsString "3")) = Some 300%float
  /\ (exists n, calculateRowTotalAny (Primitive (JsString "10")) (Other (Some "5"%string))
                  (Primitive (JsNumber 2)) (Primitive (JsString "3")) = Some n
                /\ isFinite n = true /\ isNaN n = false
                /\ (0 <=? n)%float = true /\ (n <=? MAX_SAFE_INTEGER)%float = true)
  /\ calculateRowTotalAny (Primitive (JsString "10")) (Other None)
       (Primitive (JsNumber 2)) (Primitive (JsString "3")) = None.
Proof.
  split; [vm_compute; reflexivity|]. split.
  - apply (proj1 (proj2 (calculateRowTotal_safe
                           (Primitive (JsString "10")) (Other (Some "5"%string))
                           (Primitive (JsNumber 2)) (Primitive (JsString "3")))));
      discriminate.
  - apply (proj2 (proj2 (calculateRowTotal_safe
                           (Primitive (JsString "10")) (Other None)
                           (Primitive (JsNumber 2)) (Primitive (JsString "3"))))).
    right. left. reflexivity.
Defined.

(** ** C1 *)

(** C1. When width, length, quantity and unitPrice each parse as a number
    within its bounds ([0, 10000] for the dimensions and the quantity,
    [0, 1000000] for the price) and strictly positive, and the product is
    finite and at most Number.MAX_SAFE_INTEGER, calculateRowTotal returns
    width * length * quantity * unitPrice. *)
Theorem area_priced_row_total (width length quantity unitPrice : JsValue) :
  let w := parsed width in
  let l := parsed length in
  let q := parsed quantity in
  let p := parsed unitPrice in
  validPositive width 10000 = true ->
  validPositive length 10000 = true ->
  validPositive quantity 10000 = true ->
  validPositive unitPrice 1000000 = true ->
  isFinite (w * l * q * p)%float = true ->
  (w * l * q * p <=? MAX_SAFE_INTEGER)%float = true ->
  calculateRowTotal width length quantity unitPrice = (w * l * q * p)%float.
Proof.
  intros w l q p Hw Hl Hq Hp Hf Hm.
  rewrite <- (present_validPositive width 10000 eq_refl) in Hw.
  rewrite <- (present_validPositive length 10000 eq_refl) in Hl.
  rewrite <- (present_validPositive quantity 10000 eq_refl) in Hq.
  rewrite <- (present_validPositive unitPrice 1000000 eq_refl) in Hp.
  rewrite (calculateRowTotal_present width length quantity unitPrice Hw Hl Hq Hp).
  cbv zeta. fold w l q p.
  now rewrite (proj2 (overflows_false _) (conj Hf Hm)).
Qed.

Lemma area_priced_row_total_witness :
  validPositive (JsString "10") 10000 = true
  /\ calculateRowTotal (JsString "10") (JsString "5") (JsString "2") (JsString "3")
     = 300%float.
Proof.
  split; [reflexivity|].
  apply (area_priced_row_total (JsString "10") (JsString "5") (JsString "2") (JsString "3"));
    vm_compute; reflexivity.
Defined.

(** ** C2 *)

(** C2. When neither width nor length is present, quantity and unitPrice
    are both present (valid, in bounds, strictly positive) and their product
    is finite and at most Number.MAX_SAFE_INTEGER, calculateRowTotal returns
    quantity * unitPrice; for quantity 5 and unit price 20 with no width and
    no length the row total is 100. *)
Theorem flat_priced_row_total :
  (forall width length quantity unitPrice : JsValue,
     let q := parsed quantity in
     let p := parsed unitPrice in
     validPositive width 10000 = false ->
     validPositive length 10000 = false ->
     validPositive quantity 10000 = true ->
     validPositive unitPrice 1000000 = true ->
     isFinite (q * p)%float = true ->
     (q * p <=? MAX_SAFE_INTEGER)%float = true ->
     calculateRowTotal width length quantity unitPrice = (q * p)%float)
  /\ calculateRowTotal (JsString "") (JsString "") (JsString "5") (JsString "20")
     = 100%float
  /\ calculateRowTotal JsUndefined JsUndefined (JsNumber 5) (JsNumber 20)
     = 100%float.
Proof.
  split; [|split; vm_compute; reflexivity].
  intros width length quantity unitPrice q p Hw Hl Hq Hp Hf Hm.
  rewrite <- (present_validPositive width 10000 eq_refl) in Hw.
  rewrite <- (present_validPositive length 10000 eq_refl) in Hl.
  rewrite <- (present_validPositive quantity 10000 eq_refl) in Hq.
  rewrite <- (present_validPositive unitPrice 1000000 eq_refl) in Hp.
  rewrite (calculateRowTotal_flat width length quantity unitPrice Hw Hl Hq Hp).
  cbv zeta. fold q p.
  now rewrite (proj2 (overflows_false _) (conj Hf Hm)).
Qed.

Lemma flat_priced_row_total_witness :
  validPositive (JsString "0") 10000 = false
  /\ validPositive (JsString "2.5") 10000 = true
  /\ calculateRowTotal (JsString "0") (JsString "abc") (JsString "2.5") (JsString "4")
     = 10%float.
Proof.
  split; [reflexivity|]. split; [reflexivity|].
  apply (proj1 flat_priced_row_total
           (JsString "0") (JsString "abc") (JsString "2.5") (JsString "4"));
    vm_compute; reflexivity.
Defined.

(** ** C7 *)

(** C7. validateNumericInput returns [{valid: false, value: 0}] when the
    sanitized string form of the value does not parse as a number; it
    returns the parsed number flagged invalid when that number lies outside
    [[min, max]]; and it returns the parsed number flagged valid otherwise.
    With bounds that are numbers, lying outside is the negation of
    [min <= n <= max]. *)
Theorem validateNumericInput_cases (value : JsValue) (min max : float) :
  let n := parsed value in
  (isNaN n = true ->
   validateNumericInput value min max = {| isValid := false; sanitizedValue := 0 |})
  /\ (isNaN n = false -> outside n min max = true ->
      validateNumericInput value min max = {| isValid := false; sanitizedValue := n |})
  /\ (isNaN n = false -> outside n min max = false ->
      validateNumericInput value min max = {| isValid := true; sanitizedValue := n |})
  /\ (isNaN n = false -> isNaN min = false -> isNaN max = false ->
      outside n min max = negb (inRange n min max)).
Proof.
  intros n. unfold validateNumericInput, outside. fold (parsed value). fold n.
  repeat split.
  - intros ->. reflexivity.
  - intros -> ->. reflexivity.
  - intros -> ->. reflexivity.
  - apply outside_inRange.
Qed.

Lemma validateNumericInput_cases_witness :
  validateNumericInput (JsString "abc") 0 100 = {| isValid := false; sanitizedValue := 0 |}
  /\ validateNumericInput (JsString " 150 ") 0 100
     = {| isValid := false; sanitizedValue := 150 |}
  /\ validateNumericInput (JsString "100") 0 100
     = {| isValid := true; sanitizedValue := 100 |}
  /\ outside 100 0 100 = negb (inRange 100 0 100).
Proof.
  split; [|split; [|split]].
  - apply (proj1 (validateNumericInput_cases (JsString "abc") 0 100)). reflexivity.
  - apply (proj1 (proj2 (validateNumericInput_cases (JsString " 150 ") 0 100)));
      reflexivity.
  - apply (proj1 (proj2 (proj2 (validateNumericInput_cases (JsString "100") 0 100))));
      reflexivity.
  - apply (proj2 (proj2 (proj2 (validateNumericInput_cases (JsString "100") 0 100))));
      reflexivity.
Defined.

End RowTotalFacts.

Module GuardFacts.
Import Js Sales Binary64 Props FloatFacts RowTotalFacts.
Import SECURITY_CONFIG.
Local Open Scope list_scope.

(** ** The loop over the rows *)

Lemma checkRow_hasError (index : nat) (row : Row) (acc : Checked) :
  hasError (checkRow index row acc) = rowError row || hasError acc.
Proof. reflexivity. Qed.

Lemma checkRow_items (index : nat) (row : Row) (acc : Checked) :
  items (checkRow index row acc)
  = items acc ++ (if retained row then [itemOf row] else []).
Proof.
  unfold checkRow, retained, itemOf. simpl.
  destruct (nonEmpty _ || nonEmpty _); [reflexivity | now rewrite app_nil_r].
Qed.

Lemma forEachRow_hasError (rows : list Row) :
  forall index acc,
    hasError (forEachRow index rows acc) = existsb rowError rows || hasError acc.
Proof.
  induction rows as [|row rest IH]; intros index acc; simpl; [reflexivity|].
  rewrite IH, checkRow_hasError.
  destruct (rowError row), (existsb rowError rest), (hasError acc); reflexivity.
Qed.

Lemma forEachRow_items (rows : list Row) :
  forall index acc,
    items (forEachRow index rows acc)
    = items acc ++ map itemOf (filter retained rows).
Proof.
  induction rows as [|row rest IH]; intros index acc; simpl.
  - now rewrite app_nil_r.
  - rewrite IH, checkRow_items, <- app_assoc.
    destruct (retained row); reflexivity.
Qed.

Lemma checkRows_hasError (rows : list Row) :
  hasError (checkRows rows) = existsb rowError rows.
Proof. unfold checkRows. rewrite forEachRow_hasError. simpl. apply orb_false_r. Qed.

Lemma checkRows_items (rows : list Row) :
  items (checkRows rows) = map itemOf (filter retained rows).
Proof. unfold checkRows. now rewrite forEachRow_items. Qed.

(** An empty field is never present. *)
Lemma present_nonEmpty (s : string) (max : float) :
  present (JsString s) max = true -> nonEmpty s = true.
Proof. destruct s; [discriminate | reflexivity]. Qed.

Lemma rowError_false_retained (row : Row) :
  rowError row = false -> retained row = true.
Proof.
  unfold rowError, missing, retained. intros H.
  apply orb_false_iff in H. destruct H as [_ H].
  apply orb_false_iff in H. destruct H as [H _].
  apply negb_false_iff in H. apply present_nonEmpty in H. rewrite H.
  apply orb_true_r.
Qed.

Lemma no_error_all_retained (rows : list Row) :
  existsb rowError rows = false -> filter retained rows = rows.
Proof.
  induction rows as [|row rest IH]; simpl; [reflexivity|].
  intros H. apply orb_false_iff in H. destruct H as [Hr Hrest].
  rewrite (rowError_false_retained row Hr), (IH Hrest). reflexivity.
Qed.

(** The row total, read through the flags of the row. *)
Lemma rowTotal_flags (row : Row) :
  rowError row = true -> rowTotal row = 0%float.
Proof.
  unfold rowError, oneDimension, missing, hasWidth, hasLength, hasQuantity,
    hasUnitPrice, rowTotal.
  rewrite calculateRowTotal_unfold. cbv zeta.
  destruct (present (JsString (row_width row)) _),
           (present (JsString (row_length row)) _),
           (present (JsString (row_quantity row)) _),
           (present (JsString (row_unitPrice row)) _); simpl;
    intros H; try discriminate; reflexivity.
Qed.

Lemma submit_rejects_errors (w : Window) (now : float) (generatedId date : string)
      (f : Form) :
  hasError (checkRows (rows f)) = true ->
  rejected (submit w now generatedId date f) = true.
Proof.
  intros H. unfold submit.
  destruct (rateLimited w now); [reflexivity|].
  destruct (MAX_ITEMS_PER_SALE <? Datatypes.length (rows f))%nat; [reflexivity|].
  destruct (Datatypes.length (items (checkRows (rows f))) =? 0)%nat; [reflexivity|].
  rewrite H. reflexivity.
Qed.


Lemma submit_created (w : Window) (now : float) (generatedId date : string)
      (f : Form) (saleDb : SaleDb) :
  submit w now generatedId date f = CreateSale saleDb ->
  rateLimited w now = false
  /\ (Datatypes.length (rows f) <= 50)%nat
  /\ items (checkRows (rows f)) <> []
  /\ hasError (checkRows (rows f)) = false
  /\ sale_items saleDb = items (checkRows (rows f)).
Proof.
  unfold submit.
  destruct (rateLimited w now); [discriminate|].
  destruct (MAX_ITEMS_PER_SALE <? Datatypes.length (rows f))%nat eqn:Hn; [discriminate|].
  destruct (Datatypes.length (items (checkRows (rows f))) =? 0)%nat eqn:Hi; [discriminate|].
  destruct (hasError (checkRows (rows f))); [discriminate|].
  destruct (apiClient w); simpl; [|discriminate].
  intros H. injection H as <-. simpl.
  apply Nat.ltb_ge in Hn. apply Nat.eqb_neq in Hi.
  repeat split; try reflexivity; [exact Hn|].
  intros E. rewrite E in Hi. now apply Hi.
Qed.

(** ** C3 *)

(** C3. Where exactly one of width and length is present, or quantity or
    unit price is missing, calculateRowTotal returns 0; and whatever form
    holds such a row, the submit handler records an error ([hasError]) and
    stops before createSale: the zero total is not accepted as a legitimate
    row. *)
Theorem invalid_row_zero_and_rejected :
  (forall width length quantity unitPrice : JsValue,
     xorb (present width 10000) (present length 10000) = true
     \/ present quantity 10000 = false
     \/ present unitPrice 1000000 = false ->
     calculateRowTotal width length quantity unitPrice = 0%float)
  /\ (forall row : Row,
        oneDimension row = true \/ missing row = true ->
        rowTotal row = 0%float
        /\ forall (w : Window) (now : float) (generatedId date : string) (f : Form),
             In row (rows f) ->
             hasError (checkRows (rows f)) = true
             /\ rejected (submit w now generatedId date f) = true).
Proof.
  split; [exact calculateRowTotal_invalid|].
  intros row H.
  assert (He : rowError row = true).
  { unfold rowError. destruct H as [-> | ->]; [reflexivity | apply orb_true_r]. }
  split; [now apply rowTotal_flags|].
  intros w now generatedId date f Hin.
  assert (Hc : hasError (checkRows (rows f)) = true).
  { rewrite checkRows_hasError. apply existsb_exists. now exists row. }
  split; [exact Hc | now apply submit_rejects_errors].
Qed.

Lemma invalid_row_zero_and_rejected_witness :
  (present (JsString "4") 10000 = true /\ present (JsString "") 10000 = false
   /\ calculateRowTotal (JsString "4") (JsString "") (JsString "2") (JsString "3")
      = 0%float)
  /\ oneDimension (exampleRow "10" "0" "1" "5") = true
  /\ rowTotal (exampleRow "10" "0" "1" "5") = 0%float
  /\ rejected (submit exampleWindow 1000 "id" "2024-01-01"
                 (exampleForm [exampleRow "5" "5" "1" "5"; exampleRow "10" "0" "1" "5"]))
     = true.
Proof.
  split.
  { split; [reflexivity|]. split; [reflexivity|].
    apply (proj1 invalid_row_zero_and_rejected
             (JsString "4") (JsString "") (JsString "2") (JsString "3")).
    left. reflexivity. }
  split; [reflexivity|].
  destruct (proj2 invalid_row_zero_and_rejected (exampleRow "10" "0" "1" "5")
              (or_introl eq_refl)) as [H0 Hf].
  split; [exact H0|].
  apply (Hf exampleWindow 1000%float "id"%string "2024-01-01"%string
            (exampleForm [exampleRow "5" "5" "1" "5"; exampleRow "10" "0" "1" "5"])).
  simpl. right. left. reflexivity.
Defined.

(** ** C6 *)

(** C6. The submit handler enforces a row count in [1, 50]: past the rate
    limiter, a form with more than 50 rows (51, say) stops on the capacity
    alert; a form of which no row is retained is rejected; a form with a row
    in error (one dimension without the other, quantity or unit price
    missing) is rejected; and whenever a sale is handed to createSale, the
    form had between 1 and 50 rows, none of them in error, and the sale
    holds every row of the form: nothing is submitted in part. *)
Theorem submission_guard_rejects (w : Window) (now : float)
        (generatedId date : string) (f : Form) :
  let outcome := submit w now generatedId date f in
  (rateLimited w now = false -> (50 < Datatypes.length (rows f))%nat ->
   outcome = TooManyItems)
  /\ ((50 < Datatypes.length (rows f))%nat -> rejected outcome = true)
  /\ (items (checkRows (rows f)) = [] -> rejected outcome = true)
  /\ (existsb rowError (rows f) = true -> rejected outcome = true)
  /\ (forall saleDb, outcome = CreateSale saleDb ->
        (1 <= Datatypes.length (rows f) <= 50)%nat
        /\ existsb rowError (rows f) = false
        /\ sale_items saleDb = map itemOf (rows f)).
Proof.
  cbv zeta. repeat split.
  - intros Hr Hn. unfold submit. rewrite Hr.
    apply Nat.ltb_lt in Hn. unfold MAX_ITEMS_PER_SALE. now rewrite Hn.
  - intros Hn. unfold submit. destruct (rateLimited w now); [reflexivity|].
    apply Nat.ltb_lt in Hn. unfold MAX_ITEMS_PER_SALE. now rewrite Hn.
  - intros Hi. unfold submit. destruct (rateLimited w now); [reflexivity|].
    destruct (MAX_ITEMS_PER_SALE <? _)%nat; [reflexivity|]. now rewrite Hi.
  - intros He. apply submit_rejects_errors. now rewrite checkRows_hasError.
  - apply submit_created in H. destruct H as (_ & _ & Hi & He & _).
    rewrite checkRows_hasError in He. rewrite checkRows_items in Hi.
    rewrite (no_error_all_retained _ He) in Hi.
    destruct (rows f); [now elim Hi | simpl; lia].
  - apply submit_created in H. tauto.
  - apply submit_created in H. destruct H as (_ & _ & _ & He & _).
    now rewrite checkRows_hasError in He.
  - apply submit_created in H. destruct H as (_ & _ & _ & He & ->).
    rewrite checkRows_hasError in He.
    now rewrite checkRows_items, (no_error_all_retained _ He).
Qed.

Lemma submission_guard_rejects_witness :
  (rateLimited exampleWindow 1000 = false
   /\ (50 < Datatypes.length (rows (exampleForm (repeat (exampleRow "" "" "5" "20") 51))))%nat
   /\ submit exampleWindow 1000 "id" "2024-01-01"
        (exampleForm (repeat (exampleRow "" "" "5" "20") 51)) = TooManyItems)
  /\ (existsb rowError [exampleRow "" "" "5" "20"; exampleRow "3" "" "1" "5"] = true
      /\ rejected (submit exampleWindow 1000 "id" "2024-01-01"
                     (exampleForm [exampleRow "" "" "5" "20"; exampleRow "3" "" "1" "5"]))
         = true)
  /\ (forall saleDb,
        submit exampleWindow 1000 "id" "2024-01-01"
          (exampleForm [exampleRow "" "" "5" "20"; exampleRow "3" "2" "1" "5"])
        = CreateSale saleDb ->
        sale_items saleDb
        = map itemOf [exampleRow "" "" "5" "20"; exampleRow "3" "2" "1" "5"]).
Proof.
  split; [|split].
  - split; [reflexivity|]. split; [simpl; lia|].
    apply (proj1 (submission_guard_rejects exampleWindow 1000%float "id"%string
                    "2024-01-01"%string
                    (exampleForm (repeat (exampleRow "" "" "5" "20") 51)))).
    + reflexivity.
    + simpl. lia.
  - split; [reflexivity|].
    apply (submission_guard_rejects exampleWindow 1000%float "id"%string
             "2024-01-01"%string
             (exampleForm [exampleRow "" "" "5" "20"; exampleRow "3" "" "1" "5"])).
    reflexivity.
  - intros saleDb H.
    apply (submission_guard_rejects exampleWindow 1000%float "id"%string
             "2024-01-01"%string
             (exampleForm [exampleRow "" "" "5" "20"; exampleRow "3" "2" "1" "5"])).
    exact H.
Defined.

(** ** C4 *)

(** C4, as stated, fails: a row of valid positive inputs whose product
    exceeds Number.MAX_SAFE_INTEGER has total 0, and the submit handler hands
    the form that holds it to createSale. *)
Lemma overflow_row_not_rejected :
  ~ (forall row : Row,
       overflowRow row = true ->
       rowTotal row = 0%float
       /\ forall (w : Window) (now : float) (generatedId date : string) (f : Form),
            In row (rows f) ->
            rejected (submit w now generatedId date f) = true).
Proof.
  intros H.
  destruct (H (exampleRow "10000" "10000" "10000" "1000000") eq_refl) as [_ Hf].
  specialize (Hf exampleWindow 1000%float "id"%string "2024-01-01"%string
                (exampleForm [exampleRow "10000" "10000" "10000" "1000000"])
                (or_introl eq_refl)).
  vm_compute in Hf. discriminate.
Qed.

(** C4, amended. For every row whose inputs are each valid and positive
    but whose product is not finite or exceeds Number.MAX_SAFE_INTEGER,
    calculateRowTotal returns 0; the submit handler does not look at row
    totals: the row raises no error and is kept among the items to
    submit. *)
Theorem overflow_row_zero_not_flagged (row : Row) :
  overflowRow row = true ->
  rowTotal row = 0%float
  /\ rowError row = false
  /\ forall (index : nat) (acc : Checked),
       hasError (checkRow index row acc) = hasError acc
       /\ items (checkRow index row acc) = items acc ++ [itemOf row].
Proof.
  unfold overflowRow. intros H.
  apply andb_prop in H. destruct H as [H Ho].
  apply andb_prop in H. destruct H as [H Hp].
  apply andb_prop in H. destruct H as [H Hq].
  apply andb_prop in H. destruct H as [Hw Hl].
  assert (He : rowError row = false).
  { unfold rowError, oneDimension, missing. now rewrite Hw, Hl, Hq, Hp. }
  split; [|split; [exact He|]].
  - unfold rowTotal. rewrite calculateRowTotal_unfold. cbv zeta.
    unfold hasWidth, hasLength, hasQuantity, hasUnitPrice in Hw, Hl, Hq, Hp.
    rewrite Hw, Hl, Hq, Hp. simpl.
    apply present_value in Hw, Hl, Hq, Hp.
    destruct Hw as [-> _], Hl as [-> _], Hq as [-> _], Hp as [-> _].
    unfold areaProduct in Ho. now rewrite Ho.
  - intros index acc. rewrite checkRow_hasError, checkRow_items, He.
    now rewrite (rowError_false_retained row He).
Qed.

Lemma overflow_row_zero_not_flagged_witness :
  overflowRow (exampleRow "10000" "10000" "10000" "1000000") = true
  /\ rowTotal (exampleRow "10000" "10000" "10000" "1000000") = 0%float
  /\ rowError (exampleRow "10000" "10000" "10000" "1000000") = false.
Proof.
  split; [reflexivity|].
  destruct (overflow_row_zero_not_flagged
              (exampleRow "10000" "10000" "10000" "1000000") eq_refl) as (H0 & He & _).
  split; assumption.
Defined.

End GuardFacts.

Module SanitizerFacts.
Import Js Sales Props.
Local Arguments isChar : simpl never.
Local Arguments isCharCi : simpl never.
Local Arguments isWhiteSpace : simpl never.
Local Arguments isWord : simpl never.

(** ** Deleting matches *)

Lemma replaceFrom_noMatch (p : pattern) (s : string) :
  hasMatch p s = false -> replaceFrom p 0 s = s.
Proof.
  induction s as [|c r IH]; simpl; [reflexivity|].
  destruct (matchHere p (String c r)) as [[|k]|]; intros H;
    try discriminate; now rewrite IH.
Qed.

Lemma replaceFrom_allChars (P : ascii -> bool) (p : pattern) (s : string) :
  forall skip, allChars P s = true -> allChars P (replaceFrom p skip s) = true.
Proof.
  induction s as [|c r IH]; intros skip H; simpl; [reflexivity|].
  simpl in H. apply andb_prop in H. destruct H as [Hc Hr].
  destruct skip as [|k]; [|now apply IH].
  destruct (matchHere p (String c r)) as [[|k]|]; simpl;
    try (rewrite Hc; simpl); now apply IH.
Qed.

Lemma replaceAll_reAngle (s : string) :
  allChars notAngle (replaceAll reAngle s) = true.
Proof.
  unfold replaceAll. induction s as [|c r IH]; simpl; [reflexivity|].
  unfold notAngle at 1.
  destruct (isChar "<"%char c || isChar ">"%char c) eqn:E; simpl; [exact IH|].
  unfold notAngle. rewrite E. exact IH.
Qed.

Lemma notAngle_no_tag (s : string) :
  allChars notAngle s = true -> hasMatch reTag s = false.
Proof.
  induction s as [|c r IH]; simpl; [reflexivity|]. intros H.
  apply andb_prop in H. destruct H as [Hc Hr].
  unfold notAngle in Hc. apply negb_true_iff, orb_false_iff in Hc.
  destruct Hc as [Hc _]. rewrite Hc. now apply IH.
Qed.

Lemma notAngle_no_angle (s : string) :
  allChars notAngle s = true -> hasMatch reAngle s = false.
Proof.
  induction s as [|c r IH]; simpl; [reflexivity|]. intros H.
  apply andb_prop in H. destruct H as [Hc Hr].
  unfold notAngle in Hc. apply negb_true_iff in Hc. rewrite Hc. now apply IH.
Qed.

Lemma trimStart_allChars (P : ascii -> bool) (s : string) :
  allChars P s = true -> allChars P (trimStart s) = true.
Proof.
  induction s as [|c r IH]; simpl; [reflexivity|]. intros H.
  destruct (isWhiteSpace c); [|exact H].
  apply andb_prop in H. now apply IH.
Qed.

Lemma trimEnd_allChars (P : ascii -> bool) (s : string) :
  allChars P s = true -> allChars P (trimEnd s) = true.
Proof.
  induction s as [|c r IH]; simpl; [reflexivity|]. intros H.
  apply andb_prop in H. destruct H as [Hc Hr]. specialize (IH Hr).
  destruct (trimEnd r) as [|c' r'].
  - destruct (isWhiteSpace c); simpl; [reflexivity | now rewrite Hc].
  - simpl in *. now rewrite Hc.
Qed.

Lemma trimEnd_idempotent (s : string) : trimEnd (trimEnd s) = trimEnd s.
Proof.
  induction s as [|c r IH]; simpl; [reflexivity|].
  destruct (trimEnd r) as [|c' r'] eqn:E.
  - destruct (isWhiteSpace c) eqn:W; simpl; [reflexivity | now rewrite W].
  - simpl. simpl in IH. rewrite IH. reflexivity.
Qed.

(** A string that starts with no white space keeps its head under
    [trimEnd]. *)
Lemma trimStart_trimEnd (s : string) :
  trimStart s = s -> trimStart (trimEnd s) = trimEnd s.
Proof.
  destruct s as [|c r]; simpl; [reflexivity|].
  destruct (isWhiteSpace c) eqn:W.
  - intros H. exfalso.
    assert (L : String.length (trimStart r) <= String.length r).
    { clear. induction r as [|c r IH]; simpl; [lia|].
      destruct (isWhiteSpace c); simpl; lia. }
    rewrite H in L. simpl in L. lia.
  - intros _. destruct (trimEnd r); simpl; now rewrite W.
Qed.

Lemma trimStart_idempotent (s : string) : trimStart (trimStart s) = trimStart s.
Proof.
  induction s as [|c r IH]; simpl; [reflexivity|].
  destruct (isWhiteSpace c) eqn:W; [exact IH | simpl; now rewrite W].
Qed.

Lemma trim_idempotent (s : string) : trim (trim s) = trim s.
Proof.
  unfold trim.
  rewrite (trimStart_trimEnd (trimStart s) (trimStart_idempotent s)).
  apply trimEnd_idempotent.
Qed.

(** A sanitized string with nothing left to remove is a fixed point. *)
Lemma sanitizeString_fixed (x : string) :
  hasMatch reJavascript (sanitizeString x) = false ->
  hasMatch reHandler (sanitizeString x) = false ->
  sanitizeString (sanitizeString x) = sanitizeString x.
Proof.
  intros Hj Hh.
  assert (Ha : allChars notAngle (sanitizeString x) = true).
  { unfold sanitizeString, trim.
    apply trimEnd_allChars, trimStart_allChars.
    unfold replaceAll at 1 2. do 2 apply replaceFrom_allChars.
    apply replaceAll_reAngle. }
  set (y := sanitizeString x) in *.
  unfold sanitizeString at 1. unfold replaceAll.
  rewrite (replaceFrom_noMatch reTag y (notAngle_no_tag y Ha)).
  rewrite (replaceFrom_noMatch reAngle y (notAngle_no_angle y Ha)).
  rewrite (replaceFrom_noMatch reJavascript y Hj).
  rewrite (replaceFrom_noMatch reHandler y Hh).
  unfold y, sanitizeString. apply trim_idempotent.
Qed.


Lemma replaceFrom_length (p : pattern) (s : string) :
  forall skip, String.length (replaceFrom p skip s) <= String.length s.
Proof.
  induction s as [|c r IH]; intros skip; simpl; [lia|].
  destruct skip as [|k]; [|specialize (IH k); lia].
  destruct (matchHere p (String c r)) as [[|k]|]; simpl;
    try (specialize (IH 0%nat); lia). specialize (IH k). lia.
Qed.

Lemma replaceFrom_shorter (p : pattern) (s : string) :
  hasMatch p s = true -> String.length (replaceFrom p 0 s) < String.length s.
Proof.
  induction s as [|c r IH]; simpl; [discriminate|].
  destruct (matchHere p (String c r)) as [[|k]|]; intros H; simpl;
    try (specialize (IH H); lia).
  pose proof (replaceFrom_length p r k). lia.
Qed.

Lemma trimStart_length (s : string) : String.length (trimStart s) <= String.length s.
Proof.
  induction s as [|c r IH]; simpl; [lia|]. destruct (isWhiteSpace c); simpl; lia.
Qed.

Lemma trimEnd_length (s : string) : String.length (trimEnd s) <= String.length s.
Proof.
  induction s as [|c r IH]; simpl; [lia|].
  destruct (trimEnd r); [destruct (isWhiteSpace c)|]; simpl in *; lia.
Qed.

Lemma trim_length (s : string) : String.length (trim s) <= String.length s.
Proof.
  unfold trim. pose proof (trimEnd_length (trimStart s)).
  pose proof (trimStart_length s). lia.
Qed.

(** And only such a string is one. *)
Lemma sanitizeString_fixed_only (x : string) :
  sanitizeString (sanitizeString x) = sanitizeString x ->
  hasMatch reJavascript (sanitizeString x) = false
  /\ hasMatch reHandler (sanitizeString x) = false.
Proof.
  assert (Ha : allChars notAngle (sanitizeString x) = true).
  { unfold sanitizeString, trim.
    apply trimEnd_allChars, trimStart_allChars.
    unfold replaceAll at 1 2. do 2 apply replaceFrom_allChars.
    apply replaceAll_reAngle. }
  set (y := sanitizeString x) in *. intros H.
  assert (L : String.length (sanitizeString y) = String.length y) by now rewrite H.
  unfold sanitizeString, replaceAll in L.
  rewrite (replaceFrom_noMatch reTag y (notAngle_no_tag y Ha)) in L.
  rewrite (replaceFrom_noMatch reAngle y (notAngle_no_angle y Ha)) in L.
  pose proof (trim_length (replaceFrom reHandler 0 (replaceFrom reJavascript 0 y))) as Lt.
  pose proof (replaceFrom_length reHandler (replaceFrom reJavascript 0 y) 0) as Lh.
  pose proof (replaceFrom_length reJavascript y 0) as Lj.
  destruct (hasMatch reJavascript y) eqn:Ej.
  - pose proof (replaceFrom_shorter reJavascript y Ej). lia.
  - split; [reflexivity|].
    rewrite (replaceFrom_noMatch reJavascript y Ej) in *.
    destruct (hasMatch reHandler y) eqn:Eh; [|reflexivity].
    pose proof (replaceFrom_shorter reHandler y Eh). lia.
Qed.


(** ** C8 *)

(** Every value that is not a string yields the empty string. *)
Lemma sanitizeInput_non_string (v : JsValue) :
  (forall s, v <> JsString s) -> sanitizeInput v = ""%string.
Proof.
  destruct v; try reflexivity. intros H. now elim (H s).
Qed.

(** The sanitizer is not idempotent. *)
Lemma sanitizeInput_not_idempotent :
  ~ (forall x : string,
       sanitizeInput (JsString (sanitizeInput (JsString x))) = sanitizeInput (JsString x)).
Proof.
  intros H. specialize (H "javajavascript:script:"%string).
  vm_compute in H. discriminate.
Qed.

(** C8. The sanitizer returns on every value, and the empty string on one
    that is not a string, but it is not idempotent: each pattern is deleted
    in one pass from left to right whose result is not scanned again.  From
    [javajavascript:script:] the sanitizer deletes the inner [javascript:]
    and returns [javascript:], the protocol its comment says it removes; a
    second call returns the empty string.  The same happens with
    [/on\w+=/gi], the event handlers. *)
Example sanitizeInput_residue :
  sanitizeInput (JsString "javajavascript:script:") = "javascript:"%string
  /\ hasMatch reJavascript (sanitizeInput (JsString "javajavascript:script:")) = true
  /\ sanitizeInput (JsString (sanitizeInput (JsString "javajavascript:script:")))
     = ""%string
  /\ sanitizeInput (JsString "oonclick=nclick=alert(1)") = "onclick=alert(1)"%string
  /\ hasMatch reHandler (sanitizeInput (JsString "oonclick=nclick=alert(1)")) = true
  /\ sanitizeInput (JsString (sanitizeInput (JsString "oonclick=nclick=alert(1)")))
     = "alert(1)"%string
  /\ sanitizeInput (JsNumber 5) = ""%string
  /\ sanitizeInput JsUndefined = ""%string.
Proof. repeat split; vm_compute; reflexivity. Qed.

End SanitizerFacts.

Module FlowFacts.
Import Js Sales SalesTrack Binary64 Props FloatFacts RowTotalFacts.

(** ** C9 *)


(** The two flows also part on a fractional quantity, on a value out of
    bounds, on markup around a number, and on two dimensions out of bounds,
    which the sale-entry flow takes for a flat-priced row. *)
Example calculateTotal_differs_elsewhere :
  calculateTotal (JsString "1") (JsString "1") (JsString "2.5") (JsString "1") (JsString "")
    = "2.00"%string
  /\ saleEntryTotal (JsString "1") (JsString "1") (JsString "2.5") (JsString "1") (JsString "")
    = "2.50"%string
  /\ calculateTotal (JsString "20000") (JsString "1") (JsString "1") (JsString "1") (JsString "")
    = "20000.00"%string
  /\ saleEntryTotal (JsString "20000") (JsString "1") (JsString "1") (JsString "1") (JsString "")
    = "0.00"%string
  /\ calculateTotal (JsString "<b>3") (JsString "1") (JsString "1") (JsString "1") (JsString "")
    = ""%string
  /\ saleEntryTotal (JsString "<b>3") (JsString "1") (JsString "1") (JsString "1") (JsString "")
    = "3.00"%string
  /\ calculateTotal (JsString "20000") (JsString "20000") (JsString "1") (JsString "1")
       (JsString "")
    = "400000000.00"%string
  /\ saleEntryTotal (JsString "20000") (JsString "20000") (JsString "1") (JsString "1")
       (JsString "")
    = "1.00"%string.
Proof. repeat split; vm_compute; reflexivity. Qed.




End FlowFacts.

Module AggregateFacts.
Import Js Sales Binary64 Props FloatFacts Rounding RowTotalFacts.
Local Open Scope list_scope.

Lemma nonnegFinite_intro (x : float) :
  signClear (Prim2SF x) = true -> isFinite x = true -> nonnegFinite x = true.
Proof.
  unfold nonnegFinite. rewrite isFinite_spec.
  destruct (Prim2SF x) as [s|s| |s m e]; simpl; try discriminate;
    destruct s; simpl; congruence.
Qed.

Lemma guarded_total_signClear (total : float) :
  signClear (Prim2SF total) = true ->
  signClear (Prim2SF (if overflows total then 0%float else total)) = true.
Proof. intros H. destruct (overflows total); [reflexivity | exact H]. Qed.

Lemma rowTotal_guarded (row : Row) :
  exists total : float,
    signClear (Prim2SF total) = true
    /\ rowTotal row = if overflows total then 0%float else total.
Proof. apply calculateRowTotal_guarded. Qed.

Lemma rowTotal_nonnegFinite (row : Row) : nonnegFinite (rowTotal row) = true.
Proof.
  destruct (rowTotal_guarded row) as (total & Hs & ->).
  apply nonnegFinite_intro.
  - now apply guarded_total_signClear.
  - now apply guarded_total_safe.
Qed.

Lemma rowTotal_le_MAX_SAFE (row : Row) :
  (rowTotal row <=? MAX_SAFE_INTEGER)%float = true.
Proof.
  destruct (rowTotal_guarded row) as (total & Hs & ->).
  now apply guarded_total_safe.
Qed.

(** One turn of the summing loop keeps the sum finite. *)
Lemma add_rowTotal_nonnegFinite (acc : float) (row : Row) :
  nonnegFinite acc = true -> nonnegFinite (acc + rowTotal row)%float = true.
Proof.
  unfold nonnegFinite. intros H. rewrite add_spec. apply SFadd_safe.
  - apply Prim2SF_valid.
  - apply Prim2SF_valid.
  - exact H.
  - apply rowTotal_nonnegFinite.
  - change MAX_SAFE with (Prim2SF MAX_SAFE_INTEGER). rewrite <- leb_spec.
    apply rowTotal_le_MAX_SAFE.
Qed.

Lemma fold_rowTotal_nonnegFinite (rows : list Row) :
  forall acc : float,
    nonnegFinite acc = true ->
    nonnegFinite (fold_left (fun supTotal row => (supTotal + rowTotal row)%float) rows acc)
    = true.
Proof.
  induction rows as [|row rest IH]; intros acc H; simpl; [exact H|].
  apply IH. now apply add_rowTotal_nonnegFinite.
Qed.

Lemma sumTotals_nonnegFinite (rows : list Row) : nonnegFinite (sumTotals rows) = true.
Proof. unfold sumTotals. now apply fold_rowTotal_nonnegFinite. Qed.

(** Adding zero changes nothing. *)
Lemma add_zero_r (x : float) : nonnegFinite x = true -> (x + 0)%float = x.
Proof.
  unfold nonnegFinite. intros H. apply Prim2SF_inj. rewrite add_spec.
  change (Prim2SF 0) with (S754_zero false).
  destruct (Prim2SF x) as [s|s| |s m e]; try discriminate; simpl in H;
    destruct s; try discriminate; reflexivity.
Qed.

(** A discount within (0, 100] does not raise a finite total. *)
Lemma discounted_le (supTotal discount : float) :
  nonnegFinite supTotal = true ->
  gt discount 0 = true -> (discount <=? 100)%float = true ->
  (supTotal * (1 - discount / 100) <=? supTotal)%float = true.
Proof.
  unfold nonnegFinite, gt. intros Hs Hd0 Hd100.
  rewrite ltb_spec in Hd0. rewrite leb_spec in Hd100.
  change (Prim2SF 0) with (S754_zero false) in Hd0.
  change (Prim2SF 100) with HUNDRED in Hd100.
  assert (Hd : finiteSigned false (Prim2SF discount) = true).
  { destruct (Prim2SF discount) as [s|s| |s m e]; try discriminate;
      destruct s; try discriminate; reflexivity. }
  rewrite leb_spec, mul_spec. unfold SF64mul.
  apply SFmul_at_most_one.
  - apply Prim2SF_valid.
  - apply Prim2SF_valid.
  - exact Hs.
  - rewrite sub_spec. unfold SF64sub. change (Prim2SF 1) with ONE.
    apply SFsub_one; [apply Prim2SF_valid|].
    rewrite div_spec. unfold SF64div. change (Prim2SF 100) with HUNDRED.
    apply SFdiv_hundred_finite; [apply Prim2SF_valid | exact Hd].
Qed.

Lemma eqb_zero_not_gt (discount : float) :
  (discount =? 0)%float = true -> gt discount 0 = false.
Proof.
  unfold gt. rewrite eqb_spec, ltb_spec. change (Prim2SF 0) with (S754_zero false).
  unfold SFeqb, SFltb.
  destruct (Prim2SF discount) as [s|s| |s m e]; simpl; try discriminate; try reflexivity;
    destruct s; discriminate.
Qed.

(** ** C5 *)

(** C5. For every list of rows and every discount percentage in [0, 100],
    the aggregation takes as subtotal the sum of the row totals, in row
    order from 0 (a row whose total is 0 adds nothing), and as grand total
    subtotal * (1 - discount/100) when the discount is positive and the
    subtotal itself when it is 0; so the grand total is at most the subtotal
    for a discount in (0, 100] and equal to it for a discount of 0.
    updateAllTotals shows both with two decimals. *)
Theorem aggregate_totals (rows : list Row) (discountPercent : float) :
  inRange discountPercent 0 100 = true ->
  let subtotal := sumTotals rows in
  let grandTotal := applyDiscount subtotal discountPercent in
  subtotal = fold_left (fun acc row => (acc + rowTotal row)%float) rows 0%float
  /\ (forall before after row,
        rowTotal row = 0%float ->
        sumTotals (before ++ row :: after) = sumTotals (before ++ after))
  /\ (gt discountPercent 0 = true ->
      grandTotal = (subtotal * (1 - discountPercent / 100))%float)
  /\ ((discountPercent =? 0)%float = true -> grandTotal = subtotal)
  /\ (gt discountPercent 0 = true -> (grandTotal <=? subtotal)%float = true)
  /\ (forall f : Form,
        Sales.rows f = rows -> discountOf (discount f) = discountPercent ->
        supTotal (updateAllTotals f) = toFixed2 subtotal
        /\ total (updateAllTotals f) = toFixed2 grandTotal).
Proof.
  intros Hr subtotal grandTotal.
  apply andb_prop in Hr. destruct Hr as [_ H100].
  split; [reflexivity|]. split; [|split; [|split; [|split]]].
  - intros before after row Hz. unfold sumTotals.
    rewrite !fold_left_app. simpl. rewrite Hz, add_zero_r; [reflexivity|].
    now apply fold_rowTotal_nonnegFinite.
  - intros Hd. unfold grandTotal, applyDiscount. now rewrite Hd.
  - intros Hd. unfold grandTotal, applyDiscount.
    now rewrite (eqb_zero_not_gt _ Hd).
  - intros Hd. unfold grandTotal, applyDiscount. rewrite Hd.
    apply discounted_le; [apply sumTotals_nonnegFinite | exact Hd | exact H100].
  - intros f <- <-. split; reflexivity.
Qed.

Lemma aggregate_totals_witness :
  inRange 10 0 100 = true
  /\ sumTotals [exampleRow "10" "5" "2" "3"] = 300%float
  /\ applyDiscount (sumTotals [exampleRow "10" "5" "2" "3"]) 10 = 270%float
  /\ (applyDiscount (sumTotals [exampleRow "10" "5" "2" "3"]) 10
      <=? sumTotals [exampleRow "10" "5" "2" "3"])%float = true.
Proof.
  split; [reflexivity|].
  destruct (aggregate_totals [exampleRow "10" "5" "2" "3"] 10%float eq_refl)
    as (Hs & _ & Hg & _ & Hle & _).
  split; [rewrite Hs; vm_compute; reflexivity|].
  split; [rewrite (Hg eq_refl); vm_compute; reflexivity|].
  exact (Hle eq_refl).
Defined.

End AggregateFacts.

(* ================================================================== *)
(** * The sales form *)
(* ================================================================== *)

Module FormFacts.
Import Js Sales SalesTrack Binary64 Props FormProps FloatFacts RowTotalFacts GuardFacts.
Import SECURITY_CONFIG.
Local Open Scope list_scope.

(** ** Width and length *)

Lemma SFmul_comm (x y : spec_float) : SFmul prec emax x y = SFmul prec emax y x.
Proof.
  destruct x as [sx|sx| |sx mx ex], y as [sy|sy| |sy my ey]; simpl;
    try reflexivity; try (now rewrite xorb_comm).
  now rewrite xorb_comm, Pos.mul_comm, Z.add_comm.
Qed.

Lemma mul_comm (a b : float) : (a * b = b * a)%float.
Proof. apply Prim2SF_inj. rewrite !mul_spec. apply SFmul_comm. Qed.

(** X4. Width and length can be exchanged: calculateRowTotal gives the same
    total, rounding included, whichever of the two dimensions comes first. *)
Theorem calculateRowTotal_swap (width length quantity unitPrice : JsValue) :
  calculateRowTotal length width quantity unitPrice
  = calculateRowTotal width length quantity unitPrice.
Proof.
  rewrite !calculateRowTotal_unfold. cbv zeta.
  rewrite (mul_comm (sanitizedValue (validateNumericInput length 0 MAX_ITEM_DIMENSIONS))
                    (sanitizedValue (validateNumericInput width 0 MAX_ITEM_DIMENSIONS))).
  destruct (present length MAX_ITEM_DIMENSIONS), (present width MAX_ITEM_DIMENSIONS);
    reflexivity.
Qed.

(** ** updateAllTotals *)

Lemma rowTotal_showRowTotal (row : Row) : rowTotal (showRowTotal row) = rowTotal row.
Proof. reflexivity. Qed.

Lemma showRowTotal_idempotent (row : Row) :
  showRowTotal (showRowTotal row) = showRowTotal row.
Proof. reflexivity. Qed.

Lemma sumTotals_ext (f : Row -> Row) (rows : list Row) :
  (forall row, rowTotal (f row) = rowTotal row) ->
  sumTotals (map f rows) = sumTotals rows.
Proof.
  intros H. unfold sumTotals. generalize 0%float.
  induction rows as [|row rest IH]; intros acc; simpl; [reflexivity|].
  now rewrite H, IH.
Qed.

(** X5. updateAllTotals run twice gives what it gives run once, and it leaves
    the input fields of every row, the discount and the customer fields as
    they were: it writes the three totals only. *)
Theorem updateAllTotals_idempotent (f : Form) :
  updateAllTotals (updateAllTotals f) = updateAllTotals f
  /\ map inputsOf (rows (updateAllTotals f)) = map inputsOf (rows f)
  /\ discount (updateAllTotals f) = discount f
  /\ customerName (updateAllTotals f) = customerName f
  /\ customerPhone (updateAllTotals f) = customerPhone f.
Proof.
  split; [|split; [|repeat split]].
  - unfold updateAllTotals. cbn [rows discount customerName customerPhone].
    rewrite (sumTotals_ext showRowTotal (rows f) rowTotal_showRowTotal).
    rewrite map_map. f_equal.
  - unfold updateAllTotals. cbn [rows]. rewrite map_map. reflexivity.
Qed.

(** X27. A row the submit handler would flag, one dimension without the
    other or quantity or unit price missing, shows no total after
    updateAllTotals: its total cell is left empty, where a row with a
    positive total shows that total with two decimals. *)
Theorem error_row_shows_no_total (f : Form) (row : Row) :
  In row (rows f) ->
  In (showRowTotal row) (rows (updateAllTotals f))
  /\ (rowError row = true -> row_itemTotal (showRowTotal row) = ""%string)
  /\ (gt (rowTotal row) 0 = true ->
      row_itemTotal (showRowTotal row) = toFixed2 (rowTotal row)
      /\ rowError row = false).
Proof.
  intros Hin. split; [|split].
  - unfold updateAllTotals. cbn [rows]. now apply in_map.
  - intros He. unfold showRowTotal. cbn [row_itemTotal].
    now rewrite (rowTotal_flags row He).
  - intros Hg. split.
    + unfold showRowTotal. cbn [row_itemTotal]. now rewrite Hg.
    + destruct (rowError row) eqn:He; [|reflexivity].
      rewrite (rowTotal_flags row He) in Hg. discriminate.
Qed.

Lemma error_row_shows_no_total_witness :
  rowError (exampleRow "10" "" "1" "5") = true
  /\ row_itemTotal (showRowTotal (exampleRow "10" "" "1" "5")) = ""%string
  /\ row_itemTotal (showRowTotal (exampleRow "10" "5" "2" "3")) = "300.00"%string.
Proof.
  split; [reflexivity|]. split.
  - apply (error_row_shows_no_total
             (exampleForm [exampleRow "10" "" "1" "5"; exampleRow "10" "5" "2" "3"])
             (exampleRow "10" "" "1" "5")); [now left | reflexivity].
  - reflexivity.
Defined.

(** ** The submit handler *)

Lemma orZero_not_NaN (x : float) : isNaN (orZero x) = false.
Proof.
  unfold orZero, truthy. destruct (isNaN x) eqn:E; simpl; [reflexivity|].
  destruct (is_zero x); simpl; [reflexivity | exact E].
Qed.

Lemma rowError_showRowTotal (row : Row) : rowError (showRowTotal row) = rowError row.
Proof. reflexivity. Qed.

Lemma retained_showRowTotal (row : Row) : retained (showRowTotal row) = retained row.
Proof. reflexivity. Qed.

Lemma itemInputs_showRowTotal (row : Row) :
  itemInputs (itemOf (showRowTotal row)) = itemInputs (itemOf row).
Proof. reflexivity. Qed.

Lemma existsb_map {A B : Type} (p : B -> bool) (f : A -> B) (l : list A) :
  existsb p (map f l) = existsb (fun x => p (f x)) l.
Proof. induction l as [|x l IH]; simpl; [reflexivity | now rewrite IH]. Qed.

Lemma filter_map_comm {A : Type} (p : A -> bool) (f : A -> A) (l : list A) :
  (forall x, p (f x) = p x) -> filter p (map f l) = map f (filter p l).
Proof.
  intros H. induction l as [|x l IH]; simpl; [reflexivity|].
  rewrite H. destruct (p x); simpl; now rewrite IH.
Qed.

(** X6. The verdict of the submit handler does not rest on the totals the page
    shows: after updateAllTotals a form is rejected exactly when it was
    before, with the same outcome, and an accepted form gives a sale with the
    same items, displayed totals apart, and the same discount. *)
Theorem submit_after_updateAllTotals (w : Window) (now : float)
        (generatedId date : string) (f : Form) :
  let before := submit w now generatedId date f in
  let after := submit w now generatedId date (updateAllTotals f) in
  rejected after = rejected before
  /\ (rejected before = true -> after = before)
  /\ (forall saleDb, before = CreateSale saleDb ->
      exists saleDb', after = CreateSale saleDb'
        /\ map itemInputs (sale_items saleDb') = map itemInputs (sale_items saleDb)
        /\ sale_discount saleDb' = sale_discount saleDb).
Proof.
  unfold submit. cbv zeta.
  assert (L : Datatypes.length (rows (updateAllTotals f)) = Datatypes.length (rows f))
    by (unfold updateAllTotals; cbn [rows]; apply length_map).
  assert (E : hasError (checkRows (rows (updateAllTotals f))) = hasError (checkRows (rows f))).
  { rewrite !checkRows_hasError. unfold updateAllTotals. cbn [rows].
    rewrite existsb_map. reflexivity. }
  assert (I : items (checkRows (rows (updateAllTotals f)))
              = map itemOf (map showRowTotal (filter retained (rows f)))).
  { rewrite checkRows_items. unfold updateAllTotals. cbn [rows].
    now rewrite (filter_map_comm retained showRowTotal (rows f) retained_showRowTotal). }
  assert (N : Datatypes.length (items (checkRows (rows (updateAllTotals f))))
              = Datatypes.length (items (checkRows (rows f)))).
  { rewrite I, checkRows_items, !length_map. reflexivity. }
  rewrite L, E, N.
  assert (R : forall o : Outcome, rejected o = true ->
            rejected o = rejected o /\ (rejected o = true -> o = o)
            /\ (forall saleDb, o = CreateSale saleDb ->
                  exists saleDb', o = CreateSale saleDb'
                    /\ map itemInputs (sale_items saleDb') = map itemInputs (sale_items saleDb)
                    /\ sale_discount saleDb' = sale_discount saleDb)).
  { intros o Ho. split; [reflexivity|]. split; [reflexivity|].
    intros saleDb ->. discriminate. }
  destruct (rateLimited w now); [now apply R|].
  destruct (MAX_ITEMS_PER_SALE <? _)%nat; [now apply R|].
  destruct (Datatypes.length (items (checkRows (rows f))) =? 0)%nat; [now apply R|].
  destruct (hasError (checkRows (rows f))); [now apply R|].
  destruct (negb (apiClient w)); [now apply R|].
  split; [reflexivity|]. split; [discriminate|].
  intros saleDb [= <-]. eexists. split; [reflexivity|].
  cbn [sale_items sale_discount]. split; [|reflexivity].
  rewrite I, checkRows_items, !map_map. reflexivity.
Qed.

(** X7. A sale handed to createSale is pending, carries the identifier, the
    date and the customer fields as given, and its discount, subtotal and
    total are numbers, never NaN: a field that does not parse is sent as 0.
    The API client is set. *)
Theorem created_sale_fields (w : Window) (now : float) (generatedId date : string)
        (f : Form) (saleDb : SaleDb) :
  submit w now generatedId date f = CreateSale saleDb ->
  sale_status saleDb = Pending
  /\ sale_id saleDb = generatedId /\ sale_date saleDb = date
  /\ sale_customername saleDb = customerName f
  /\ sale_customerphone saleDb = customerPhone f
  /\ isNaN (sale_discount saleDb) = false
  /\ isNaN (sale_suptotal saleDb) = false
  /\ isNaN (sale_total saleDb) = false
  /\ apiClient w = true.
Proof.
  unfold submit.
  destruct (rateLimited w now); [discriminate|].
  destruct (MAX_ITEMS_PER_SALE <? _)%nat; [discriminate|].
  destruct (_ =? 0)%nat; [discriminate|].
  destruct (hasError _); [discriminate|].
  destruct (apiClient w); [|discriminate]. simpl.
  intros [= <-]. cbn. repeat split; apply orZero_not_NaN.
Qed.

Lemma created_sale_fields_witness :
  submit exampleWindow 1000 "id" "2024-01-01T00:00:00.000Z"
    (updateAllTotals (exampleForm [exampleRow "" "" "5" "20"]))
  = CreateSale
      {| sale_id := "id"; sale_customername := "Amina"; sale_customerphone := "0612345678";
         sale_date := "2024-01-01T00:00:00.000Z";
         sale_items := [{| it_item := "Banner"; it_width := ""; it_length := "";
                           it_space := ""; it_quantity := "5"; it_unitPrice := "20";
                           it_itemTotal := "100.00" |}];
         sale_discount := 0; sale_suptotal := 100; sale_total := 100;
         sale_status := Pending |}
  /\ isNaN 0 = false.
Proof.
  assert (R : submit exampleWindow 1000 "id" "2024-01-01T00:00:00.000Z"
    (updateAllTotals (exampleForm [exampleRow "" "" "5" "20"]))
  = CreateSale
      {| sale_id := "id"; sale_customername := "Amina"; sale_customerphone := "0612345678";
         sale_date := "2024-01-01T00:00:00.000Z";
         sale_items := [{| it_item := "Banner"; it_width := ""; it_length := "";
                           it_space := ""; it_quantity := "5"; it_unitPrice := "20";
                           it_itemTotal := "100.00" |}];
         sale_discount := 0; sale_suptotal := 100; sale_total := 100;
         sale_status := Pending |}) by (vm_compute; reflexivity).
  split; [exact R|].
  apply (created_sale_fields _ _ _ _ _ _ R).
Defined.

End FormFacts.

(* ================================================================== *)
(** * The sanitizers *)
(* ================================================================== *)

Module SanitizerShape.
Import Js Sales SalesTrack Props TextProps SanitizerFacts.
Local Arguments isChar : simpl never.
Local Arguments isCharCi : simpl never.
Local Arguments isWhiteSpace : simpl never.
Local Arguments isWord : simpl never.

Lemma Subsequence_refl (s : string) : Subsequence s s.
Proof. induction s; constructor; assumption. Qed.

Lemma Subsequence_trans (a b c : string) :
  Subsequence a b -> Subsequence b c -> Subsequence a c.
Proof.
  intros Hab Hbc. revert a Hab.
  induction Hbc as [|x b c Hbc IH|x b c Hbc IH]; intros a Hab.
  - exact Hab.
  - inversion Hab; subst.
    + apply sub_keep. now apply IH.
    + apply sub_drop. now apply IH.
  - apply sub_drop. now apply IH.
Qed.

Lemma Subsequence_length (a b : string) :
  Subsequence a b -> String.length a <= String.length b.
Proof. induction 1; simpl; lia. Qed.

Lemma Subsequence_allChars (P : ascii -> bool) (a b : string) :
  Subsequence a b -> allChars P b = true -> allChars P a = true.
Proof.
  induction 1 as [|c a b Hs IH|c a b Hs IH]; simpl; intros Hall; try reflexivity.
  - apply andb_prop in Hall. destruct Hall as [-> Hall]. simpl. now apply IH.
  - apply andb_prop in Hall. destruct Hall as [_ Hall]. now apply IH.
Qed.

Lemma replaceFrom_Subsequence (p : pattern) (s : string) :
  forall skip, Subsequence (replaceFrom p skip s) s.
Proof.
  induction s as [|c r IH]; intros skip; simpl; [constructor|].
  destruct skip as [|k]; [|apply sub_drop, IH].
  destruct (matchHere p (String c r)) as [[|k]|];
    first [apply sub_keep, IH | apply sub_drop, IH].
Qed.

Lemma trimStart_Subsequence (s : string) : Subsequence (trimStart s) s.
Proof.
  induction s as [|c r IH]; simpl; [constructor|].
  destruct (isWhiteSpace c); [apply sub_drop, IH | apply Subsequence_refl].
Qed.

Lemma trimEnd_Subsequence (s : string) : Subsequence (trimEnd s) s.
Proof.
  induction s as [|c r IH]; simpl; [constructor|].
  destruct (trimEnd r) as [|c' r'].
  - destruct (isWhiteSpace c); [apply sub_drop, IH | apply sub_keep, IH].
  - apply sub_keep, IH.
Qed.

Lemma trim_Subsequence (s : string) : Subsequence (trim s) s.
Proof.
  unfold trim. eapply Subsequence_trans;
    [apply trimEnd_Subsequence | apply trimStart_Subsequence].
Qed.

Lemma substring0_Subsequence (n : nat) (s : string) : Subsequence (substring0 n s) s.
Proof.
  unfold substring0. revert n. induction s as [|c r IH]; intros [|n]; simpl;
    try constructor; try apply IH.
  clear. induction r; constructor; assumption.
Qed.

Lemma substring0_length (n : nat) (s : string) : String.length (substring0 n s) <= n.
Proof.
  unfold substring0. revert n. induction s as [|c r IH]; intros [|n]; simpl; try lia.
  specialize (IH n). lia.
Qed.

Lemma substring0_all (n : nat) (s : string) :
  String.length s <= n -> substring0 n s = s.
Proof.
  unfold substring0. revert n. induction s as [|c r IH]; intros [|n]; simpl;
    intros H; try reflexivity; try lia.
  rewrite IH; [reflexivity | lia].
Qed.

Lemma dropFormulaChar_Subsequence (s : string) : Subsequence (dropFormulaChar s) s.
Proof.
  destruct s as [|c r]; simpl; [constructor|].
  destruct (_ || _); [apply sub_drop|]; apply Subsequence_refl.
Qed.

Lemma stripped_Subsequence (s : string) : Subsequence (stripped s) s.
Proof.
  unfold stripped, replaceAll.
  repeat (eapply Subsequence_trans; [apply replaceFrom_Subsequence|]).
  apply Subsequence_refl.
Qed.

Lemma stripped_notAngle (s : string) : allChars notAngle (stripped s) = true.
Proof.
  unfold stripped, replaceAll.
  do 2 apply replaceFrom_allChars. apply replaceAll_reAngle.
Qed.

Lemma sanitizeString_notAngle (s : string) : allChars notAngle (sanitizeString s) = true.
Proof.
  unfold sanitizeString, trim.
  apply trimEnd_allChars, trimStart_allChars. apply stripped_notAngle.
Qed.

Lemma sanitizeString_Subsequence (s : string) : Subsequence (sanitizeString s) s.
Proof.
  unfold sanitizeString.
  eapply Subsequence_trans; [apply trim_Subsequence | apply stripped_Subsequence].
Qed.

(** X1. Whatever the input, the result of sanitizeInput holds neither [<] nor
    [>], and has no white space at either end. *)
Theorem sanitizeInput_no_angle_brackets (input : JsValue) :
  allChars notAngle (sanitizeInput input) = true
  /\ trim (sanitizeInput input) = sanitizeInput input.
Proof.
  destruct input as [| | b | n | s]; simpl; try (split; reflexivity).
  split; [apply sanitizeString_notAngle|].
  unfold sanitizeString. apply trim_idempotent.
Qed.

(** X2. sanitizeInput only deletes: its result is the input with some
    characters left out, the others in their order, so it is never the
    longer of the two. *)
Theorem sanitizeInput_only_deletes (s : string) :
  Subsequence (sanitizeInput (JsString s)) s
  /\ String.length (sanitizeInput (JsString s)) <= String.length s.
Proof.
  assert (H : Subsequence (sanitizeInput (JsString s)) s)
    by apply sanitizeString_Subsequence.
  split; [exact H | now apply Subsequence_length].
Qed.

(** X3. sanitizeInput gives a string back unchanged exactly when the string
    holds no angle bracket, no match of [/javascript:/i] or [/on\w+=/i], and
    no white space at either end. *)
Theorem sanitizeInput_fixed_iff_clean (s : string) :
  sanitizeInput (JsString s) = s
  <-> allChars notAngle s = true
      /\ hasMatch reJavascript s = false
      /\ hasMatch reHandler s = false
      /\ trim s = s.
Proof.
  simpl. split.
  - intros H.
    assert (Ha : allChars notAngle s = true)
      by (rewrite <- H; apply sanitizeString_notAngle).
    assert (Ht : trim s = s).
    { rewrite <- H. unfold sanitizeString. apply trim_idempotent. }
    destruct (sanitizeString_fixed_only s) as [Hj Hh]; [now rewrite !H|].
    rewrite H in Hj, Hh. auto.
  - intros (Ha & Hj & Hh & Ht). unfold sanitizeString, replaceAll.
    rewrite (replaceFrom_noMatch reTag s (notAngle_no_tag s Ha)).
    rewrite (replaceFrom_noMatch reAngle s (notAngle_no_angle s Ha)).
    rewrite (replaceFrom_noMatch reJavascript s Hj).
    rewrite (replaceFrom_noMatch reHandler s Hh). exact Ht.
Qed.

Lemma sanitizeInput_fixed_iff_clean_witness :
  sanitizeInput (JsString "Banner 3x2") = "Banner 3x2".
Proof.
  apply (proj2 (sanitizeInput_fixed_iff_clean "Banner 3x2")). repeat split; reflexivity.
Defined.

(** ** sanitizeSearchInput and sanitizeExportData *)

Lemma sanitizeSearchInput_length (input : JsValue) :
  String.length (sanitizeSearchInput input) <= 100.
Proof.
  destruct input as [| | b | n | s]; simpl; try lia. fold (stripped s).
  pose proof (trim_length (substring0 100 (stripped s))).
  pose proof (substring0_length 100 (stripped s)).
  unfold TRACKING_SECURITY_CONFIG.MAX_SEARCH_LENGTH. lia.
Qed.

Lemma sanitizeSearchInput_notAngle (input : JsValue) :
  allChars notAngle (sanitizeSearchInput input) = true.
Proof.
  destruct input as [| | b | n | s]; simpl; try reflexivity. fold (stripped s).
  unfold trim. apply trimEnd_allChars, trimStart_allChars.
  eapply Subsequence_allChars; [apply substring0_Subsequence | apply stripped_notAngle].
Qed.

(** What sanitizeExportData makes of the string form of its argument. *)
Lemma exported_notAngle (t : string) :
  allChars notAngle
    (trim (dropFormulaChar
             (replaceAll reHandler (replaceAll reJavascript (replaceAll reAngle t))))) = true.
Proof.
  unfold trim. apply trimEnd_allChars, trimStart_allChars.
  eapply Subsequence_allChars; [apply dropFormulaChar_Subsequence|].
  unfold replaceAll at 1 2. do 2 apply replaceFrom_allChars. apply replaceAll_reAngle.
Qed.

Lemma exported_Subsequence (t : string) :
  Subsequence
    (trim (dropFormulaChar
             (replaceAll reHandler (replaceAll reJavascript (replaceAll reAngle t))))) t.
Proof.
  eapply Subsequence_trans; [apply trim_Subsequence|].
  eapply Subsequence_trans; [apply dropFormulaChar_Subsequence|].
  unfold replaceAll.
  repeat (eapply Subsequence_trans; [apply replaceFrom_Subsequence|]).
  apply Subsequence_refl.
Qed.

Lemma sanitizeExportData_notAngle (data : JsValue) :
  allChars notAngle (sanitizeExportData data) = true.
Proof.
  destruct data; cbn [sanitizeExportData]; try reflexivity; apply exported_notAngle.
Qed.

Lemma sanitizeExportData_trimmed (data : JsValue) :
  trim (sanitizeExportData data) = sanitizeExportData data.
Proof.
  destruct data; cbn [sanitizeExportData]; try reflexivity; apply trim_idempotent.
Qed.

(** X8. The search sanitizer gives at most 100 characters, none of them an
    angle bracket, with no white space at either end; it only deletes
    characters of its input; on a string of at most 100 characters it is
    sanitizeInput; and it gives the empty string for what is no string. *)
Theorem sanitizeSearchInput_bounded (input : JsValue) :
  String.length (sanitizeSearchInput input) <= 100
  /\ allChars notAngle (sanitizeSearchInput input) = true
  /\ trim (sanitizeSearchInput input) = sanitizeSearchInput input
  /\ (forall s, input = JsString s -> Subsequence (sanitizeSearchInput input) s)
  /\ (forall s, input = JsString s -> String.length s <= 100 ->
        sanitizeSearchInput input = sanitizeInput input)
  /\ ((forall s, input <> JsString s) -> sanitizeSearchInput input = ""%string).
Proof.
  split; [apply sanitizeSearchInput_length|].
  split; [apply sanitizeSearchInput_notAngle|].
  split; [destruct input; simpl; try reflexivity; apply trim_idempotent|].
  split; [|split].
  - intros s ->. simpl. fold (stripped s).
    eapply Subsequence_trans; [apply trim_Subsequence|].
    eapply Subsequence_trans; [apply substring0_Subsequence | apply stripped_Subsequence].
  - intros s -> Hl. simpl. unfold sanitizeString. fold (stripped s).
    rewrite substring0_all; [reflexivity|].
    pose proof (Subsequence_length _ _ (stripped_Subsequence s)).
    unfold TRACKING_SECURITY_CONFIG.MAX_SEARCH_LENGTH. lia.
  - intros H. destruct input; try reflexivity. now elim (H s).
Qed.

Lemma sanitizeSearchInput_bounded_witness :
  sanitizeSearchInput (JsString "  <i>Amina</i> Ali ") = "Amina Ali"%string
  /\ sanitizeSearchInput (JsString "  <i>Amina</i> Ali ")
     = sanitizeInput (JsString "  <i>Amina</i> Ali ")
  /\ sanitizeSearchInput (JsNumber 7) = ""%string.
Proof.
  split; [reflexivity|]. split.
  - apply (proj1 (proj2 (proj2 (proj2 (proj2
             (sanitizeSearchInput_bounded (JsString "  <i>Amina</i> Ali ")))))) _ eq_refl).
    simpl. lia.
  - apply (proj2 (proj2 (proj2 (proj2 (proj2
             (sanitizeSearchInput_bounded (JsNumber 7))))))). discriminate.
Defined.

(** X16. sanitizeExportData gives the empty string for null and undefined; for
    every value its result holds no angle bracket, has no white space at
    either end, and is the string form of the value with characters left
    out. *)
Theorem sanitizeExportData_shape (data : JsValue) :
  allChars notAngle (sanitizeExportData data) = true
  /\ trim (sanitizeExportData data) = sanitizeExportData data
  /\ Subsequence (sanitizeExportData data) (ToString data)
  /\ (data = JsNull \/ data = JsUndefined -> sanitizeExportData data = ""%string).
Proof.
  split; [apply sanitizeExportData_notAngle|].
  split; [apply sanitizeExportData_trimmed|]. split.
  - destruct data; cbn [sanitizeExportData];
      try apply exported_Subsequence; repeat constructor.
  - intros [-> | ->]; reflexivity.
Qed.

End SanitizerShape.

(* ================================================================== *)
(** * The CSV export *)
(* ================================================================== *)

Module CsvFacts.
Import Js Sales SalesTrack Props Csv.
Local Arguments isChar : simpl never.

Lemma includes_char (c : ascii) (s : string) :
  includes s (String c EmptyString) = false <-> allChars (fun x => negb (isChar c x)) s = true.
Proof.
  induction s as [|x r IH]; simpl; [tauto|].
  unfold isChar at 1.
  destruct (ascii_dec c x) as [->|N]; simpl.
  - rewrite Ascii.eqb_refl. destruct r; simpl; split; intros H; discriminate H.
  - apply Ascii.eqb_neq in N. rewrite N. exact IH.
Qed.

Lemma allChars_and (P Q : ascii -> bool) (s : string) :
  allChars (fun c => P c && Q c) s = allChars P s && allChars Q s.
Proof.
  induction s as [|c r IH]; simpl; [reflexivity|]. rewrite IH.
  destruct (P c), (Q c), (allChars P r); reflexivity.
Qed.

(** escapeCSV leaves a value as it is exactly when each character is plain. *)
Lemma escapeCSV_plain (value : JsValue) :
  allChars plain (ToString value) = true -> escapeCSV value = ToString value.
Proof.
  intros H. unfold escapeCSV.
  assert (E : forall c, (forall x, plain x = true -> isChar c x = false) ->
                        includes (ToString value) (String c EmptyString) = false).
  { intros c Hc. apply includes_char. revert H. generalize (ToString value).
    induction s as [|x r IH]; simpl; [reflexivity|]. intros H.
    apply andb_prop in H. destruct H as [Hx Hr]. rewrite (Hc x Hx). simpl. now apply IH. }
  rewrite !E; [reflexivity| | |]; intros x Hx; unfold plain in Hx;
    apply negb_true_iff in Hx; apply orb_false_iff in Hx; destruct Hx as [Hx H3];
    apply orb_false_iff in Hx; destruct Hx as [H1 H2]; assumption.
Qed.

Lemma escapeCSV_quoted (value : JsValue) :
  allChars plain (ToString value) = false ->
  escapeCSV value
  = String dquote (replaceAllWith reQuote (String dquote (String dquote EmptyString))
                     (ToString value) ++ String dquote EmptyString).
Proof.
  intros H. unfold escapeCSV.
  destruct (includes (ToString value) (String comma EmptyString)) eqn:E1; [reflexivity|].
  destruct (includes (ToString value) (String dquote EmptyString)) eqn:E2; [reflexivity|].
  destruct (includes (ToString value) (String newline EmptyString)) eqn:E3; [reflexivity|].
  exfalso. apply includes_char in E1, E2, E3.
  assert (allChars plain (ToString value) = true); [|congruence].
  clear H. revert E1 E2 E3. generalize (ToString value).
  induction s as [|x r IH]; simpl; [reflexivity|]. intros A B C.
  apply andb_prop in A, B, C. destruct A as [A1 A2], B as [B1 B2], C as [C1 C2].
  rewrite (IH A2 B2 C2). unfold plain.
  apply negb_true_iff in A1, B1, C1. rewrite A1, B1, C1. reflexivity.
Qed.

Lemma read_atSeparator (rest : string) :
  atSeparator rest = true ->
  read FieldStart rest = read Unquoted rest /\ read QuoteSeen rest = read Unquoted rest.
Proof.
  destruct rest as [|c r]; simpl; [split; reflexivity|]. intros H.
  assert (Q : isChar dquote c = false).
  { unfold isChar in *. destruct (Ascii.eqb dquote c) eqn:E; [|reflexivity].
    apply Ascii.eqb_eq in E. subst c. discriminate. }
  rewrite Q. split; reflexivity.
Qed.

Lemma read_plain (v rest : string) :
  allChars plain v = true ->
  read Unquoted (v ++ rest) = addString v (read Unquoted rest).
Proof.
  induction v as [|c r IH]; simpl; intros H.
  - destruct (read Unquoted rest) as [[f fs] rs]. reflexivity.
  - apply andb_prop in H. destruct H as [Hc Hr].
    unfold plain in Hc. apply negb_true_iff in Hc.
    apply orb_false_iff in Hc. destruct Hc as [Hc H3].
    apply orb_false_iff in Hc. destruct Hc as [H1 H2].
    rewrite H1, H3. rewrite (IH Hr).
    destruct (read Unquoted rest) as [[f fs] rs]. reflexivity.
Qed.

Lemma read_plain_start (v rest : string) :
  allChars plain v = true -> atSeparator rest = true ->
  read FieldStart (v ++ rest) = addString v (read Unquoted rest).
Proof.
  intros H S. destruct v as [|c r].
  - simpl. rewrite (proj1 (read_atSeparator rest S)).
    destruct (read Unquoted rest) as [[f fs] rs]. reflexivity.
  - rewrite <- read_plain by exact H. simpl in *.
    apply andb_prop in H. destruct H as [Hc Hr].
    unfold plain in Hc. apply negb_true_iff in Hc.
    apply orb_false_iff in Hc. destruct Hc as [Hc H3].
    apply orb_false_iff in Hc. destruct Hc as [H1 H2].
    rewrite H1, H2, H3. reflexivity.
Qed.

Lemma read_quoted (v rest : string) :
  atSeparator rest = true ->
  read Quoted (replaceAllWith reQuote (String dquote (String dquote EmptyString)) v
               ++ String dquote rest)
  = addString v (read Unquoted rest).
Proof.
  intros S. unfold replaceAllWith.
  induction v as [|c r IH].
  - simpl. change (isChar dquote dquote) with true. cbv iota.
    rewrite (proj2 (read_atSeparator rest S)).
    destruct (read Unquoted rest) as [[f fs] rs]. reflexivity.
  - cbn [replaceFromWith matchHere reQuote].
    destruct (isChar dquote c) eqn:E.
    + cbn [option_map]. unfold isChar in E. apply Ascii.eqb_eq in E. subst c.
      cbn [append read]. change (isChar dquote dquote) with true. cbv iota.
      rewrite IH. destruct (read Unquoted rest) as [[f fs] rs]. reflexivity.
    + cbn [append read]. rewrite E. rewrite IH.
      destruct (read Unquoted rest) as [[f fs] rs]. reflexivity.
Qed.

Lemma append_assoc (a b c : string) : ((a ++ b) ++ c = a ++ (b ++ c))%string.
Proof. induction a as [|x a IH]; simpl; [reflexivity | now rewrite IH]. Qed.

(** Reading an escaped value. *)
Lemma read_escapeCSV (value : JsValue) (rest : string) :
  atSeparator rest = true ->
  read FieldStart (escapeCSV value ++ rest) = addString (ToString value) (read Unquoted rest).
Proof.
  intros S. destruct (allChars plain (ToString value)) eqn:E.
  - rewrite (escapeCSV_plain value E). now apply read_plain_start.
  - rewrite (escapeCSV_quoted value E). cbn [append read].
    change (isChar dquote dquote) with true. cbv iota.
    rewrite append_assoc. cbn [append]. now apply read_quoted.
Qed.



Lemma append_empty_r (a : string) : (a ++ "")%string = a.
Proof. induction a as [|x a IH]; simpl; [reflexivity | now rewrite IH]. Qed.

(** Reading a line of escaped values, up to the end of the text or a line
    feed. *)
Lemma read_line (row : list JsValue) (rest : string) :
  row <> [] ->
  (rest = EmptyString \/ exists r, rest = String newline r) ->
  records (read FieldStart (line row ++ rest))
  = map ToString row
      :: match rest with
         | EmptyString => []
         | String _ r => records (read FieldStart r)
         end.
Proof.
  intros Hne Hrest. unfold line.
  induction row as [|v row IH]; [now elim Hne|]. clear Hne.
  destruct row as [|v' row'].
  - cbn [map join]. rewrite read_escapeCSV
      by (destruct Hrest as [->|[r ->]]; reflexivity).
    destruct Hrest as [->|[r ->]]; cbn [read].
    + cbn. now rewrite append_empty_r.
    + change (isChar comma newline) with false.
      change (isChar newline newline) with true. cbv iota.
      destruct (read FieldStart r) as [[f fs] more]. cbn. now rewrite append_empty_r.
  - change (join "," (map escapeCSV (v :: v' :: row')))
      with (escapeCSV v ++ "," ++ join "," (map escapeCSV (v' :: row')))%string.
    rewrite append_assoc. cbn [append]. rewrite read_escapeCSV by reflexivity.
    cbn [read]. change (isChar comma ","%char) with true. cbv iota.
    specialize (IH ltac:(discriminate)).
    destruct (read FieldStart (join "," (map escapeCSV (v' :: row')) ++ rest))
      as [[f fs] more].
    cbn in IH |- *. rewrite append_empty_r. injection IH as -> -> ->. reflexivity.
Qed.

Lemma read_lines (row : list JsValue) (rows : list (list JsValue)) :
  row <> [] -> Forall (fun r => r <> []) rows ->
  readCSV (join (String newline EmptyString) (map line (row :: rows)))
  = map (map ToString) (row :: rows).
Proof.
  unfold readCSV. revert row. induction rows as [|row' rows IH]; intros row Hne Hall.
  - cbn [map join]. rewrite <- (append_empty_r (line row)).
    rewrite read_line; [reflexivity | assumption | now left].
  - change (join (String newline EmptyString) (map line (row :: row' :: rows)))
      with (line row ++ String newline EmptyString
            ++ join (String newline EmptyString) (map line (row' :: rows)))%string.
    cbn [append]. rewrite read_line; [|assumption|right; eauto].
    inversion Hall; subst. rewrite IH by assumption. reflexivity.
Qed.

(** X17. The text generateSecureCSV writes reads back, by the rules of RFC 4180
    with the line feed between records, as the table it was given, each
    cell as its string form: commas, double quotes and line feeds inside a
    cell are kept.  The header and each row must hold at least one cell. *)
Theorem generateSecureCSV_reads_back (headers : list JsValue) (rows : list (list JsValue)) :
  headers <> [] -> Forall (fun row => row <> []) rows ->
  readCSV (generateSecureCSV headers rows) = map (map ToString) (headers :: rows).
Proof.
  intros Hh Hr. unfold generateSecureCSV. apply (read_lines headers rows Hh Hr).
Qed.

Lemma generateSecureCSV_reads_back_witness :
  readCSV (generateSecureCSV [JsString "Name"; JsString "Note"]
             [[JsString "Amina, A."; JsString ("said " ++ String dquote "hi" ++ String dquote "")];
              [JsString "line
break"; JsNumber 5]])
  = [["Name"; "Note"];
     ["Amina, A."; "said " ++ String dquote "hi" ++ String dquote ""];
     ["line
break"; "5"]].
Proof.
  apply (generateSecureCSV_reads_back [JsString "Name"; JsString "Note"]).
  - discriminate.
  - repeat constructor; discriminate.
Defined.

End CsvFacts.

(* ================================================================== *)
(** * The sales-tracking page *)
(* ================================================================== *)

Module TrackFacts.
Import Js Sales SalesTrack Props TextProps Csv TrackProps SanitizerFacts SanitizerShape CsvFacts.
Local Open Scope list_scope.
Local Arguments isChar : simpl never.

(** ** formatDate *)

Lemma split_hd (sep : ascii) (d rest : string) :
  allChars (fun c => negb (isChar sep c)) d = true ->
  hd EmptyString (split sep (d ++ String sep rest)%string) = d.
Proof.
  induction d as [|c d IH]; simpl; intros H.
  - unfold isChar. now rewrite Ascii.eqb_refl.
  - apply andb_prop in H. destruct H as [Hc Hd]. apply negb_true_iff in Hc.
    rewrite Hc. specialize (IH Hd).
    destruct (split sep (d ++ String sep rest)%string); simpl in *; now subst.
Qed.

Lemma substring0_prefix (d rest : string) :
  substring0 (String.length d) (d ++ rest)%string = d.
Proof.
  unfold substring0. induction d as [|c d IH]; simpl.
  - destruct rest; reflexivity.
  - now rewrite IH.
Qed.

Lemma split_hd_all (sep : ascii) (s : string) :
  allChars (fun c => negb (isChar sep c)) s = true ->
  hd EmptyString (split sep s) = s.
Proof.
  induction s as [|c d IH]; simpl; intros H; [reflexivity|].
  apply andb_prop in H. destruct H as [Hc Hd]. apply negb_true_iff in Hc.
  rewrite Hc. specialize (IH Hd).
  destruct (split sep d); simpl in *; now subst.
Qed.

Lemma prefix_empty (s : string) : String.prefix EmptyString s = true.
Proof. destruct s; reflexivity. Qed.

Lemma split_hd_prefix (sep : ascii) (s : string) :
  String.prefix (hd EmptyString (split sep s)) s = true
  /\ allChars (fun c => negb (isChar sep c)) (hd EmptyString (split sep s)) = true.
Proof.
  induction s as [|c d [IH1 IH2]]; simpl; [split; reflexivity|].
  destruct (isChar sep c) eqn:E; simpl; [split; reflexivity|].
  destruct (split sep d) as [|h t]; simpl in *.
  - rewrite E. destruct (ascii_dec c c); [|congruence].
    split; [apply prefix_empty | reflexivity].
  - rewrite E, IH2. destruct (ascii_dec c c); [|congruence]. split; [exact IH1 | reflexivity].
Qed.

(** X14. formatDate gives the part of a string before its first [T], a prefix
    of the string that holds no [T]: the day of an ISO timestamp, the whole
    string when it holds no [T].  It gives the empty string for a value that
    counts as false, and throws on any other value that is no string.  For a
    timestamp whose day has 10 characters, the day shown is the day the date
    filters compare. *)
Theorem formatDate_day (iso : JsValue) :
  (truthyValue iso = false -> formatDate iso = Some EmptyString)
  /\ (forall s, iso = JsString s ->
        exists day, formatDate iso = Some day
                    /\ String.prefix day s = true /\ allChars notT day = true)
  /\ (forall d rest, iso = JsString (d ++ String "T"%char rest)%string -> allChars notT d = true ->
        formatDate iso = Some d)
  /\ (forall s, iso = JsString s -> allChars notT s = true -> formatDate iso = Some s)
  /\ ((forall s, iso <> JsString s) -> truthyValue iso = true -> formatDate iso = None)
  /\ (forall d rest sale, iso = JsString (d ++ String "T"%char rest)%string ->
        allChars notT d = true -> String.length d = 10 -> ts_date sale = iso ->
        formatDate iso = dayOf (Some sale)).
Proof.
  assert (D : forall d rest, allChars notT d = true ->
                formatDate (JsString (d ++ String "T"%char rest)%string) = Some d).
  { intros d rest H. simpl.
    destruct (d ++ String "T"%char rest)%string eqn:E.
    - destruct d; discriminate.
    - rewrite <- E. f_equal. now apply split_hd. }
  split; [|split; [|split; [|split; [|split]]]]; cycle 5.
  { intros d rest sale -> H L Hs. rewrite (D d rest H). cbn [dayOf]. rewrite Hs.
    destruct (d ++ String "T"%char rest)%string eqn:E; [destruct d; discriminate|].
    rewrite <- E. f_equal. rewrite <- L. symmetry. apply substring0_prefix. }
  - destruct iso as [| | b | n | s]; simpl; try reflexivity.
    + now intros ->.
    + now intros ->.
    + destruct s; [reflexivity | discriminate].
  - intros s ->. simpl. destruct s as [|c r].
    + exists EmptyString. repeat split.
    + exists (hd EmptyString (split "T"%char (String c r))).
      split; [reflexivity|]. apply split_hd_prefix.
  - intros d rest -> H. simpl.
    destruct (d ++ String "T"%char rest)%string eqn:E.
    + destruct d; discriminate.
    + rewrite <- E. f_equal. now apply split_hd.
  - intros s -> H. simpl. destruct s as [|c r]; [reflexivity|].
    f_equal. now apply split_hd_all.
  - intros Hs Ht. destruct iso as [| | b | n | s]; simpl in *; try discriminate.
    + now rewrite Ht.
    + now rewrite Ht.
    + now elim (Hs s).
Qed.


(** ** The status toggle *)

Lemma indexOf_statusStates (current : string) :
  indexOf current statusStates
  = if String.eqb "Pending" current then 0%Z
    else if String.eqb "Completed" current then 1%Z
    else if String.eqb "all" current then 2%Z else (-1)%Z.
Proof.
  unfold statusStates. cbn [indexOf].
  destruct (String.eqb "Pending" current), (String.eqb "Completed" current),
    (String.eqb "all" current); reflexivity.
Qed.

(** X13. The status toggle always lands on one of the three states: from
    Pending to Completed, from Completed to all, from all to Pending, and
    from any other state, one set through the query string say, to Pending. *)
Theorem handleStatusToggle_cycle (current : string) :
  (exists next, handleStatusToggle current = Some next /\ In next statusStates)
  /\ handleStatusToggle "Pending" = Some "Completed"%string
  /\ handleStatusToggle "Completed" = Some "all"%string
  /\ handleStatusToggle "all" = Some "Pending"%string
  /\ (~ In current statusStates -> handleStatusToggle current = Some "Pending"%string).
Proof.
  split; [|split; [|split; [|split]]]; try reflexivity.
  - unfold handleStatusToggle. rewrite indexOf_statusStates.
    destruct (String.eqb "Pending" current); [eexists; split; [reflexivity | simpl; tauto]|].
    destruct (String.eqb "Completed" current); [eexists; split; [reflexivity | simpl; tauto]|].
    destruct (String.eqb "all" current); eexists; (split; [reflexivity | simpl; tauto]).
  - intros H. unfold handleStatusToggle. rewrite indexOf_statusStates.
    destruct (String.eqb "Pending" current) eqn:E1;
      [apply String.eqb_eq in E1; subst; elim H; simpl; tauto|].
    destruct (String.eqb "Completed" current) eqn:E2;
      [apply String.eqb_eq in E2; subst; elim H; simpl; tauto|].
    destruct (String.eqb "all" current) eqn:E3;
      [apply String.eqb_eq in E3; subst; elim H; simpl; tauto|].
    reflexivity.
Qed.

(** ** The search name *)

Lemma toLowerUnit_idempotent (c : ascii) : toLowerUnit (toLowerUnit c) = toLowerUnit c.
Proof. destruct c as [[] [] [] [] [] [] [] []]; reflexivity. Qed.

Lemma toLowerUnit_notAngle (c : ascii) : notAngle (toLowerUnit c) = notAngle c.
Proof. destruct c as [[] [] [] [] [] [] [] []]; reflexivity. Qed.

Lemma toLowerCase_idempotent (s : string) : toLowerCase (toLowerCase s) = toLowerCase s.
Proof.
  induction s as [|c r IH]; simpl; [reflexivity|].
  now rewrite toLowerUnit_idempotent, IH.
Qed.

Lemma toLowerCase_notAngle (s : string) :
  allChars notAngle (toLowerCase s) = allChars notAngle s.
Proof.
  induction s as [|c r IH]; simpl; [reflexivity|].
  now rewrite toLowerUnit_notAngle, IH.
Qed.

Lemma searchStep_ok (st : Search) (event : SearchEvent) :
  searchNameOk (searchName st) -> searchNameOk (searchName (searchStep st event)).
Proof.
  intros H. destruct event as [now later raw|]; simpl.
  - unfold searchInput. destruct (lt _ _); [exact H|]. simpl.
    pose proof (sanitizeSearchInput_length (JsString raw)) as L.
    pose proof (sanitizeSearchInput_notAngle (JsString raw)) as A.
    split; [|split].
    + exists (sanitizeSearchInput (JsString raw)). now repeat split.
    + now rewrite toLowerCase_notAngle.
    + apply toLowerCase_idempotent.
  - split; [|split]; try reflexivity.
    exists ""%string. repeat split. simpl. lia.
Qed.

(** X9. Whatever is typed in the search box and however often it is cleared,
    the search name the filters use is the lower case of a sanitized text of
    at most 100 characters without angle bracket (the text is cut to 100
    characters before it is put in lower case), holds no angle bracket
    itself, and is in lower case. *)
Theorem searchName_invariant (events : list SearchEvent) :
  let name := searchName (searchAfter events) in
  (exists text : string,
      name = toLowerCase text
      /\ String.length text <= 100
      /\ allChars notAngle text = true)
  /\ allChars notAngle name = true
  /\ toLowerCase name = name.
Proof.
  cbv zeta. unfold searchAfter.
  assert (G : forall st, searchNameOk (searchName st) ->
                         searchNameOk (searchName (fold_left searchStep events st))).
  { induction events as [|e es IH]; intros st H; simpl; [exact H|].
    apply IH. now apply searchStep_ok. }
  apply G. split; [|split]; try reflexivity.
  exists ""%string. repeat split. simpl. lia.
Qed.


(** ** The search filter *)

Lemma filterM_filter {A : Type} (callback : A -> option bool) (array : list A) :
  (forall x, In x array -> callback x <> None) ->
  filterM callback array
  = Some (filter (fun x => match callback x with Some true => true | _ => false end) array).
Proof.
  induction array as [|x rest IH]; intros H; simpl; [reflexivity|].
  destruct (callback x) as [keep|] eqn:E; [|now elim (H x (or_introl eq_refl))].
  rewrite IH by (intros y Hy; apply H; now right).
  destruct keep; reflexivity.
Qed.

Lemma filterM_None {A : Type} (callback : A -> option bool) (array : list A) :
  (exists x, In x array /\ callback x = None) -> filterM callback array = None.
Proof.
  induction array as [|x rest IH]; intros (y & Hy & Hn); simpl; [now elim Hy|].
  destruct Hy as [->|Hy]; [now rewrite Hn|].
  destruct (callback x); [|reflexivity].
  rewrite IH; [reflexivity | eauto].
Qed.

Lemma filterM_In {A : Type} (callback : A -> option bool) (array kept : list A) :
  filterM callback array = Some kept ->
  forall x, In x kept -> In x array /\ callback x = Some true.
Proof.
  revert kept. induction array as [|y rest IH]; simpl; intros kept H x Hx.
  - injection H as <-. now elim Hx.
  - destruct (callback y) as [keep|] eqn:E; [|discriminate].
    destruct (filterM callback rest) as [kept'|]; [|discriminate].
    injection H as <-. destruct keep.
    + destruct Hx as [->|Hx]; [auto|]. destruct (IH kept' eq_refl x Hx). auto.
    + destruct (IH kept' eq_refl x Hx). auto.
Qed.

Lemma filterBySearchName_text (searchName : string) (salesArr : list (option TrackSale)) :
  searchName <> EmptyString -> forallb nameIsText salesArr = true ->
  filterBySearchName searchName salesArr = filter (nameHolds searchName) salesArr.
Proof.
  intros Hn Ht. unfold filterBySearchName.
  destruct searchName as [|c r]; [now elim Hn|].
  rewrite filterM_filter.
  - apply filter_ext. intros [s|]; simpl; [|reflexivity].
    destruct (customerNameOf s); simpl; [|reflexivity].
    destruct (includes _ _); reflexivity.
  - intros [s|] Hx; [|discriminate].
    rewrite forallb_forall in Ht. specialize (Ht _ Hx). simpl in Ht.
    destruct (customerNameOf s); discriminate.
Qed.

Lemma filterBySearchName_fallback (searchName : string) (salesArr : list (option TrackSale)) :
  forallb nameIsText salesArr = false ->
  filterBySearchName searchName salesArr = salesArr.
Proof.
  intros Ht. unfold filterBySearchName.
  destruct searchName as [|c r]; [reflexivity|].
  rewrite filterM_None; [reflexivity|].
  clear -Ht. induction salesArr as [|x rest IH]; simpl in Ht; [discriminate|].
  apply andb_false_iff in Ht. destruct Ht as [Ht|Ht].
  - exists x. split; [now left|]. destruct x as [s|]; simpl in *; [|discriminate].
    destruct (customerNameOf s); [discriminate | reflexivity].
  - destruct (IH Ht) as (y & Hy & Hn). exists y. split; [now right | exact Hn].
Qed.

Lemma filterBySearchName_In (searchName : string) (salesArr : list (option TrackSale)) :
  forall sale, In sale (filterBySearchName searchName salesArr) -> In sale salesArr.
Proof.
  intros sale H. destruct searchName as [|c r]; [exact H|].
  destruct (forallb nameIsText salesArr) eqn:E.
  - rewrite filterBySearchName_text in H by (auto; discriminate).
    apply filter_In in H. tauto.
  - now rewrite filterBySearchName_fallback in H.
Qed.

(** X10. filterBySearchName returns the sales as they are when the search name
    is empty; when every customer name is a string, or counts as false, it
    keeps the sales whose lower-cased name holds the search name; and when
    one sale has a name that is neither, the exception is caught and all the
    sales are returned, unfiltered. *)
Theorem filterBySearchName_cases (searchName : string) (salesArr : list (option TrackSale)) :
  (searchName = EmptyString -> filterBySearchName searchName salesArr = salesArr)
  /\ (searchName <> EmptyString -> forallb nameIsText salesArr = true ->
      filterBySearchName searchName salesArr = filter (nameHolds searchName) salesArr)
  /\ (forallb nameIsText salesArr = false ->
      filterBySearchName searchName salesArr = salesArr).
Proof.
  split; [intros ->; reflexivity|].
  split; [apply filterBySearchName_text | apply filterBySearchName_fallback].
Qed.

(** ** The two sections *)

Lemma filterWhen_In {A : Type} (condition : bool) (callback : A -> option bool)
      (filtered : option (list A)) (kept : list A) :
  filterWhen condition callback filtered = Some kept ->
  exists l, filtered = Some l
            /\ forall x, In x kept ->
                 In x l /\ (condition = true -> callback x = Some true).
Proof.
  destruct filtered as [l|]; simpl; [|discriminate]. intros H.
  exists l. split; [reflexivity|]. intros x Hx. destruct condition.
  - destruct (filterM_In _ _ _ H x Hx). auto.
  - injection H as <-. split; [exact Hx | discriminate].
Qed.

Lemma dateTest_dayOf (test : string -> bool) (sale : option TrackSale) :
  dateTest test sale = Some true ->
  exists day, dayOf sale = Some day /\ test day = true.
Proof.
  destruct sale as [s|]; simpl; [|discriminate].
  destruct (ts_date s) as [| | b | n | d]; simpl; try discriminate.
  - destruct b; discriminate.
  - destruct (truthy n); discriminate.
  - destruct d as [|c d]; [discriminate|]. intros [= H]. eauto.
Qed.

Lemma nonEmptyString_true (s : string) : nonEmptyString s = true <-> s <> EmptyString.
Proof. destruct s; simpl; split; intros; congruence. Qed.

Lemma eqb_false_neq (a b : string) : negb (String.eqb a b) = true <-> a <> b.
Proof. rewrite negb_true_iff. apply String.eqb_neq. Qed.

(** X11. Every sale the tracking section lists is an object of the sales array
    that is not pending, is not in the pending section, has its day within
    the start and end dates that are set, has today as its day when no date
    is set and the toggle is not on Pending, and has the status of the toggle
    when that is neither all nor Pending. *)
Theorem tracking_section_lists (searchName : string) (filters : Filters) (today : string)
        (sales shown : list (option TrackSale)) :
  renderTrackingSection searchName filters today sales = Some shown ->
  forall sale, In sale shown ->
    In sale sales
    /\ (exists s, sale = Some s)
    /\ isPending sale = false
    /\ ~ In sale (renderPendingSection sales)
    /\ (startDate filters <> EmptyString ->
        exists day, dayOf sale = Some day /\ stringLe (startDate filters) day = true)
    /\ (endDate filters <> EmptyString ->
        exists day, dayOf sale = Some day /\ stringLe day (endDate filters) = true)
    /\ (startDate filters = EmptyString -> endDate filters = EmptyString ->
        currentStatusState filters <> "Pending"%string -> dayOf sale = Some today)
    /\ (currentStatusState filters <> "all"%string ->
        currentStatusState filters <> "Pending"%string ->
        hasStatus (currentStatusState filters) sale = true).
Proof.
  unfold renderTrackingSection. cbv zeta.
  destruct (negb (nonEmptyString searchName) && negb _) eqn:Active;
    [intros [= <-] sale []|].
  intros H sale Hs.
  apply filterWhen_In in H. destruct H as (l4 & H & H4).
  apply filterWhen_In in H. destruct H as (l3 & H & H3).
  apply filterWhen_In in H. destruct H as (l2 & H & H2).
  apply filterWhen_In in H. destruct H as (l1 & H & H1).
  injection H as <-.
  destruct (H4 sale Hs) as [I4 C4]. destruct (H3 sale I4) as [I3 C3].
  destruct (H2 sale I3) as [I2 C2]. destruct (H1 sale I2) as [I1 C1].
  apply filterBySearchName_In in I1. apply filter_In in I1. destruct I1 as [I0 P].
  assert (Np : isPending sale = false).
  { destruct sale as [s|]; [|discriminate]. simpl. now apply negb_true_iff in P. }
  split; [exact I0|]. split; [destruct sale; [eauto | discriminate]|].
  split; [exact Np|].
  split. { unfold renderPendingSection. rewrite filter_In. intros [_ Q].
           fold (isPending sale) in Q. congruence. }
  split. { intros Hd. apply nonEmptyString_true in Hd. now apply dateTest_dayOf, C2. }
  split. { intros Hd. apply nonEmptyString_true in Hd.
           destruct (dateTest_dayOf _ _ (C3 Hd)) as (day & D & T). eauto. }
  split.
  { intros Hs1 He Hp. rewrite Hs1, He in C1. simpl in C1.
    apply eqb_false_neq in Hp. rewrite String.eqb_sym in Hp.
    destruct (dateTest_dayOf _ _ (C1 ltac:(now rewrite String.eqb_sym, Hp))) as (day & D & T).
    apply String.eqb_eq in T. now subst. }
  intros Ha Hp. apply eqb_false_neq in Ha, Hp.
  specialize (C4 ltac:(now rewrite Ha, Hp)).
  destruct sale as [s|]; simpl in *; [now injection C4 | discriminate].
Qed.

(** X12. With no search name, no date and the toggle on Pending or on all, the
    tracking section lists nothing, whatever the sales. *)
Theorem tracking_section_idle (filters : Filters) (today : string)
        (sales : list (option TrackSale)) :
  startDate filters = EmptyString -> endDate filters = EmptyString ->
  currentStatusState filters = "Pending"%string \/ currentStatusState filters = "all"%string ->
  renderTrackingSection EmptyString filters today sales = Some [].
Proof.
  intros Hs He Hst. unfold renderTrackingSection. cbv zeta. rewrite Hs, He.
  destruct Hst as [-> | ->]; reflexivity.
Qed.


Lemma tracking_section_lists_witness :
  renderTrackingSection "ami"
    {| currentStatusState := "Completed"; startDate := "2024-01-01"; endDate := "2024-12-31" |}
    "2024-06-01" exampleSales
  = Some [Some (exampleSale "Amina" "Completed" "2024-03-05T10:00:00.000Z")]
  /\ isPending (Some (exampleSale "Amina" "Completed" "2024-03-05T10:00:00.000Z")) = false
  /\ (exists day, dayOf (Some (exampleSale "Amina" "Completed" "2024-03-05T10:00:00.000Z"))
                  = Some day /\ stringLe "2024-01-01" day = true).
Proof.
  assert (R : renderTrackingSection "ami"
    {| currentStatusState := "Completed"; startDate := "2024-01-01"; endDate := "2024-12-31" |}
    "2024-06-01" exampleSales
  = Some [Some (exampleSale "Amina" "Completed" "2024-03-05T10:00:00.000Z")])
    by reflexivity.
  split; [exact R|].
  destruct (tracking_section_lists _ _ _ _ _ R
              (Some (exampleSale "Amina" "Completed" "2024-03-05T10:00:00.000Z"))
              (or_introl eq_refl)) as (_ & _ & Np & _ & Hd & _).
  split; [exact Np|]. apply Hd. discriminate.
Defined.

Lemma tracking_section_idle_witness :
  renderTrackingSection ""
    {| currentStatusState := "all"; startDate := ""; endDate := "" |}
    "2024-06-01" exampleSales = Some [].
Proof.
  apply (tracking_section_idle
           {| currentStatusState := "all"; startDate := ""; endDate := "" |});
    [reflexivity | reflexivity | now right].
Defined.

(** ** The export *)

Lemma map_ToString_JsString (l : list string) : map ToString (map JsString l) = l.
Proof. induction l as [|x l IH]; simpl; [reflexivity | now rewrite IH]. Qed.

Lemma map_map_ToString_JsString (l : list (list string)) :
  map (map ToString) (map (map JsString) l) = l.
Proof.
  induction l as [|x l IH]; simpl; [reflexivity|].
  now rewrite map_ToString_JsString, IH.
Qed.

Lemma firstn_In {A : Type} (n : nat) (l : list A) (x : A) :
  In x (firstn n l) -> In x l.
Proof.
  revert n. induction l as [|y l IH]; intros [|n]; simpl; try tauto.
  intros [->|H]; [now left | right; eauto].
Qed.

Lemma exportRows_Forall (P : list string -> Prop) (sales : list (option TrackSale)) :
  (forall s i, isString "Completed" (ts_status s) = true -> P (sanitizedRow s i)) ->
  Forall P (exportRows sales).
Proof.
  intros H. unfold exportRows.
  set (completed := filter _ sales).
  assert (C : Forall (fun sale => match sale with
                                  | Some s => isString "Completed" (ts_status s) = true
                                  | None => True
                                  end) completed).
  { apply Forall_forall. intros [s|] Hx; [|exact I].
    apply filter_In in Hx. tauto. }
  assert (C' : Forall (fun sale => match sale with
                                   | Some s => isString "Completed" (ts_status s) = true
                                   | None => True
                                   end)
                 (if (TRACKING_SECURITY_CONFIG.MAX_EXPORT_RECORDS <? Datatypes.length completed)%nat
                  then firstn TRACKING_SECURITY_CONFIG.MAX_EXPORT_RECORDS completed
                  else completed)).
  { destruct (_ <? _)%nat; [|exact C].
    apply Forall_forall. intros x Hx. apply firstn_In in Hx.
    rewrite Forall_forall in C. now apply C. }
  apply Forall_flat_map. eapply Forall_impl; [|exact C'].
  intros [s|] Hs; [|constructor].
  destruct (ts_items s) as [its|]; [|constructor].
  apply Forall_flat_map. apply Forall_forall. intros [i|] _; [|constructor].
  constructor; [now apply H | constructor].
Qed.

Lemma isString_eq (text : string) (v : JsValue) :
  isString text v = true -> v = JsString text.
Proof.
  destruct v; simpl; try discriminate. intros H. apply String.eqb_eq in H. now subst.
Qed.

Lemma exportRows_width (sales : list (option TrackSale)) :
  Forall (fun row => Datatypes.length row = Datatypes.length exportHeaders) (exportRows sales).
Proof. apply exportRows_Forall; reflexivity. Qed.

Lemma export_reads_back (sales : list (option TrackSale)) :
  readCSV (generateSecureCSV (map JsString exportHeaders)
             (map (map JsString) (exportRows sales)))
  = exportHeaders :: exportRows sales.
Proof.
  transitivity (map (map ToString)
                  (map JsString exportHeaders :: map (map JsString) (exportRows sales))).
  - apply (read_lines (map JsString exportHeaders)
             (map (map JsString) (exportRows sales))); [discriminate|].
    apply Forall_map. eapply Forall_impl; [|apply exportRows_width].
    intros [|c r]; simpl; discriminate.
  - cbn [map]. now rewrite map_ToString_JsString, map_map_ToString_JsString.
Qed.

(** X18. Every row the export collects has 12 cells, as many as the header;
    its status cell reads Completed; and no cell holds an angle bracket or
    begins or ends with white space. *)
Theorem exportRows_table (sales : list (option TrackSale)) :
  Forall (fun row => Datatypes.length row = 12) (exportRows sales)
  /\ Forall (fun row => nth 2 row EmptyString = "Completed"%string) (exportRows sales)
  /\ Forall (Forall (fun cell => allChars notAngle cell = true /\ trim cell = cell))
            (exportRows sales).
Proof.
  split; [apply exportRows_width|]. split.
  - apply exportRows_Forall. intros s i H. apply isString_eq in H.
    unfold sanitizedRow. rewrite H. reflexivity.
  - apply exportRows_Forall. intros s i _. unfold sanitizedRow.
    repeat (constructor;
            [split; [apply sanitizeExportData_notAngle | apply sanitizeExportData_trimmed]|]).
    constructor.
Qed.

(** X19. A click on the export button either is refused, within 5 seconds of
    the last export, and then leaves the time of the last export as it was;
    or downloads a text that reads back as the header followed by the rows
    collected, under the name [completed_sales_export_<day>.csv], and
    records the time. *)
Theorem exportClick_download (lastExportTime : option float) (now later : float)
        (today : string) (sales : list (option TrackSale)) :
  match exportClick lastExportTime now later today sales with
  | (ExportRateLimited, after) =>
      after = lastExportTime
      /\ exists t, lastExportTime = Some t /\ lt (now - t)%float 5000 = true
  | (Download csvContent fileName, after) =>
      readCSV csvContent = exportHeaders :: exportRows sales
      /\ fileName = ("completed_sales_export_" ++ today ++ ".csv")%string
      /\ after = Some later
  end.
Proof.
  unfold exportClick. destruct lastExportTime as [t|].
  - destruct (truthy t && lt (now - t)%float 5000) eqn:E.
    + split; [reflexivity|]. exists t. apply andb_prop in E. tauto.
    + split; [apply export_reads_back | split; reflexivity].
  - split; [apply export_reads_back | split; reflexivity].
Qed.

Example export_example :
  exportClick None 0 0 "2024-06-01" exampleSales
  = (Download
       ("Customer Name,Customer Phone,Status,Date,Discount,Item,Width,Length,Space,Quantity,Unit Price,Item Total"
        ++ String newline
             (",,Completed,2024-03-05T10:00:00.000Z,0," ++ String dquote "Banner, large"
              ++ String dquote ",,,,5,20,100.00")
        ++ String newline
             (",,Completed,2023-12-31T23:59:59.000Z,0," ++ String dquote "Banner, large"
              ++ String dquote ",,,,5,20,100.00"))%string
       "completed_sales_export_2024-06-01.csv",
     Some 0%float).
Proof. vm_compute. reflexivity. Qed.

End TrackFacts.

(* ================================================================== *)
(** * Text shown in the tables *)
(* ================================================================== *)

Module HtmlFacts.
Import Js Sales SalesTrack Props TextProps TrackFacts.
Local Arguments isChar : simpl never.

Lemma escapeText_notAngle (s : string) : allChars notAngle (escapeText s) = true.
Proof.
  induction s as [|c r IH]; simpl; [reflexivity|].
  destruct (isChar "&" c); [exact IH|].
  destruct (isChar "160" c); [exact IH|].
  destruct (isChar "<" c) eqn:L; [exact IH|].
  destruct (isChar ">" c) eqn:G; [exact IH|].
  simpl. unfold notAngle at 1. rewrite L, G. exact IH.
Qed.

Lemma escapeText_unescaped (s : string) :
  allChars unescaped s = true -> escapeText s = s.
Proof.
  induction s as [|c r IH]; simpl; [reflexivity|]. intros H.
  apply andb_prop in H. destruct H as [Hc Hr]. unfold unescaped in Hc.
  apply negb_true_iff in Hc.
  apply orb_false_iff in Hc. destruct Hc as [Hc H4].
  apply orb_false_iff in Hc. destruct Hc as [Hc H3].
  apply orb_false_iff in Hc. destruct Hc as [H1 H2].
  rewrite H1, H2, H3, H4. simpl. now rewrite IH.
Qed.

Lemma unescape_escapeText (s : string) : unescapeText (escapeText s) = s.
Proof.
  unfold unescapeText. induction s as [|c r IH]; [reflexivity|].
  cbn [escapeText].
  destruct (isChar "&" c) eqn:E1.
  { unfold isChar in E1. apply Ascii.eqb_eq in E1. subst c. simpl. now rewrite prefix_empty, IH. }
  destruct (isChar "160" c) eqn:E2.
  { unfold isChar in E2. apply Ascii.eqb_eq in E2. subst c. simpl. now rewrite prefix_empty, IH. }
  destruct (isChar "<" c) eqn:E3.
  { unfold isChar in E3. apply Ascii.eqb_eq in E3. subst c. simpl. now rewrite prefix_empty, IH. }
  destruct (isChar ">" c) eqn:E4.
  { unfold isChar in E4. apply Ascii.eqb_eq in E4. subst c. simpl. now rewrite prefix_empty, IH. }
  cbn [append unescapeFrom String.prefix].
  unfold isChar in E1. apply Ascii.eqb_neq in E1.
  destruct (ascii_dec "&" c) as [Heq|_]; [now elim E1|].
  now rewrite IH.
Qed.

(** X15. sanitizeHTML gives a text with no angle bracket in it, from which the
    string is read back by undoing the four character references; a string
    with no ampersand, no-break space or angle bracket is returned as it is;
    a value that is no string gives the empty string. *)
Theorem sanitizeHTML_text (str : JsValue) :
  allChars notAngle (sanitizeHTML str) = true
  /\ (forall s, str = JsString s -> unescapeText (sanitizeHTML str) = s)
  /\ (forall s, str = JsString s -> allChars unescaped s = true -> sanitizeHTML str = s)
  /\ ((forall s, str <> JsString s) -> sanitizeHTML str = ""%string).
Proof.
  split; [|split; [|split]].
  - destruct str; try reflexivity. apply escapeText_notAngle.
  - intros s ->. apply unescape_escapeText.
  - intros s ->. apply escapeText_unescaped.
  - intros H. destruct str; try reflexivity. now elim (H s).
Qed.

Example sanitizeHTML_example :
  sanitizeHTML (JsString "<b>Ali & co</b>") = "&lt;b&gt;Ali &amp; co&lt;/b&gt;"%string
  /\ sanitizeHTML (JsNumber 5) = ""%string.
Proof. split; reflexivity. Qed.

End HtmlFacts.

(* ================================================================== *)
(** * The sales in memory *)
(* ================================================================== *)

Module StateFacts.
Import Js SalesTrack Props TrackProps StateProps.
Local Open Scope list_scope.

Lemma findIndex_firstMatch (callback : TrackSale -> bool) (sales : list (option TrackSale))
      (idx : nat) :
  findIndex callback sales = Some (Some idx) ->
  exists before s after,
    firstMatch callback sales before s after /\ Datatypes.length before = idx.
Proof.
  revert idx. induction sales as [|x rest IH]; simpl; intros idx H; [discriminate|].
  destruct x as [s|]; [|discriminate].
  destruct (callback s) eqn:E.
  - injection H as <-. exists [], s, rest. repeat split; [exact E | constructor].
  - destruct (findIndex callback rest) as [[i|]|]; try discriminate.
    injection H as <-. destruct (IH i eq_refl) as (before & s' & after & (-> & Hc & Hb) & <-).
    exists (Some s :: before), s', after. repeat split; [exact Hc|].
    constructor; [eauto | exact Hb].
Qed.

Lemma firstMatch_findIndex (callback : TrackSale -> bool)
      (sales before : list (option TrackSale)) (s : TrackSale)
      (after : list (option TrackSale)) :
  firstMatch callback sales before s after ->
  findIndex callback sales = Some (Some (Datatypes.length before)).
Proof.
  intros (-> & Hc & Hb). induction Hb as [|x before (s' & -> & Hs') Hb IH]; simpl.
  - now rewrite Hc.
  - rewrite Hs', IH. reflexivity.
Qed.

Lemma setStatus_at (status : string) (before : list (option TrackSale)) (s : TrackSale)
      (after : list (option TrackSale)) :
  setStatus (Datatypes.length before) status (before ++ Some s :: after)
  = before ++ Some (withStatus status s) :: after.
Proof.
  induction before as [|x before IH]; simpl; [reflexivity|].
  destruct x; now rewrite IH.
Qed.

Lemma splice1_at (before : list (option TrackSale)) (x : option TrackSale)
      (after : list (option TrackSale)) :
  splice1 (Datatypes.length before) (before ++ x :: after) = before ++ after.
Proof. induction before as [|y before IH]; simpl; [reflexivity | now rewrite IH]. Qed.

Lemma statusAt_at (status : string) (before : list (option TrackSale)) (s : TrackSale)
      (after : list (option TrackSale)) :
  statusAt (Datatypes.length before) status (before ++ Some s :: after)
  = isString status (ts_status s).
Proof.
  unfold statusAt. rewrite nth_error_app2 by lia. now rewrite Nat.sub_diag.
Qed.

Lemma isString_status (status : string) (s : TrackSale) :
  isString status (ts_status s) = true <-> ts_status s = JsString status.
Proof.
  split.
  - destruct (ts_status s); try discriminate. simpl. intros E.
    apply String.eqb_eq in E. now subst.
  - intros ->. simpl. apply String.eqb_refl.
Qed.

Lemma withStatus_changes (status other : string) (s : TrackSale)
      (before after : list (option TrackSale)) :
  ts_status s = JsString status -> status <> other ->
  before ++ Some (withStatus other s) :: after <> before ++ Some s :: after.
Proof.
  intros Hs Hne E. apply app_inv_head in E. injection E as E.
  rewrite <- E in Hs. simpl in Hs. injection Hs as Hs. now elim Hne.
Qed.

(** X20. When the API client is set and its call succeeds, markAsDone turns
    the first sale with the given id, if it is pending, into a completed
    one: that sale gets status Completed, the array changes and nothing else
    in it does.  In every other case (no client, a failed call, no sale with
    that id, a first sale with that id that is not pending) the sales stay
    as they are. *)
Theorem markAsDone_effect (apiClient apiOk : bool) (id : string)
        (sales : list (option TrackSale)) :
  (apiClient = true -> apiOk = true ->
   forall before s after,
     firstMatch (fun s => isString id (ts_id s)) sales before s after ->
     ts_status s = JsString "Pending" ->
     markAsDone apiClient apiOk id sales
     = before ++ Some (withStatus "Completed" s) :: after
     /\ markAsDone apiClient apiOk id sales <> sales)
  /\ (apiClient = false \/ apiOk = false
      \/ (forall before s after,
             firstMatch (fun s => isString id (ts_id s)) sales before s after ->
             ts_status s <> JsString "Pending") ->
      markAsDone apiClient apiOk id sales = sales).
Proof.
  split.
  - intros -> -> before s after M P. unfold markAsDone.
    rewrite (firstMatch_findIndex _ _ _ _ _ M).
    pose proof M as (-> & Hc & Hb). rewrite statusAt_at.
    rewrite (proj2 (isString_status "Pending" s) P). cbn [negb].
    rewrite setStatus_at. split; [reflexivity|].
    apply (withStatus_changes "Pending" "Completed"); [exact P | discriminate].
  - intros H. unfold markAsDone.
    destruct (findIndex _ sales) as [[idx|]|] eqn:F; try reflexivity.
    destruct (findIndex_firstMatch _ _ _ F) as (before & s & after & M & <-).
    pose proof M as (E & Hc & Hb). rewrite E at 1. rewrite statusAt_at.
    destruct (isString "Pending" (ts_status s)) eqn:P; [|reflexivity].
    apply isString_status in P.
    destruct H as [-> | [-> | H]]; [reflexivity | destruct apiClient; reflexivity |].
    now elim (H before s after M).
Qed.

Lemma markAsDone_effect_witness :
  markAsDone true true "s1"
    [Some (exampleSale "Bashir" "Pending" "2024-03-06T09:30:00.000Z");
     Some (exampleSale "Amina" "Completed" "2024-03-05T10:00:00.000Z")]
  = [Some (withStatus "Completed" (exampleSale "Bashir" "Pending" "2024-03-06T09:30:00.000Z"));
     Some (exampleSale "Amina" "Completed" "2024-03-05T10:00:00.000Z")]
  /\ markAsDone true false "s1"
       [Some (exampleSale "Bashir" "Pending" "2024-03-06T09:30:00.000Z");
        Some (exampleSale "Amina" "Completed" "2024-03-05T10:00:00.000Z")]
     = [Some (exampleSale "Bashir" "Pending" "2024-03-06T09:30:00.000Z");
        Some (exampleSale "Amina" "Completed" "2024-03-05T10:00:00.000Z")].
Proof.
  split.
  - apply (proj1 (markAsDone_effect true true "s1"
                    [Some (exampleSale "Bashir" "Pending" "2024-03-06T09:30:00.000Z");
                     Some (exampleSale "Amina" "Completed" "2024-03-05T10:00:00.000Z")])
                 eq_refl eq_refl []
                 (exampleSale "Bashir" "Pending" "2024-03-06T09:30:00.000Z")
                 [Some (exampleSale "Amina" "Completed" "2024-03-05T10:00:00.000Z")]).
    + repeat split. constructor.
    + reflexivity.
  - apply (proj2 (markAsDone_effect true false "s1"
                    [Some (exampleSale "Bashir" "Pending" "2024-03-06T09:30:00.000Z");
                     Some (exampleSale "Amina" "Completed" "2024-03-05T10:00:00.000Z")])).
    right. left. reflexivity.
Defined.

(** X21. When the user confirms, the API client is set, its call succeeds
    and returns a sale, rollbackSale turns the first completed sale with the
    given id into a pending one: that sale gets status Pending, the array
    changes and nothing else in it does.  In every other case (no
    confirmation, no client, a failed call, no sale returned, no completed
    sale with that id) the sales stay as they are. *)
Theorem rollbackSale_effect (confirmed apiClient apiOk saleReturned : bool) (id : string)
        (sales : list (option TrackSale)) :
  (confirmed = true -> apiClient = true -> apiOk = true -> saleReturned = true ->
   forall before s after,
     firstMatch (fun s => isString id (ts_id s) && isString "Completed" (ts_status s))
                sales before s after ->
     rollbackSale confirmed apiClient apiOk saleReturned id sales
     = before ++ Some (withStatus "Pending" s) :: after
     /\ rollbackSale confirmed apiClient apiOk saleReturned id sales <> sales)
  /\ (confirmed = false \/ apiClient = false \/ apiOk = false \/ saleReturned = false
      \/ (forall before s after,
             ~ firstMatch (fun s => isString id (ts_id s)
                                    && isString "Completed" (ts_status s))
                          sales before s after) ->
      rollbackSale confirmed apiClient apiOk saleReturned id sales = sales).
Proof.
  split.
  - intros -> -> -> -> before s after M. unfold rollbackSale.
    rewrite (firstMatch_findIndex _ _ _ _ _ M).
    pose proof M as (-> & Hc & Hb). cbn [negb].
    rewrite setStatus_at. split; [reflexivity|].
    apply andb_prop in Hc. destruct Hc as [_ Hc]. apply isString_status in Hc.
    apply (withStatus_changes "Completed" "Pending"); [exact Hc | discriminate].
  - intros H. unfold rollbackSale.
    destruct (findIndex _ sales) as [[idx|]|] eqn:F; try reflexivity.
    destruct (findIndex_firstMatch _ _ _ F) as (before & s & after & M & <-).
    destruct H as [-> | [-> | [-> | [-> | H]]]]; try reflexivity.
    + destruct confirmed; reflexivity.
    + destruct confirmed, apiClient; reflexivity.
    + destruct confirmed, apiClient, apiOk; reflexivity.
    + now elim (H before s after).
Qed.

Lemma rollbackSale_effect_witness :
  rollbackSale true true true true "s1"
    [Some (exampleSale "Bashir" "Pending" "2024-03-06T09:30:00.000Z");
     Some (exampleSale "Amina" "Completed" "2024-03-05T10:00:00.000Z")]
  = [Some (exampleSale "Bashir" "Pending" "2024-03-06T09:30:00.000Z");
     Some (withStatus "Pending" (exampleSale "Amina" "Completed" "2024-03-05T10:00:00.000Z"))]
  /\ rollbackSale false true true true "s1"
       [Some (exampleSale "Bashir" "Pending" "2024-03-06T09:30:00.000Z");
        Some (exampleSale "Amina" "Completed" "2024-03-05T10:00:00.000Z")]
     = [Some (exampleSale "Bashir" "Pending" "2024-03-06T09:30:00.000Z");
        Some (exampleSale "Amina" "Completed" "2024-03-05T10:00:00.000Z")].
Proof.
  split.
  - apply (proj1 (rollbackSale_effect true true true true "s1"
                    [Some (exampleSale "Bashir" "Pending" "2024-03-06T09:30:00.000Z");
                     Some (exampleSale "Amina" "Completed" "2024-03-05T10:00:00.000Z")])
                 eq_refl eq_refl eq_refl eq_refl
                 [Some (exampleSale "Bashir" "Pending" "2024-03-06T09:30:00.000Z")]
                 (exampleSale "Amina" "Completed" "2024-03-05T10:00:00.000Z")
                 []).
    repeat split. constructor; [|constructor].
    eexists. split; reflexivity.
  - apply (proj2 (rollbackSale_effect false true true true "s1"
                    [Some (exampleSale "Bashir" "Pending" "2024-03-06T09:30:00.000Z");
                     Some (exampleSale "Amina" "Completed" "2024-03-05T10:00:00.000Z")])).
    left. reflexivity.
Defined.

(** X22. When the user is an admin and confirms, the API client is set and
    its call succeeds, deleteSale removes exactly the first sale with the
    given id: the sales before it and after it stay, in their order, and
    the array is one shorter.  In every other case (no admin, no
    confirmation, no client, a failed call, no sale with that id) the sales
    stay as they are. *)
Theorem deleteSale_effect (isAdmin confirmed apiClient apiOk : bool) (saleId : string)
        (sales : list (option TrackSale)) :
  (isAdmin = true -> confirmed = true -> apiClient = true -> apiOk = true ->
   forall before s after,
     firstMatch (fun s => isString saleId (ts_id s)) sales before s after ->
     deleteSale isAdmin confirmed apiClient apiOk saleId sales = before ++ after
     /\ S (Datatypes.length (deleteSale isAdmin confirmed apiClient apiOk saleId sales))
        = Datatypes.length sales)
  /\ (isAdmin = false \/ confirmed = false \/ apiClient = false \/ apiOk = false
      \/ (forall before s after,
             ~ firstMatch (fun s => isString saleId (ts_id s)) sales before s after) ->
      deleteSale isAdmin confirmed apiClient apiOk saleId sales = sales).
Proof.
  split.
  - intros -> -> -> -> before s after M. unfold deleteSale. cbn [negb].
    rewrite (firstMatch_findIndex _ _ _ _ _ M).
    pose proof M as (-> & Hc & Hb). rewrite splice1_at. split; [reflexivity|].
    rewrite !length_app. simpl. lia.
  - intros H. unfold deleteSale.
    destruct isAdmin; [|reflexivity]. cbn [negb].
    destruct (findIndex _ sales) as [[idx|]|] eqn:F; try reflexivity.
    destruct (findIndex_firstMatch _ _ _ F) as (before & s & after & M & <-).
    destruct H as [H | [-> | [-> | [-> | H]]]]; try reflexivity.
    + discriminate.
    + destruct confirmed; reflexivity.
    + destruct confirmed, apiClient; reflexivity.
    + now elim (H before s after).
Qed.

Lemma deleteSale_effect_witness :
  deleteSale true true true true "s1"
    [Some (exampleSale "Bashir" "Pending" "2024-03-06T09:30:00.000Z");
     Some (exampleSale "Amina" "Completed" "2024-03-05T10:00:00.000Z")]
  = [Some (exampleSale "Amina" "Completed" "2024-03-05T10:00:00.000Z")]
  /\ deleteSale false true true true "s1"
       [Some (exampleSale "Bashir" "Pending" "2024-03-06T09:30:00.000Z");
        Some (exampleSale "Amina" "Completed" "2024-03-05T10:00:00.000Z")]
     = [Some (exampleSale "Bashir" "Pending" "2024-03-06T09:30:00.000Z");
        Some (exampleSale "Amina" "Completed" "2024-03-05T10:00:00.000Z")].
Proof.
  split.
  - apply (proj1 (deleteSale_effect true true true true "s1"
                    [Some (exampleSale "Bashir" "Pending" "2024-03-06T09:30:00.000Z");
                     Some (exampleSale "Amina" "Completed" "2024-03-05T10:00:00.000Z")])
                 eq_refl eq_refl eq_refl eq_refl []
                 (exampleSale "Bashir" "Pending" "2024-03-06T09:30:00.000Z")
                 [Some (exampleSale "Amina" "Completed" "2024-03-05T10:00:00.000Z")]).
    repeat split. constructor.
  - apply (proj2 (deleteSale_effect false true true true "s1"
                    [Some (exampleSale "Bashir" "Pending" "2024-03-06T09:30:00.000Z");
                     Some (exampleSale "Amina" "Completed" "2024-03-05T10:00:00.000Z")])).
    left. reflexivity.
Defined.

Lemma withStatus_back (s : TrackSale) (status : string) :
  ts_status s = JsString status ->
  forall other, withStatus status (withStatus other s) = s.
Proof. destruct s; simpl; intros -> other; reflexivity. Qed.

(** X23. When the first sale with the given id is pending, markAsDone changes
    the sales, and rollbackSale with the same id, both calls succeeding,
    gives back the sales as they were. *)
Theorem markAsDone_rollbackSale (id : string) (sales : list (option TrackSale)) :
  firstIsPending id sales = true ->
  markAsDone true true id sales <> sales
  /\ rollbackSale true true true true id (markAsDone true true id sales) = sales.
Proof.
  unfold firstIsPending, markAsDone.
  destruct (findIndex _ sales) as [[idx|]|] eqn:F; try discriminate.
  destruct (findIndex_firstMatch _ _ _ F) as (before & s & after & M & <-).
  pose proof M as (-> & Hc & Hb). rewrite statusAt_at. intros P. rewrite P.
  cbn [negb]. rewrite setStatus_at.
  assert (Ps : ts_status s = JsString "Pending").
  { destruct (ts_status s); try discriminate. simpl in P.
    apply String.eqb_eq in P. now subst. }
  split.
  - intros E. apply app_inv_head in E. injection E as E.
    rewrite <- E in Ps. discriminate.
  - unfold rollbackSale.
    rewrite (firstMatch_findIndex _ _ before (withStatus "Completed" s) after).
    + cbn [negb]. rewrite setStatus_at. now rewrite withStatus_back.
    + split; [reflexivity|]. split; [simpl; now rewrite Hc|].
      eapply Forall_impl; [|exact Hb]. intros x (s' & -> & Hs').
      exists s'. split; [reflexivity|]. now rewrite Hs'.
Qed.

Lemma markAsDone_rollbackSale_witness :
  firstIsPending "s1"
    [Some (exampleSale "Bashir" "Pending" "2024-03-06T09:30:00.000Z"); Some (exampleSale "Amina" "Completed" "2024-03-05T10:00:00.000Z")]
  = true
  /\ rollbackSale true true true true "s1"
       (markAsDone true true "s1"
          [Some (exampleSale "Bashir" "Pending" "2024-03-06T09:30:00.000Z"); Some (exampleSale "Amina" "Completed" "2024-03-05T10:00:00.000Z")])
     = [Some (exampleSale "Bashir" "Pending" "2024-03-06T09:30:00.000Z"); Some (exampleSale "Amina" "Completed" "2024-03-05T10:00:00.000Z")].
Proof.
  split; [reflexivity|].
  apply (markAsDone_rollbackSale "s1"
           [Some (exampleSale "Bashir" "Pending" "2024-03-06T09:30:00.000Z"); Some (exampleSale "Amina" "Completed" "2024-03-05T10:00:00.000Z")]).
  reflexivity.
Defined.

End StateFacts.

(* ================================================================== *)
(** * The expense form *)
(* ================================================================== *)

Module ExpenseFacts.
Import Js Binary64 Props TextProps Expenses FloatFacts SanitizerFacts SanitizerShape.
Import EXPENSES_SECURITY_CONFIG.
Local Open Scope list_scope.

(** The three files hold the same sanitizer. *)
Lemma sanitizeInput_copies (input : JsValue) :
  Expenses.sanitizeInput input = Sales.sanitizeInput input.
Proof. reflexivity. Qed.

Lemma validateExpenseAmount_valid (amount : JsValue) :
  amountIsValid (validateExpenseAmount amount) = true ->
  inRange (amountValue (validateExpenseAmount amount)) MIN_AMOUNT MAX_AMOUNT = true.
Proof.
  unfold validateExpenseAmount.
  set (n := parseFloat _).
  destruct (isNaN n) eqn:En; [discriminate|].
  destruct (lt n MIN_AMOUNT || gt n MAX_AMOUNT) eqn:Eo; [discriminate|].
  intros _. cbn [amountValue].
  pose proof (outside_inRange n MIN_AMOUNT MAX_AMOUNT En eq_refl eq_refl) as H.
  unfold outside in H. rewrite Eo in H. now apply negb_false_iff.
Qed.

Lemma validateExpenseDescription_valid (description : JsValue) :
  textIsValid (validateExpenseDescription description) = true ->
  textValue (validateExpenseDescription description) = Expenses.sanitizeInput description
  /\ 1 <= String.length (Expenses.sanitizeInput description) <= 500.
Proof.
  unfold validateExpenseDescription.
  destruct (Expenses.sanitizeInput description) as [|c r] eqn:E; [discriminate|].
  destruct (_ <? _)%nat eqn:L; [discriminate|]. intros _.
  split; [reflexivity|]. apply Nat.ltb_ge in L.
  unfold MAX_DESCRIPTION_LENGTH in L. simpl in *. lia.
Qed.

Lemma validateExpenseCategory_valid (category : JsValue) :
  textIsValid (validateExpenseCategory category) = true ->
  textValue (validateExpenseCategory category) = Expenses.sanitizeInput category
  /\ In (Expenses.sanitizeInput category) ALLOWED_CATEGORIES.
Proof.
  unfold validateExpenseCategory.
  destruct (existsb _ _) eqn:E; [|discriminate]. intros _.
  split; [reflexivity|].
  apply existsb_exists in E. destruct E as (x & Hx & He).
  apply String.eqb_eq in He. now subst.
Qed.


Lemma inRange_finite (x lo hi : float) :
  isFinite lo = true -> isFinite hi = true -> inRange x lo hi = true -> isFinite x = true.
Proof.
  unfold inRange. rewrite !isFinite_spec, !leb_spec. unfold SFleb.
  destruct (Prim2SF x) as [s|[|]| |s m e], (Prim2SF lo) as [sl|sl| |sl ml el],
    (Prim2SF hi) as [sh|sh| |sh mh eh]; simpl; try discriminate; try reflexivity;
    try (destruct sl; discriminate); try (destruct sh; discriminate);
    try (destruct sl, sh; discriminate); rewrite ?andb_false_r; try discriminate.
Qed.

(** X24. The validators of the expense form: an amount found valid lies in
    [[0.01, 1000000]] and is finite, and the amount returned is never NaN; a
    description found valid is the sanitized one, of 1 to 500 characters and
    with no angle bracket; a category is valid exactly when its sanitized form
    is [work] or [non-work], which is then returned; a value that is no string
    is neither a valid description nor a valid category. *)
Theorem expense_validators_sound (value : JsValue) :
  (amountIsValid (validateExpenseAmount value) = true ->
     inRange (amountValue (validateExpenseAmount value)) MIN_AMOUNT MAX_AMOUNT = true
     /\ isFinite (amountValue (validateExpenseAmount value)) = true)
  /\ isNaN (amountValue (validateExpenseAmount value)) = false
  /\ (textIsValid (validateExpenseDescription value) = true ->
        textValue (validateExpenseDescription value) = Expenses.sanitizeInput value
        /\ 1 <= String.length (textValue (validateExpenseDescription value)) <= 500
        /\ allChars notAngle (textValue (validateExpenseDescription value)) = true)
  /\ (textIsValid (validateExpenseCategory value) = true <->
        Expenses.sanitizeInput value = "work"%string
        \/ Expenses.sanitizeInput value = "non-work"%string)
  /\ (textIsValid (validateExpenseCategory value) = true ->
        textValue (validateExpenseCategory value) = Expenses.sanitizeInput value)
  /\ ((forall s, value <> JsString s) ->
        textIsValid (validateExpenseDescription value) = false
        /\ textIsValid (validateExpenseCategory value) = false).
Proof.
  split; [|split; [|split; [|split; [|split]]]].
  - intros H. pose proof (validateExpenseAmount_valid value H) as R.
    split; [exact R|]. now apply (inRange_finite _ MIN_AMOUNT MAX_AMOUNT).
  - unfold validateExpenseAmount. set (n := parseFloat _).
    destruct (isNaN n) eqn:En; [reflexivity|].
    destruct (_ || _); exact En.
  - intros H. destruct (validateExpenseDescription_valid value H) as [E L].
    rewrite E. split; [reflexivity|]. split; [exact L|].
    rewrite sanitizeInput_copies.
    destruct value; try reflexivity. apply sanitizeString_notAngle.
  - unfold validateExpenseCategory, ALLOWED_CATEGORIES. cbn [existsb].
    destruct (String.eqb (Expenses.sanitizeInput value) "work") eqn:E1.
    + apply String.eqb_eq in E1. simpl. tauto.
    + destruct (String.eqb (Expenses.sanitizeInput value) "non-work") eqn:E2.
      * apply String.eqb_eq in E2. simpl. tauto.
      * apply String.eqb_neq in E1, E2. simpl. split; [discriminate | tauto].
  - intros H. now destruct (validateExpenseCategory_valid value H).
  - intros H. assert (E : Expenses.sanitizeInput value = EmptyString)
      by (destruct value; try reflexivity; now elim (H s)).
    unfold validateExpenseDescription, validateExpenseCategory. rewrite E. split; reflexivity.
Qed.


(** The validations a list of errors leaves standing. *)
Lemma expense_errors_nil (a b c d : bool) :
  (if a then [] else [BadDescription]) ++ (if b then [] else [BadAmount])
  ++ (if c then [] else [BadDate]) ++ (if d then [] else [BadCategory]) = [] ->
  a = true /\ b = true /\ c = true /\ d = true.
Proof. destruct a, b, c, d; simpl; intros H; try discriminate; auto. Qed.

Lemma expenseSubmit_saved (last : option float) (now : float) (systemDate : string)
      (dateIsValid : bool) (generatedId timestamp : string) (form : ExpenseForm)
      (entry : ExpenseEntry) :
  expenseSubmit last now systemDate dateIsValid generatedId timestamp form
  = SaveExpense entry ->
  textIsValid (validateExpenseDescription (JsString (description form))) = true
  /\ amountIsValid (validateExpenseAmount (JsString (amount form))) = true
  /\ dateIsValid = true
  /\ textIsValid (validateExpenseCategory (JsString (category form))) = true
  /\ entry = {| entry_id := generatedId;
                entry_description :=
                  textValue (validateExpenseDescription (JsString (description form)));
                entry_amount := amountValue (validateExpenseAmount (JsString (amount form)));
                entry_date := systemDate;
                entry_category :=
                  textValue (validateExpenseCategory (JsString (category form)));
                entry_type := "expense";
                entry_timestamp := timestamp |}.
Proof.
  unfold expenseSubmit. cbv zeta.
  destruct (match last with Some _ => _ | None => _ end); [discriminate|].
  destruct (_ ++ _) eqn:E; [|discriminate].
  apply expense_errors_nil in E. intros [= <-]. tauto.
Qed.

(** X25. An expense handed to saveExpense holds the sanitized description, of
    1 to 500 characters and with no angle bracket, a finite amount within
    [[0.01, 1000000]], a category among the allowed ones, the date of the
    clock, and the type [expense]; and the date was found valid. *)
Theorem expense_entry_valid (last : option float) (now : float) (systemDate : string)
        (dateIsValid : bool) (generatedId timestamp : string) (form : ExpenseForm)
        (entry : ExpenseEntry) :
  expenseSubmit last now systemDate dateIsValid generatedId timestamp form
  = SaveExpense entry ->
  entry_description entry = Expenses.sanitizeInput (JsString (description form))
  /\ 1 <= String.length (entry_description entry) <= 500
  /\ allChars notAngle (entry_description entry) = true
  /\ inRange (entry_amount entry) MIN_AMOUNT MAX_AMOUNT = true
  /\ isFinite (entry_amount entry) = true
  /\ In (entry_category entry) ALLOWED_CATEGORIES
  /\ entry_date entry = systemDate
  /\ entry_type entry = "expense"%string
  /\ dateIsValid = true.
Proof.
  intros H. apply expenseSubmit_saved in H. destruct H as (Hd & Ha & Ht & Hc & ->).
  cbn [entry_description entry_amount entry_category entry_date entry_type].
  destruct (validateExpenseDescription_valid _ Hd) as [Ed Ld].
  destruct (validateExpenseCategory_valid _ Hc) as [Ec Ic].
  pose proof (validateExpenseAmount_valid _ Ha) as Ra.
  rewrite Ed, Ec.
  split; [reflexivity|]. split; [exact Ld|].
  split; [rewrite sanitizeInput_copies; apply sanitizeString_notAngle|].
  split; [exact Ra|].
  split; [now apply (inRange_finite _ MIN_AMOUNT MAX_AMOUNT)|].
  split; [exact Ic|]. auto.
Qed.

Lemma expense_entry_valid_witness :
  expenseSubmit None 0 "2024-06-01" true "e1" "2024-06-01T08:00:00.000Z"
    {| description := " <b>Ink</b> cartridges "; amount := "49.90"; category := "work" |}
  = SaveExpense
      {| entry_id := "e1"; entry_description := "Ink cartridges";
         entry_amount := ofDecimal false 4990 (-2); entry_date := "2024-06-01";
         entry_category := "work"; entry_type := "expense";
         entry_timestamp := "2024-06-01T08:00:00.000Z" |}
  /\ inRange (ofDecimal false 4990 (-2)) MIN_AMOUNT MAX_AMOUNT = true.
Proof.
  assert (R : expenseSubmit None 0 "2024-06-01" true "e1" "2024-06-01T08:00:00.000Z"
    {| description := " <b>Ink</b> cartridges "; amount := "49.90"; category := "work" |}
  = SaveExpense
      {| entry_id := "e1"; entry_description := "Ink cartridges";
         entry_amount := ofDecimal false 4990 (-2); entry_date := "2024-06-01";
         entry_category := "work"; entry_type := "expense";
         entry_timestamp := "2024-06-01T08:00:00.000Z" |}) by (vm_compute; reflexivity).
  split; [exact R|].
  apply (expense_entry_valid _ _ _ _ _ _ _ _ R).
Defined.

(** X26. When the expense form is rejected, the list of errors is not empty and
    names exactly the validations that failed. *)
Theorem expense_rejected_errors (last : option float) (now : float) (systemDate : string)
        (dateIsValid : bool) (generatedId timestamp : string) (form : ExpenseForm)
        (errors : list ExpenseError) :
  expenseSubmit last now systemDate dateIsValid generatedId timestamp form
  = ExpenseRejected errors ->
  errors <> []
  /\ (In BadDescription errors <->
      textIsValid (validateExpenseDescription (JsString (description form))) = false)
  /\ (In BadAmount errors <->
      amountIsValid (validateExpenseAmount (JsString (amount form))) = false)
  /\ (In BadDate errors <-> dateIsValid = false)
  /\ (In BadCategory errors <->
      textIsValid (validateExpenseCategory (JsString (category form))) = false).
Proof.
  unfold expenseSubmit. cbv zeta.
  destruct (match last with Some _ => _ | None => _ end); [discriminate|].
  destruct (textIsValid _), (amountIsValid _), dateIsValid, (textIsValid _); simpl;
    intros [= <-]; (split; [discriminate|]); simpl;
    repeat split; intros; try discriminate; try tauto;
    repeat match goal with H : _ \/ _ |- _ => destruct H end; try discriminate; tauto.
Qed.

Lemma expense_rejected_errors_witness :
  expenseSubmit None 0 "2024-06-01" true "e1" "2024-06-01T08:00:00.000Z"
    {| description := "Ink"; amount := "0"; category := "travel" |}
  = ExpenseRejected [BadAmount; BadCategory]
  /\ amountIsValid (validateExpenseAmount (JsString "0")) = false.
Proof.
  assert (R : expenseSubmit None 0 "2024-06-01" true "e1" "2024-06-01T08:00:00.000Z"
    {| description := "Ink"; amount := "0"; category := "travel" |}
  = ExpenseRejected [BadAmount; BadCategory]) by (vm_compute; reflexivity).
  split; [exact R|].
  apply (proj1 (proj2 (proj2 (expense_rejected_errors _ _ _ _ _ _ _ _ R)))).
  simpl. tauto.
Defined.

End ExpenseFacts.

(* ================================================================== *)
(** * The amounts on display *)
(* ================================================================== *)

Module DisplayFacts.
Import Js Sales Binary64 Props DisplayProps FloatFacts Rounding RowTotalFacts AggregateFacts.
Local Open Scope Z_scope.
Local Abbreviation fexp := (SpecFloat.fexp prec emax).

Lemma bound_digits (k : Z) :
  1 <= k < 2 ^ 53 ->
  1 <= Zdigits2 k <= 53
  /\ 0 < k * 2 ^ (53 - Zdigits2 k)
  /\ Zdigits2 (k * 2 ^ (53 - Zdigits2 k)) = 53.
Proof.
  intros Hk.
  pose proof (digits_pos k ltac:(lia)) as Hp.
  pose proof (digits_le k 53 ltac:(lia) ltac:(lia)) as Hd.
  split; [lia|].
  assert (0 < 2 ^ (53 - Zdigits2 k)) by (apply Z.pow_pos_nonneg; lia).
  split; [nia|]. rewrite digits_shift by lia. lia.
Qed.

Lemma bound_valid (k : Z) :
  1 <= k < 2 ^ 53 -> valid_binary (bound k) = true.
Proof.
  intros Hk. destruct (bound_digits k Hk) as (Hd & Hp & H53).
  unfold bound, SpecFloat.valid_binary, bounded, canonical_mantissa.
  change (Z.pos (digits2_pos (Z.to_pos (k * 2 ^ (53 - Zdigits2 k)))))
    with (Zdigits2 (Zpos (Z.to_pos (k * 2 ^ (53 - Zdigits2 k))))).
  rewrite Z2Pos.id by lia. rewrite H53.
  apply andb_true_intro. split.
  - apply Z.eqb_eq. rewrite fexp_eq. lia.
  - apply Z.leb_le. change (emax - prec) with 971. lia.
Qed.

Lemma bound_parts (k : Z) :
  1 <= k < 2 ^ 53 ->
  exists mR : positive,
    bound k = S754_finite false mR (Zdigits2 k)
    /\ Zpos mR = k * 2 ^ (53 - Zdigits2 k).
Proof.
  intros Hk. destruct (bound_digits k Hk) as (Hd & Hp & _).
  exists (Z.to_pos (k * 2 ^ (53 - Zdigits2 k))). split; [reflexivity|].
  now rewrite Z2Pos.id.
Qed.

Lemma digits_mono (a b : Z) : 0 < a -> a <= b -> Zdigits2 a <= Zdigits2 b.
Proof.
  intros Ha Hab. rewrite !Zdigits2_log2 by lia.
  pose proof (Z.log2_le_mono a b Hab). lia.
Qed.

(** The order of two valid numbers is the order of their values. *)
Lemma SFleb_value (mx mR : positive) (ex eR : Z) :
  valid_binary (S754_finite false mx ex) = true ->
  valid_binary (S754_finite false mR eR) = true ->
  SFleb (S754_finite false mx ex) (S754_finite false mR eR) = true ->
  Zpos mx * 2 ^ (ex + 1074) <= Zpos mR * 2 ^ (eR + 1074).
Proof.
  intros Hx HR H.
  destruct (valid_finite _ _ _ Hx) as (Hcx & Hbx & Hdx & Hlx & Hmx).
  destruct (valid_finite _ _ _ HR) as (HcR & HbR & HdR & HlR & HmR).
  apply SFleb_finite_inv in H. destruct H as [Hlt | [-> Hle]].
  - rewrite fexp_eq in HcR.
    assert (HdR53 : Zdigits2 (Zpos mR) = 53).
    { clear - HcR Hlt Hlx. generalize dependent (Zdigits2 (Z.pos mR)). intros d HcR. lia. }
    pose proof (digits_bounds (Zpos mR) (Pos2Z.pos_is_pos mR)) as [Hlo _].
    rewrite HdR53 in Hlo.
    replace (eR + 1074) with ((eR - ex - 1) + ((ex + 1074) + 1)) by lia.
    rewrite (Z.pow_add_r 2 (eR - ex - 1)) by lia.
    rewrite (Z.pow_add_r 2 (ex + 1074) 1) by lia.
    assert (HP : 0 < 2 ^ (ex + 1074)) by (apply Z.pow_pos_nonneg; lia).
    assert (HQ : 0 < 2 ^ (eR - ex - 1)) by (apply Z.pow_pos_nonneg; lia).
    assert (A : Z.pos mx < 2 * Z.pos mR) by lia.
    clear - A HP HQ. change (2 ^ 1) with 2.
    generalize dependent (2 ^ (ex + 1074)). intros P HP.
    generalize dependent (2 ^ (eR - ex - 1)). intros Q HQ.
    assert (Z.pos mx * P <= 2 * Z.pos mR * P) by nia.
    assert (2 * Z.pos mR * P * 1 <= 2 * Z.pos mR * P * Q) by nia.
    nia.
  - apply Z.mul_le_mono_nonneg_r; [apply Z.pow_nonneg; lia | exact Hle].
Qed.

Lemma bound_mono (a b : Z) (m : positive) (e : Z) :
  1 <= a -> a <= b -> b < 2 ^ 53 ->
  SFleb (S754_finite false m e) (bound a) = true ->
  SFleb (S754_finite false m e) (bound b) = true.
Proof.
  intros Ha Hab Hb H.
  destruct (bound_parts a ltac:(lia)) as (ma & Ea & Ema). rewrite Ea in H.
  destruct (bound_parts b ltac:(lia)) as (mb & Eb & Emb). rewrite Eb.
  pose proof (digits_mono a b ltac:(lia) Hab) as Hd.
  destruct (bound_digits a ltac:(lia)) as (Hda & _).
  destruct (bound_digits b ltac:(lia)) as (Hdb & _).
  apply SFleb_finite_inv in H. apply SFleb_finite.
  destruct (Z.eq_dec (Zdigits2 a) (Zdigits2 b)) as [E|N].
  - destruct H as [H | [He Hm]]; [left; lia|]. right. split; [lia|].
    rewrite Emb, <- E. rewrite Ema in Hm.
    assert (0 <= 2 ^ (53 - Zdigits2 a)) by (apply Z.pow_nonneg; lia). nia.
  - left. lia.
Qed.

Lemma leBound_finiteSigned (k : Z) (x : spec_float) :
  leBound k x = true ->
  match x with S754_zero _ => True | _ => finiteSigned false x = true end.
Proof.
  destruct x as [s|s| |s m e]; simpl; try discriminate; [trivial|].
  destruct s; [discriminate | reflexivity].
Qed.

(** One more term of at most [2^53 - 1] on a sum of at most [k * 2^53]. *)
Lemma SFadd_leBound (k : Z) (x y : spec_float) :
  0 <= k -> k + 1 < 2 ^ 53 ->
  valid_binary x = true -> valid_binary y = true ->
  finiteSigned false x = true -> leBound k x = true ->
  finiteSigned false y = true -> SFleb y MAX_SAFE = true ->
  leBound (k + 1) (SFadd prec emax x y) = true.
Proof.
  intros Hk0 Hk Hx Hy Fx Lx Fy Hmax.
  pose proof (SFadd_safe x y Hx Hy Fx Fy Hmax) as Fr.
  assert (K1 : (1 <=? k + 1) = true) by (apply Z.leb_le; lia).
  destruct (bound_parts (k + 1) ltac:(lia)) as (mR & ER & EmR).
  destruct (bound_digits (k + 1) ltac:(lia)) as (HdR & _ & _).
  pose proof (bound_valid (k + 1) ltac:(lia)) as VR. rewrite ER in VR.
  assert (G : SFleb (SFadd prec emax x y) (bound (k + 1)) = true ->
              leBound (k + 1) (SFadd prec emax x y) = true).
  { intros H. destruct (SFadd prec emax x y) as [s|s| |s m e]; try discriminate;
      [reflexivity|]. simpl in Fr. destruct s; [discriminate|].
    unfold leBound. now rewrite K1, H. }
  destruct x as [sx|sx| |sx mx ex], y as [sy|sy| |sy my ey]; try discriminate;
    simpl in Fx, Fy;
    try (destruct sx; [discriminate|]); try (destruct sy; [discriminate|]).
  - reflexivity.
  - (* 0 + y *)
    apply G. cbn [SFadd]. rewrite ER. apply SFleb_finite. left.
    pose proof (below_MAX_SAFE my ey Hmax). lia.
  - (* x + 0 *)
    apply G. cbn [SFadd]. unfold leBound in Lx. apply andb_prop in Lx.
    destruct Lx as [Hk1 Lx]. apply Z.leb_le in Hk1.
    apply (bound_mono k (k + 1)); try lia. exact Lx.
  - (* two positive numbers *)
    apply G. unfold leBound in Lx. apply andb_prop in Lx.
    destruct Lx as [Hk1 Lx]. apply Z.leb_le in Hk1.
    destruct (bound_parts k ltac:(lia)) as (mK & EK & EmK).
    destruct (bound_digits k ltac:(lia)) as (HdK & _ & _).
    pose proof (bound_valid k ltac:(lia)) as VK. rewrite EK in VK, Lx.
    pose proof (SFleb_value _ _ _ _ Hx VK Lx) as Vx.
    pose proof (below_MAX_SAFE my ey Hmax) as Hey.
    destruct (valid_finite _ _ _ Hx) as (Hcx & Hbx & Hdx & Hlx & Hmx).
    destruct (valid_finite _ _ _ Hy) as (Hcy & Hby & Hdy & Hly & Hmy).
    unfold SFadd, cond_Zopp.
    pose proof (shl_align_spec mx ex (Z.min ex ey)) as Ax.
    pose proof (shl_align_spec my ey (Z.min ex ey)) as Ay.
    destruct (shl_align mx ex _) as [ax ezx], (shl_align my ey _) as [ay ezy].
    destruct Ax as [Ex Ax], Ay as [Ey Ay]. simpl fst.
    change (Z.pos ax + Z.pos ay) with (Z.pos (ax + ay)). unfold binary_normalize.
    rewrite ER. set (ez := Z.min ex ey) in *.
    assert (Hez : -1074 <= ez <= 0) by lia.
    apply binary_round_le; [exact VR | lia |].
    rewrite Pos2Z.inj_add, Ax, Ay, EmR.
    replace ezx with ez by lia. replace ezy with ez by lia.
    (* the value of x, scaled to the exponent of the sum *)
    rewrite EmK in Vx.
    assert (Sx : Z.pos mx * 2 ^ (ex - ez) <= k * 2 ^ (53 - ez)).
    { apply (Z.mul_le_mono_pos_r _ _ (2 ^ (ez + 1074)));
        [apply Z.pow_pos_nonneg; lia|].
      rewrite <- !Z.mul_assoc, <- !Z.pow_add_r by lia.
      replace (ex - ez + (ez + 1074)) with (ex + 1074) by lia.
      replace (53 - ez + (ez + 1074)) with (53 - Zdigits2 k + (Zdigits2 k + 1074)) by lia.
      rewrite (Z.pow_add_r 2 (53 - Zdigits2 k) (Zdigits2 k + 1074)) by lia.
      rewrite Z.mul_assoc. exact Vx. }
    assert (Sy : Z.pos my * 2 ^ (ey - ez) <= 2 ^ (53 - ez)).
    { replace (53 - ez) with (53 + (ey - ez) + - ey) by lia.
      rewrite !Z.pow_add_r by lia.
      assert (0 < 2 ^ (ey - ez)) by (apply Z.pow_pos_nonneg; lia).
      assert (1 <= 2 ^ (- ey)) by (pose proof (Z.pow_pos_nonneg 2 (- ey)); lia).
      clear - Hmy H H0.
      generalize dependent (2 ^ (ey - ez)). intros P HP.
      generalize dependent (2 ^ (- ey)). intros Q HQ.
      assert (Z.pos my * P <= 2 ^ 53 * P) by nia.
      assert (2 ^ 53 * P * 1 <= 2 ^ 53 * P * Q) by nia. lia. }
    replace (53 - Zdigits2 (k + 1) + (Zdigits2 (k + 1) - ez)) with (53 - ez) by lia.
    replace (k + 1) with (k + 1) by lia.
    rewrite <- Z.mul_assoc, <- Z.pow_add_r by lia.
    replace (53 - Zdigits2 (k + 1) + (Zdigits2 (k + 1) - ez)) with (53 - ez) by lia.
    lia.
Qed.


(** ** The sum of the row totals *)

Lemma rowTotal_term (row : Row) :
  valid_binary (Prim2SF (rowTotal row)) = true
  /\ finiteSigned false (Prim2SF (rowTotal row)) = true
  /\ SFleb (Prim2SF (rowTotal row)) MAX_SAFE = true.
Proof.
  split; [apply Prim2SF_valid|]. split; [apply rowTotal_nonnegFinite|].
  change MAX_SAFE with (Prim2SF MAX_SAFE_INTEGER). rewrite <- leb_spec.
  apply rowTotal_le_MAX_SAFE.
Qed.

Lemma fold_rowTotal_leBound (rows : list Row) :
  forall (k : Z) (acc : float),
    0 <= k -> k + Z.of_nat (List.length rows) < 2 ^ 53 ->
    nonnegFinite acc = true -> leBound k (Prim2SF acc) = true ->
    leBound (k + Z.of_nat (List.length rows))
      (Prim2SF (fold_left (fun supTotal row => (supTotal + rowTotal row)%float) rows acc))
    = true.
Proof.
  induction rows as [|row rest IH]; intros k acc Hk Hn Fa La.
  - simpl. now rewrite Z.add_0_r.
  - cbn [fold_left List.length] in *. rewrite Nat2Z.inj_succ in *.
    replace (k + Z.succ (Z.of_nat (List.length rest)))
      with ((k + 1) + Z.of_nat (List.length rest)) by lia.
    destruct (rowTotal_term row) as (Vr & Fr & Mr).
    apply IH; [lia | lia | |].
    + now apply add_rowTotal_nonnegFinite.
    + rewrite add_spec. apply SFadd_leBound; try assumption; try lia.
      apply Prim2SF_valid.
Qed.

Lemma sumTotals_leBound (rows : list Row) :
  Z.of_nat (List.length rows) < 2 ^ 53 ->
  leBound (Z.of_nat (List.length rows)) (Prim2SF (sumTotals rows)) = true.
Proof.
  intros H. unfold sumTotals.
  apply (fold_rowTotal_leBound rows 0 0%float); try lia; reflexivity.
Qed.

Lemma rowTotal_leBound (row : Row) : leBound 1 (Prim2SF (rowTotal row)) = true.
Proof.
  destruct (rowTotal_term row) as (Vr & Fr & Mr).
  destruct (Prim2SF (rowTotal row)) as [s|s| |s m e]; try discriminate; [reflexivity|].
  simpl in Fr. destruct s; [discriminate|]. unfold leBound.
  change (1 <=? 1) with true. cbn [andb].
  destruct (bound_parts 1 ltac:(lia)) as (mR & -> & _).
  apply SFleb_finite. left. pose proof (below_MAX_SAFE m e Mr).
  change (Zdigits2 1) with 1. lia.
Qed.

(** ** Two decimals *)

Lemma leBound_exponent (k : Z) (m : positive) (e : Z) :
  k < 2 ^ 16 -> valid_binary (S754_finite false m e) = true ->
  leBound k (S754_finite false m e) = true -> e <= 16.
Proof.
  intros Hk V H. unfold leBound in H. apply andb_prop in H. destruct H as [H1 H].
  apply Z.leb_le in H1.
  destruct (bound_parts k ltac:(lia)) as (mR & ER & _). rewrite ER in H.
  apply SFleb_finite_inv in H.
  pose proof (digits_le k 16 ltac:(lia) Hk). lia.
Qed.

Lemma below_1e21 (x : float) (m : positive) (e : Z) :
  Prim2SF x = S754_finite false m e -> e <= 16 -> (abs x <? 1e21)%float = true.
Proof.
  intros E He. rewrite ltb_spec, abs_spec, E.
  change (Prim2SF 1e21) with (S754_finite false 7629394531250000 17).
  unfold SFabs, SFltb, SFcompare.
  rewrite (proj2 (Z.compare_lt_iff e 17)) by lia. reflexivity.
Qed.


Local Close Scope Z_scope.

Lemma allChars_app (P : ascii -> bool) (a b : string) :
  allChars P (a ++ b) = allChars P a && allChars P b.
Proof.
  induction a as [|c a IH]; simpl; [reflexivity|]. rewrite IH. apply andb_assoc.
Qed.

Lemma length_app (a b : string) :
  String.length (a ++ b) = String.length a + String.length b.
Proof. induction a as [|c a IH]; simpl; [reflexivity | now rewrite IH]. Qed.

Lemma string_of_uint_digits (u : Decimal.uint) :
  allChars isDigit (NilEmpty.string_of_uint u) = true.
Proof. induction u; simpl; try reflexivity; exact IHu. Qed.

Lemma digitsOf_digits (n : Z) :
  allChars isDigit (digitsOf n) = true /\ 1 <= String.length (digitsOf n).
Proof.
  unfold digitsOf, NilZero.string_of_uint.
  destruct (N.to_uint (Z.to_N n)) as [|u|u|u|u|u|u|u|u|u|u];
    (split; [try reflexivity; apply (string_of_uint_digits (_ u)) | simpl; lia]).
Qed.

Lemma zeros_digits (n : nat) :
  allChars isDigit (zeros n) = true /\ String.length (zeros n) = n.
Proof. induction n as [|n [IH1 IH2]]; simpl; [split; reflexivity | now rewrite IH1, IH2]. Qed.

Lemma last_two (d : string) :
  2 <= String.length d ->
  exists ip a b, d = ip ++ String a (String b EmptyString).
Proof.
  induction d as [|c d IH]; simpl; intros H; [lia|].
  destruct d as [|a d]; [simpl in H; lia|].
  destruct d as [|b d].
  - exists EmptyString, c, a. reflexivity.
  - destruct (IH ltac:(simpl; lia)) as (ip & x & y & E).
    exists (String c ip), x, y. simpl. now rewrite <- E.
Qed.

Lemma substring_front (ip t : string) :
  String.substring 0 (String.length ip) (ip ++ t) = ip.
Proof.
  induction ip as [|c ip IH]; simpl; [destruct t; reflexivity | now rewrite IH].
Qed.

Lemma substring_back (ip : string) (a b : ascii) :
  String.substring (String.length ip) 2 (ip ++ String a (String b EmptyString))
  = String a (String b EmptyString).
Proof. induction ip as [|c ip IH]; simpl; [reflexivity | exact IH]. Qed.

Lemma isMoney_cons (c : ascii) (r : string) :
  isMoney r = true -> isDigit c = true -> isMoney (String c r) = true.
Proof. intros Hr Hc. cbn [isMoney]. now rewrite Hc, Hr. Qed.

Lemma isMoney_parts (ip : string) (a b : ascii) :
  ip <> EmptyString -> allChars isDigit ip = true -> isDigit a = true -> isDigit b = true ->
  isMoney (ip ++ "." ++ String a (String b EmptyString)) = true.
Proof.
  intros Hne Hd Ha Hb. induction ip as [|c ip IH]; [now elim Hne|].
  simpl in Hd. apply andb_prop in Hd. destruct Hd as [Hc Hd].
  destruct ip as [|c' ip].
  - simpl. now rewrite Hc, Ha, Hb.
  - cbn [append]. apply isMoney_cons; [|exact Hc].
    apply IH; [discriminate | exact Hd].
Qed.

(** The layout of toFixed(2) on a string of at least three digits. *)
Lemma money_layout (d : string) :
  allChars isDigit d = true -> 3 <= String.length d ->
  isMoney (String.substring 0 (String.length d - 2) d ++ "."
           ++ String.substring (String.length d - 2) 2 d) = true.
Proof.
  intros Hd Hl. destruct (last_two d ltac:(lia)) as (ip & a & b & ->).
  rewrite length_app in *. cbn [String.length] in *.
  replace (String.length ip + 2 - 2) with (String.length ip) by lia.
  rewrite substring_front, substring_back.
  rewrite allChars_app in Hd. apply andb_prop in Hd. destruct Hd as [Hi Hab].
  simpl in Hab. apply andb_prop in Hab. destruct Hab as [Ha Hb].
  apply andb_prop in Hb. destruct Hb as [Hb _].
  apply isMoney_parts; try assumption. destruct ip; [simpl in Hl; lia | discriminate].
Qed.

Lemma toFixed2_money (k : Z) (x : float) :
  (k < 2 ^ 16)%Z -> leBound k (Prim2SF x) = true -> isMoney (toFixed2 x) = true.
Proof.
  intros Hk H. unfold toFixed2.
  pose proof (Prim2SF_valid x) as V.
  destruct (Prim2SF x) as [s|s| |s m e] eqn:E; try discriminate; [reflexivity|].
  simpl in H. destruct s; [discriminate|].
  rewrite (below_1e21 x m e E (leBound_exponent k m e Hk V H)).
  cbn [append].
  set (n := if (0 <=? e)%Z then _ else _).
  destruct (digitsOf_digits n) as [Dd Dl].
  destruct (zeros_digits (3 - String.length (digitsOf n))) as [Zd Zl].
  apply money_layout.
  - now rewrite allChars_app, Zd, Dd.
  - rewrite length_app, Zl. lia.
Qed.


(** X28. Whatever the number of rows, the total cell updateAllTotals writes
    in a row is left empty or reads as digits, a point and two digits.  With
    at most 50 rows, the capacity of a sale, the subtotal it shows reads so
    too: never NaN, Infinity, a sign or an exponent; and so does the total
    when the discount field holds no positive number. *)
Theorem totals_display (f : Form) :
  Forall (fun row => row_itemTotal row = ""%string
                     \/ isMoney (row_itemTotal row) = true)
         (rows (updateAllTotals f))
  /\ ((List.length (rows f) <= SECURITY_CONFIG.MAX_ITEMS_PER_SALE)%nat ->
      isMoney (supTotal (updateAllTotals f)) = true
      /\ (gt (discountOf (discount f)) 0 = false ->
          isMoney (total (updateAllTotals f)) = true)).
Proof.
  split.
  - unfold updateAllTotals. cbn [rows]. apply Forall_map, Forall_forall.
    intros row _. unfold showRowTotal. cbn [row_itemTotal].
    destruct (gt (rowTotal row) 0); [right | now left].
    apply (toFixed2_money 1); [lia | apply rowTotal_leBound].
  - intros Hn. unfold SECURITY_CONFIG.MAX_ITEMS_PER_SALE in Hn.
    assert (Hs : isMoney (toFixed2 (sumTotals (rows f))) = true).
    { apply (toFixed2_money (Z.of_nat (List.length (rows f)))); [lia|].
      apply sumTotals_leBound. lia. }
    split; [exact Hs|].
    intros Hd. unfold updateAllTotals, applyDiscount. cbn [total]. now rewrite Hd.
Qed.

Lemma totals_display_witness :
  isMoney (supTotal (updateAllTotals
                       (exampleForm [exampleRow "10" "5" "2" "3"; exampleRow "" "" "5" "20"])))
  = true
  /\ supTotal (updateAllTotals
                 (exampleForm [exampleRow "10" "5" "2" "3"; exampleRow "" "" "5" "20"]))
     = "400.00"%string.
Proof.
  split; [|reflexivity].
  refine (proj1 (proj2 (totals_display
                          (exampleForm [exampleRow "10" "5" "2" "3";
                                        exampleRow "" "" "5" "20"])) _)).
  unfold SECURITY_CONFIG.MAX_ITEMS_PER_SALE. simpl. lia.
Defined.

End DisplayFacts.

(* ================================================================== *)
(** * Scenarios *)
(* ================================================================== *)

Module Scenarios.
Import Js Sales SalesTrack Props.

(** One row of 10 by 5, 2 pieces at 3, with a discount of 10 percent. *)
Example area_row_with_discount :
  let f := updateAllTotals
             {| rows := [exampleRow "10" "5" "2" "3"]; discount := "10";
                supTotal := ""; total := "";
                customerName := "Amina"; customerPhone := "0612345678" |} in
  map row_itemTotal (rows f) = ["300.00"] /\ supTotal f = "300.00" /\ total f = "270.00".
Proof. vm_compute. repeat split. Qed.

(** Five pieces at 20, no dimensions. *)
Example flat_row :
  let f := updateAllTotals (exampleForm [exampleRow "" "" "5" "20"]) in
  map row_itemTotal (rows f) = ["100.00"] /\ supTotal f = "100.00" /\ total f = "100.00".
Proof. vm_compute. repeat split. Qed.

(** A width without a length: no total, and the handler's message for the
    row. *)
Example one_dimension_row :
  rowTotal (exampleRow "10" "0" "1" "5") = 0%float
  /\ validationErrors (checkRows [exampleRow "10" "0" "1" "5"])
     = ["Row 1: Both width and length must be provided together, or neither."]
  /\ submit exampleWindow 1000 "id" "2024-01-01" (exampleForm [exampleRow "10" "0" "1" "5"])
     = ValidationError.
Proof. vm_compute. repeat split. Qed.

(** Fifty-one rows. *)
Example too_many_rows :
  submit exampleWindow 1000 "id" "2024-01-01"
    (exampleForm (repeat (exampleRow "" "" "5" "20") 51)) = TooManyItems.
Proof. vm_compute. reflexivity. Qed.

(** A second submission within two seconds of the first. *)
Example rate_limited :
  submit {| lastSubmissionTime := Some 1700000000000%float; apiClient := true |}
    1700000001500 "id" "2024-01-01" (exampleForm [exampleRow "" "" "5" "20"])
  = RateLimited.
Proof. vm_compute. reflexivity. Qed.

(** The built-ins on a few inputs. *)
Example builtins :
  numberToString (parseFloat "0.1" + parseFloat "0.2") = "0.30000000000000004"
  /\ numberToString (parseFloat " 12.5px") = "12.5"
  /\ numberToString (parseFloat "1e21") = "1e+21"
  /\ numberToString (parseFloat ".5e-6") = "5e-7"
  /\ numberToString (parseFloat "abc") = "NaN"
  /\ numberToString (parseInt "2.5") = "2"
  /\ numberToString (parseInt "0x1F") = "31"
  /\ toFixed2 (parseFloat "1.005") = "1.00"
  /\ toFixed2 (parseFloat "0.125") = "0.13"
  /\ toFixed2 (parseFloat "-2.5") = "-2.50"
  /\ sanitizeInput (JsString " <script>alert(1)</script> ") = "alert(1)"
  /\ ToString (JsNumber (parseFloat "100")) = "100".
Proof. vm_compute. repeat split. Qed.

End Scenarios.
